(** * A shallow embedding of the JWT authentication service

    The development follows the TypeScript sources:
    - [src/core/rfc7519.ts]                      token issuance and verification,
    - [src/modules/middleware/verify-session-jwt] and
      [src/modules/middleware/has-session.ts]    the session gate,
    - [src/api/v1/session/service.ts]            the session table,
    - [src/api/v1/auth/controller]               [getStatus], [login], [verifyOTP],
    - [src/modules/middleware/slow-down.ts]      the API-wide slow-down.

    Handlers are written in a small state-and-exception monad over a [World]
    that holds the relational tables, the key-value cache, the clock, the
    Express request/response pair of the request being served and a
    chronological log of the observable calls. *)

From Stdlib Require Import ZArith String List Bool Lia DecimalString.
From stdpp Require Import gmap strings list.
Import ListNotations.

Local Open Scope string_scope.

(** ** JavaScript values *)

(** A string is falsy exactly when it is empty; [undefined] and [null] are
    the [None] of an option. *)
Definition truthy (s : string) : bool := negb (String.eqb s "").

Definition truthyO (o : option string) : bool :=
  match o with
  | Some s => truthy s
  | None => false
  end.

(** [a !== b] on two possibly-undefined strings. *)
Definition strict_neq (a b : option string) : bool :=
  match a, b with
  | Some x, Some y => negb (String.eqb x y)
  | None, None => false
  | _, _ => true
  end.

(** ** Errors *)

Inductive Err : Type :=
| AppError (message : string) (statusCode : Z)
| UnauthorizedError (code : string)
| JOSEError (name : string)
| TypeError (message : string)
| HeadersSent
| PrismaUniqueViolation (column : string)
| PrismaNotFound.

Definition err_status (e : Err) : option Z :=
  match e with
  | AppError _ c => Some c
  | _ => None
  end.

(** ** Tokens (RFC 7519) *)

Inductive Alg : Type := HS256 | EdDSA.

Definition Alg_eqb (a b : Alg) : bool :=
  match a, b with
  | HS256, HS256 | EdDSA, EdDSA => true
  | _, _ => false
  end.

(** The seven registered claims.  [jti] and [sub] stay optional because the
    handlers test them for presence after decoding. *)
Record JWTPayload : Type := {
  aud : string;
  exp : Z;
  iat : Z;
  iss : string;
  jti : option string;
  nbf : Z;
  sub : option string;
}.

(** A compact JWS: protected header [{alg, typ: 'JWT'}], payload, signature. *)
Record JWT : Type := {
  alg : Alg;
  payload : JWTPayload;
  signature : string;
}.

(** What a header can carry where a token is expected: a well-formed
    compact JWS, or any other text. *)
Inductive TokenString : Type :=
| Compact (t : JWT)
| Malformed (raw : string).

(** The [Authorization] header. *)
Inductive Authorization : Type :=
| Bearer (t : TokenString)
| OtherScheme (raw : string).

(** ** Relational records (prisma/migrations) *)

Record User : Type := {
  userPK : Z;
  userID : string;
  username : string;
  email : string;
  phoneNumber : string;
  password : string;
  totpSecret : string;
  fullName : string;
  isActive : bool;
}.

Record SessionData : Type := {
  lastActive : Z;
  signedIn : Z;
  device : string;
  ipAddress : string;
  userAgent : string;
}.

Record SessionRow : Type := {
  sessionPK : Z;
  sessionID : string;
  s_userPK : Z;
  s_data : SessionData;
}.

(** [req.session], see extensions.d.ts. *)
Record AuthInfo : Type := {
  a_userPK : Z;
  a_userID : string;
  a_tokenID : string;
  a_sessionPK : Z;
  a_sessionID : string;
  a_lastActive : Z;
  a_signedIn : Z;
  a_device : string;
  a_ip : string;
}.

(** ** Express request and response *)

#[projections(primitive)] Record Request : Type := {
  authorization : option Authorization;
  otp_authorization : option TokenString;
  user_agent : option string;
  body_username : string;
  body_password : string;
  auth : option JWTPayload;
  session : option AuthInfo;
}.

Inductive Data : Type :=
| DataNone
| DataStatus (isAuthenticated isMFA : bool) (user : option User)
| DataLogin (user : User) (token : JWT)
| DataToken (token : JWT).

Record Response : Type := {
  statusCode : Z;
  status : string;
  message : string;
  data : Data;
  type : string;
}.

(** ** The key-value cache behind [CacheService] *)

#[projections(primitive)] Record Cache : Type := {
  sess : gmap string string;
  otpAttempts : gmap string nat;
  blacklistedOTP : gset (string * string);
  securityAlertEmailLock : gset string;
  otpSess : gmap string string;
}.

Definition empty_cache : Cache :=
  {| sess := ∅; otpAttempts := ∅; blacklistedOTP := ∅;
     securityAlertEmailLock := ∅; otpSess := ∅ |}.

(** ** Observable calls *)

Inductive Event : Type :=
| EvGetUserIDFromSession (sid : string)
| EvSetSession (sid uid : string)
| EvDeleteSession (sid : string)
| EvGetOTPAttempts (uid : string)
| EvSetOTPAttempts (uid : string)
| EvGetBlacklistedOTP (uid code : string)
| EvBlacklistOTP (uid code : string)
| EvGetSecurityAlertEmailLock (uid : string)
| EvSetSecurityAlertEmailLock (uid : string)
| EvGetOTPSession (jti : string)
| EvSetOTPSession (jti uid : string)
| EvValidateTOTP (code secret : string)
| EvVerifyPassword (uid : string)
| EvSendNotification (to name : string)
| EvSignHS256 (t : JWT)
| EvSignEdDSA (t : JWT)
| EvSend (r : Response)
| EvNext (e : option Err).

(** ** The world *)

#[projections(primitive)] Record World : Type := {
  users : list User;
  sessions : list SessionRow;
  nextSessionPK : Z;
  cache : Cache;
  clock : nat → Z;
  reads : nat;
  entropy : nat → string;
  draws : nat;
  req : Request;
  res : option Response;
  log : list Event;
}.

Definition set_sessions (f : list SessionRow → list SessionRow) (w : World) : World :=
  {| users := users w; sessions := f (sessions w); nextSessionPK := nextSessionPK w;
     cache := cache w; clock := clock w; reads := reads w; entropy := entropy w;
     draws := draws w; req := req w;
     res := res w; log := log w |}.

Definition set_nextSessionPK (n : Z) (w : World) : World :=
  {| users := users w; sessions := sessions w; nextSessionPK := n;
     cache := cache w; clock := clock w; reads := reads w; entropy := entropy w;
     draws := draws w; req := req w;
     res := res w; log := log w |}.

Definition set_cache (f : Cache → Cache) (w : World) : World :=
  {| users := users w; sessions := sessions w; nextSessionPK := nextSessionPK w;
     cache := f (cache w); clock := clock w; reads := reads w; entropy := entropy w;
     draws := draws w; req := req w;
     res := res w; log := log w |}.

Definition set_reads (n : nat) (w : World) : World :=
  {| users := users w; sessions := sessions w; nextSessionPK := nextSessionPK w;
     cache := cache w; clock := clock w; reads := n; entropy := entropy w;
     draws := draws w; req := req w;
     res := res w; log := log w |}.

Definition set_draws (n : nat) (w : World) : World :=
  {| users := users w; sessions := sessions w; nextSessionPK := nextSessionPK w;
     cache := cache w; clock := clock w; reads := reads w; entropy := entropy w;
     draws := n; req := req w; res := res w; log := log w |}.

Definition set_req (f : Request → Request) (w : World) : World :=
  {| users := users w; sessions := sessions w; nextSessionPK := nextSessionPK w;
     cache := cache w; clock := clock w; reads := reads w; entropy := entropy w;
     draws := draws w; req := f (req w);
     res := res w; log := log w |}.

Definition set_res (r : option Response) (w : World) : World :=
  {| users := users w; sessions := sessions w; nextSessionPK := nextSessionPK w;
     cache := cache w; clock := clock w; reads := reads w; entropy := entropy w;
     draws := draws w; req := req w;
     res := r; log := log w |}.

Definition emit (e : Event) (w : World) : World :=
  {| users := users w; sessions := sessions w; nextSessionPK := nextSessionPK w;
     cache := cache w; clock := clock w; reads := reads w; entropy := entropy w;
     draws := draws w; req := req w;
     res := res w; log := log w ++ [e] |}.

(** ** The handler monad: state plus exceptions *)

Inductive Completion (A : Type) : Type :=
| Done (a : A)
| Thrown (e : Err).
Arguments Done {A} a.
Arguments Thrown {A} e.

Definition M (A : Type) : Type := World → Completion A * World.

Definition ret {A} (a : A) : M A := fun w => (Done a, w).

Definition bind {A B} (c : M A) (k : A → M B) : M B :=
  fun w =>
    match c w with
    | (Done a, w') => k a w'
    | (Thrown e, w') => (Thrown e, w')
    end.

Definition throw {A} (e : Err) : M A := fun w => (Thrown e, w).

(** [try { c } catch (e) { h e }] *)
Definition try_catch {A} (c : M A) (h : Err → M A) : M A :=
  fun w =>
    match c w with
    | (Done a, w') => (Done a, w')
    | (Thrown e, w') => h e w'
    end.

Definition get_world : M World := fun w => (Done w, w).
Definition modify (f : World → World) : M unit := fun w => (Done tt, f w).
Definition tell (e : Event) : M unit := modify (emit e).

Notation "'let!' x ':=' c 'in' k" := (bind c (fun x => k))
  (at level 10, x name, c at level 100, k at level 200, only parsing).
Notation "c >> k" := (bind c (fun _ => k))
  (at level 100, k at level 200, right associativity, only parsing).

(** [Date.now()]: every call is a fresh reading of the clock. *)
Definition Date_now : M Z :=
  fun w => (Done (clock w (reads w)), set_reads (S (reads w)) w).

(** [randomUUID()], [nanoid()] and a column's generated default: every call
    draws the next identifier from the entropy source. *)
Definition draw_id : M string :=
  fun w => (Done (entropy w (draws w)), set_draws (S (draws w)) w).

(** [Math.floor(ms / 1000)] *)
Definition seconds (ms : Z) : Z := (ms / 1000)%Z.

(** ** What the sources import but do not define

    The configuration module, the cryptographic primitives of [jose], and the
    helpers of [core/rfc7617], [core/rfc6238], [util/passwords] and
    [util/device-id] are taken as parameters. *)

Record Externals : Type := {
  JWT_SECRET : string;
  JWT_AUDIENCE : string;
  JWT_ISSUER : string;
  JWT_PRIVATE_KEY : string;
  JWT_PUBLIC_KEY : string;
  hmacSHA256 : string → JWTPayload → string;
  edSign : string → JWTPayload → string;
  edVerify : string → JWTPayload → string → bool;
  parseBasicAuth : Authorization → string * string;
  validateDefaultTOTP : string → string → bool;
  verifyPassword : string → string → bool;
  getDeviceID : Request → string * string;
}.

(** ** CacheService *)

Module CacheService.

Definition with_sess (f : gmap string string → gmap string string) (c : Cache) : Cache :=
  {| sess := f (sess c); otpAttempts := otpAttempts c;
     blacklistedOTP := blacklistedOTP c;
     securityAlertEmailLock := securityAlertEmailLock c; otpSess := otpSess c |}.

Definition with_otpAttempts (f : gmap string nat → gmap string nat) (c : Cache) : Cache :=
  {| sess := sess c; otpAttempts := f (otpAttempts c);
     blacklistedOTP := blacklistedOTP c;
     securityAlertEmailLock := securityAlertEmailLock c; otpSess := otpSess c |}.

Definition with_blacklistedOTP
    (f : gset (string * string) → gset (string * string)) (c : Cache) : Cache :=
  {| sess := sess c; otpAttempts := otpAttempts c;
     blacklistedOTP := f (blacklistedOTP c);
     securityAlertEmailLock := securityAlertEmailLock c; otpSess := otpSess c |}.

Definition with_securityAlertEmailLock (f : gset string → gset string) (c : Cache) : Cache :=
  {| sess := sess c; otpAttempts := otpAttempts c;
     blacklistedOTP := blacklistedOTP c;
     securityAlertEmailLock := f (securityAlertEmailLock c); otpSess := otpSess c |}.

Definition with_otpSess (f : gmap string string → gmap string string) (c : Cache) : Cache :=
  {| sess := sess c; otpAttempts := otpAttempts c;
     blacklistedOTP := blacklistedOTP c;
     securityAlertEmailLock := securityAlertEmailLock c; otpSess := f (otpSess c) |}.

(** Modelled from the spec: the module [modules/cache/service] is not
    among the sources.  Session Store, section 4.2: [get(sessionID)] gives
    the subject or absent. *)
Definition getUserIDFromSession (sid : string) : M (option string) :=
  tell (EvGetUserIDFromSession sid) >>
  let! w := get_world in ret (sess (cache w) !! sid).

(** Modelled from the spec: [put(sessionID, subjectID)] is an idempotent
    upsert under the session identifier. *)
Definition setSession (sid uid : string) : M unit :=
  tell (EvSetSession sid uid) >>
  modify (set_cache (with_sess (insert sid uid))).

(** Modelled from the spec: [delete(sessionID)] is explicit revocation. *)
Definition deleteSession (sid : string) : M unit :=
  tell (EvDeleteSession sid) >>
  modify (set_cache (with_sess (delete sid))).

(** Modelled from the spec: the attempt counter is a per-subject integer;
    a key never written reads as absent. *)
Definition getOTPAttempts (uid : string) : M (option nat) :=
  tell (EvGetOTPAttempts uid) >>
  let! w := get_world in ret (otpAttempts (cache w) !! uid).

(** Modelled from the spec: the lockout counter increments by one on every
    failed verification. *)
Definition setOTPAttempts (uid : string) : M unit :=
  tell (EvSetOTPAttempts uid) >>
  modify (set_cache (with_otpAttempts
    (fun m => <[uid := S (default 0 (m !! uid))]> m))).

(** Modelled from the spec: a blacklist entry is a consumed
    (subject, code) pair. *)
Definition getBlacklistedOTP (uid code : string) : M bool :=
  tell (EvGetBlacklistedOTP uid code) >>
  let! w := get_world in
  ret (bool_decide ((uid, code) ∈ blacklistedOTP (cache w))).

(** Modelled from the spec: a code that passed validation is recorded in
    the blacklist for the rest of its time-step. *)
Definition blacklistOTP (uid code : string) : M unit :=
  tell (EvBlacklistOTP uid code) >>
  modify (set_cache (with_blacklistedOTP (fun s => {[ (uid, code) ]} ∪ s))).

(** Modelled from the spec: the security notification is one-time per
    lockout episode, so the lock that guards it lasts as long as the
    episode. *)
Definition getSecurityAlertEmailLock (uid : string) : M bool :=
  tell (EvGetSecurityAlertEmailLock uid) >>
  let! w := get_world in
  ret (bool_decide (uid ∈ securityAlertEmailLock (cache w))).

(** Modelled from the spec: setting the lock marks the notification of
    this episode as sent. *)
Definition setSecurityAlertEmailLock (uid : string) : M unit :=
  tell (EvSetSecurityAlertEmailLock uid) >>
  modify (set_cache (with_securityAlertEmailLock (fun s => {[ uid ]} ∪ s))).

(** Modelled from the spec: the step-up session maps a token identifier
    to the subject it was issued to. *)
Definition getOTPSession (j : string) : M (option string) :=
  tell (EvGetOTPSession j) >>
  let! w := get_world in ret (otpSess (cache w) !! j).

(** Modelled from the spec: the step-up session is recorded under the
    token identifier. *)
Definition setOTPSession (j uid : string) : M unit :=
  tell (EvSetOTPSession j uid) >>
  modify (set_cache (with_otpSess (insert j uid))).

End CacheService.

(** ** UserService *)

Module UserService.

(** Modelled from the spec: [api/v1/user/service] is not among the
    sources; the relational store answers point reads on the unique
    subject identifier. *)
Definition getUser (uid : string) : M (option User) :=
  let! w := get_world in
  ret (List.find (fun u => String.eqb (userID u) uid) (users w)).

(** Modelled from the spec: the same point read, with every column of the
    record. *)
Definition getUserComplete (uid : string) : M (option User) := getUser uid.

(** Modelled from the spec: a point read on the unique credential columns;
    the caller passes the same text as username, email and phone number. *)
Definition getUserByCredentials (name mail phone : string) : M (option User) :=
  let! w := get_world in
  ret (List.find (fun u => String.eqb (username u) name
                           || String.eqb (email u) mail
                           || String.eqb (phoneNumber u) phone) (users w)).

End UserService.

(** ** The mailer *)

(** Modelled from the spec: [modules/email] is not among the sources; the
    notification dispatcher is fire-and-forget, so only the fact that
    [new Email(to, name).sendNotification()] was called is kept. *)
Definition sendNotification (to name : string) : M unit :=
  tell (EvSendNotification to name).

(** ** SessionService over the [Session] table *)

Inductive SessionWhere : Type :=
| BySessionPK (pk : Z)
| BySessionID (sid : string)
| ByUserPK (pk : Z).

Definition matches (wh : SessionWhere) (r : SessionRow) : bool :=
  match wh with
  | BySessionPK pk => (sessionPK r =? pk)%Z
  | BySessionID sid => String.eqb (sessionID r) sid
  | ByUserPK pk => (s_userPK r =? pk)%Z
  end.

(** The rewrite an [update] performs: the row of the user is replaced. *)
Definition replace_for (upk : Z) (row : SessionRow) (r : SessionRow) : SessionRow :=
  if (s_userPK r =? upk)%Z then row else r.

Module SessionService.

(** [prisma.session.findUnique({ where, select })] *)
Definition getSession (wh : SessionWhere) : M (option SessionRow) :=
  let! w := get_world in ret (List.find (matches wh) (sessions w)).

(** [prisma.session.upsert({ where: { userPK }, update: { sessionID, ...data },
    create: { userPK, ...data } })].  The table has unique indexes on
    [userPK] and on [sessionID]; a created row takes the next serial key and
    a generated [sessionID]. *)
Definition upsert (upk : Z) (newID : string) (d : SessionData) : M SessionRow :=
  let! w := get_world in
  match List.find (matches (ByUserPK upk)) (sessions w) with
  | Some old =>
      if existsb (fun r => String.eqb (sessionID r) newID
                           && negb (s_userPK r =? upk)%Z) (sessions w)
      then throw (PrismaUniqueViolation "sessionID")
      else
        let row := {| sessionPK := sessionPK old; sessionID := newID;
                      s_userPK := upk; s_data := d |} in
        modify (set_sessions (List.map (replace_for upk row))) >>
        ret row
  | None =>
      let! generated := draw_id in
      if existsb (fun r => String.eqb (sessionID r) generated) (sessions w)
      then throw (PrismaUniqueViolation "sessionID")
      else
        let row := {| sessionPK := nextSessionPK w; sessionID := generated;
                      s_userPK := upk; s_data := d |} in
        modify (fun w => set_nextSessionPK (nextSessionPK w + 1)
                           (set_sessions (fun l => (l ++ [row])%list) w)) >>
        ret row
  end.

(** [createOrUpdateSession]: the [update] argument is built before the
    call, so [randomUUID()] is drawn on either branch. *)
Definition createOrUpdateSession (u : User) (d : SessionData) : M SessionRow :=
  let! fresh := draw_id in
  let! session := upsert (userPK u) fresh d in
  CacheService.setSession (sessionID session) (userID u) >>
  ret session.

(** [prisma.session.update({ where, data, select })] *)
Definition updateSession (wh : SessionWhere) (d : SessionData) : M SessionRow :=
  let! w := get_world in
  match List.find (matches wh) (sessions w) with
  | None => throw PrismaNotFound
  | Some old =>
      let row := {| sessionPK := sessionPK old; sessionID := sessionID old;
                    s_userPK := s_userPK old; s_data := d |} in
      modify (set_sessions
                (List.map (fun r => if matches wh r then row else r))) >>
      ret row
  end.

(** [deleteSession]: remove the row, then the cache entry of its
    [sessionID]. *)
Definition deleteSession (wh : SessionWhere) : M unit :=
  let! w := get_world in
  match List.find (matches wh) (sessions w) with
  | None => throw PrismaNotFound
  | Some sessionDeleted =>
      modify (set_sessions (List.filter (fun r => negb (matches wh r)))) >>
      CacheService.deleteSession (sessionID sessionDeleted)
  end.

End SessionService.

(** ** Token Issuer ([core/rfc7519.ts]) *)

Section Tokens.

Variable E : Externals.

(** [signHS256JWT(jti, sub, expiration)].  The payload literal reads
    [Date.now()] three times, in the order [exp], [iat], [nbf]. *)
Definition signHS256JWT (j s : string) (expiration : Z) : M JWT :=
  let! t_exp := Date_now in
  let! t_iat := Date_now in
  let! t_nbf := Date_now in
  let p := {| aud := JWT_AUDIENCE E;
              exp := (seconds t_exp + expiration * 60)%Z;
              iat := seconds t_iat;
              iss := JWT_ISSUER E;
              jti := Some j;
              nbf := seconds t_nbf;
              sub := Some s |} in
  let t := {| alg := HS256; payload := p;
              signature := hmacSHA256 E (JWT_SECRET E) p |} in
  tell (EvSignHS256 t) >> ret t.

(** [signEdDSAJWT(jti, sub, expiration)] *)
Definition signEdDSAJWT (j s : string) (expiration : Z) : M JWT :=
  let! t_exp := Date_now in
  let! t_iat := Date_now in
  let! t_nbf := Date_now in
  let p := {| aud := JWT_AUDIENCE E;
              exp := (seconds t_exp + expiration * 60)%Z;
              iat := seconds t_iat;
              iss := JWT_ISSUER E;
              jti := Some j;
              nbf := seconds t_nbf;
              sub := Some s |} in
  let t := {| alg := EdDSA; payload := p;
              signature := edSign E (JWT_PRIVATE_KEY E) p |} in
  tell (EvSignEdDSA t) >> ret t.

(** [verifyEdDSAJWT(token)]: [jwtVerify] with the public key and the
    expected audience and issuer; it throws on any failure. *)
Definition verifyEdDSAJWT (token : TokenString) : M JWT :=
  match token with
  | Malformed _ => throw (JOSEError "JWSInvalid")
  | Compact t =>
      if negb (Alg_eqb (alg t) EdDSA) then throw (JOSEError "JOSEAlgNotAllowed")
      else if negb (edVerify E (JWT_PUBLIC_KEY E) (payload t) (signature t))
      then throw (JOSEError "JWSSignatureVerificationFailed")
      else if negb (String.eqb (iss (payload t)) (JWT_ISSUER E))
      then throw (JOSEError "JWTClaimValidationFailed")
      else if negb (String.eqb (aud (payload t)) (JWT_AUDIENCE E))
      then throw (JOSEError "JWTClaimValidationFailed")
      else
        let! ms := Date_now in
        let now := seconds ms in
        if (now <? nbf (payload t))%Z then throw (JOSEError "JWTClaimValidationFailed")
        else if (exp (payload t) <=? now)%Z then throw (JOSEError "JWTExpired")
        else ret t
  end.

(** [verifySessionJwt]: [expressjwt] configured with [HS256], the shared
    secret, the audience and the issuer; no path is exempt.  The result is
    what the middleware hands to its continuation: an error, or nothing
    after storing the payload in [req.auth]. *)
Definition set_auth (p : JWTPayload) (r : Request) : Request :=
  {| authorization := authorization r; otp_authorization := otp_authorization r;
     user_agent := user_agent r; body_username := body_username r;
     body_password := body_password r; auth := Some p; session := session r |}.

Definition verifySessionJwt : M (option Err) :=
  let! w := get_world in
  match authorization (req w) with
  | None => ret (Some (UnauthorizedError "credentials_required"))
  | Some (OtherScheme _) => ret (Some (UnauthorizedError "credentials_bad_scheme"))
  | Some (Bearer (Malformed _)) => ret (Some (UnauthorizedError "invalid_token"))
  | Some (Bearer (Compact t)) =>
      let! ms := Date_now in
      let now := seconds ms in
      if negb (Alg_eqb (alg t) HS256)
      then ret (Some (UnauthorizedError "invalid_token"))
      else if negb (String.eqb (signature t) (hmacSHA256 E (JWT_SECRET E) (payload t)))
      then ret (Some (UnauthorizedError "invalid_token"))
      else if (now <? nbf (payload t))%Z
      then ret (Some (UnauthorizedError "invalid_token"))
      else if (exp (payload t) <=? now)%Z
      then ret (Some (AppError "You are not logged in yet! Please log in first!" 401))
      else if negb (String.eqb (aud (payload t)) (JWT_AUDIENCE E))
      then ret (Some (UnauthorizedError "invalid_token"))
      else if negb (String.eqb (iss (payload t)) (JWT_ISSUER E))
      then ret (Some (UnauthorizedError "invalid_token"))
      else modify (set_req (set_auth (payload t))) >> ret None
  end.

End Tokens.

(** ** Express plumbing *)

(** [next(err)] and [next()] *)
Definition next (e : option Err) : M unit := tell (EvNext e).

(** [sendResponse]: [res.status(statusCode).json(...)].  Every call is
    logged; the first one is delivered, and a later one on the same response
    raises Node's [ERR_HTTP_HEADERS_SENT]. *)
Definition sendResponse (r : Response) : M unit :=
  tell (EvSend r) >>
  let! w := get_world in
  match res w with
  | Some _ => throw HeadersSent
  | None => modify (set_res (Some r))
  end.

(** A handler starts on a fresh request/response pair. *)
Definition begin_request (r : Request) (w : World) : World :=
  set_res None (set_req (fun _ => r) w).

Definition serve {A} (h : M A) (r : Request) (w : World) : Completion A * World :=
  h (begin_request r w).

(** Reading the log. *)
Fixpoint next_calls (l : list Event) : list (option Err) :=
  match l with
  | [] => []
  | EvNext x :: l' => x :: next_calls l'
  | _ :: l' => next_calls l'
  end.

Fixpoint send_calls (l : list Event) : list Response :=
  match l with
  | [] => []
  | EvSend r :: l' => r :: send_calls l'
  | _ :: l' => send_calls l'
  end.

Definition is_notification (e : Event) : bool :=
  match e with EvSendNotification _ _ => true | _ => false end.

Definition is_setOTPAttempts (e : Event) : bool :=
  match e with EvSetOTPAttempts _ => true | _ => false end.

Definition is_validateTOTP (e : Event) : bool :=
  match e with EvValidateTOTP _ _ => true | _ => false end.

Definition is_signEdDSA (e : Event) : bool :=
  match e with EvSignEdDSA _ => true | _ => false end.

Definition count (p : Event → bool) (l : list Event) : nat :=
  length (List.filter p l).

(** ** Middleware and controllers *)

Section Handlers.

Variable E : Externals.

Definition integrity_error : Err :=
  AppError "Failed to verify the integrity of the token." 401.

Definition set_session (a : AuthInfo) (r : Request) : Request :=
  {| authorization := authorization r; otp_authorization := otp_authorization r;
     user_agent := user_agent r; body_username := body_username r;
     body_password := body_password r; auth := auth r; session := Some a |}.

(** [hasSession] (modules/middleware/has-session.ts) *)
Definition hasSession : M unit :=
  let! err := verifySessionJwt E in
  match err with
  | Some e => next (Some e)
  | None =>
      let! w := get_world in
      match auth (req w) ≫= jti with
      | None => next (Some integrity_error)
      | Some sessionID =>
          if negb (truthy sessionID) then next (Some integrity_error)
          else
            let! userID := CacheService.getUserIDFromSession sessionID in
            if negb (truthyO userID) then next (Some integrity_error)
            else
              let! session := SessionService.getSession (BySessionID sessionID) in
              match session with
              | None =>
                  CacheService.deleteSession sessionID >>
                  next (Some integrity_error)
              | Some session =>
                  let uid := default "" userID in
                  let! user := UserService.getUserComplete uid in
                  match user with
                  | None =>
                      next (Some (AppError
                        "User belonging to this session does not exist." 400))
                  | Some user =>
                      if negb (isActive user)
                      then next (Some (AppError
                             "User is not active. Please contact the admin." 403))
                      else
                        let '(dev, ip) := getDeviceID E (req w) in
                        let! la := Date_now in
                        let! si := Date_now in
                        let sessionData :=
                          {| lastActive := la; signedIn := si; device := dev;
                             ipAddress := ip;
                             userAgent := default "" (user_agent (req w)) |} in
                        SessionService.updateSession (BySessionID sessionID) sessionData >>
                        modify (set_req (set_session
                          {| a_userPK := userPK user; a_userID := uid;
                             a_tokenID := sessionID;
                             a_sessionPK := sessionPK session;
                             a_sessionID := sessionID;
                             a_lastActive := la; a_signedIn := si;
                             a_device := dev; a_ip := ip |})) >>
                        next None
                  end
              end
      end
  end.

(** [sendUserStatus] *)
Definition sendUserStatus (isAuthenticated isMFA : bool) (user : option User) : M unit :=
  sendResponse {| statusCode := 200; status := "success";
                  message := "Successfully fetched the user's status!";
                  data := DataStatus isAuthenticated isMFA user;
                  type := "auth" |}.

(** [extractHeader(req, 'otp-authorization')] followed by [!token] *)
Definition extract_otp_token (r : Request) : option TokenString :=
  match otp_authorization r with
  | Some (Malformed "") => None
  | o => o
  end.

(** [AuthController.getStatus] *)
Definition getStatus : M unit :=
  try_catch
    (let! w := get_world in
     match session (req w) with
     | None => throw (TypeError "Cannot read properties of undefined")
     | Some s =>
         if negb (truthy (a_userID s)) then sendUserStatus false false None
         else
           let! user := UserService.getUser (a_userID s) in
           match user with
           | None => sendUserStatus false false None
           | Some u =>
               if negb (isActive u) then sendUserStatus false false None
               else
                 match extract_otp_token (req w) with
                 | None => sendUserStatus true false (Some u)
                 | Some token =>
                     let! decoded :=
                       try_catch
                         (let! d := verifyEdDSAJWT E token in ret (Some d))
                         (fun _ => ret None) in
                     match decoded with
                     | None => sendUserStatus true false (Some u)
                     | Some decoded =>
                         if negb (truthyO (jti (payload decoded)))
                         then sendUserStatus true false (Some u)
                         else
                           let! userID :=
                             CacheService.getOTPSession
                               (default "" (jti (payload decoded))) in
                           if negb (truthyO userID)
                           then sendUserStatus true false (Some u)
                           else
                             (if strict_neq (Some (a_userID s)) userID
                                 || strict_neq (sub (payload decoded)) userID
                              then sendUserStatus true false (Some u)
                              else ret tt) >>
                             sendUserStatus true true (Some u)
                     end
                 end
           end
     end)
    (fun _ => sendUserStatus false false None).

(** [AuthController.login].  The response carries the user record; the
    removal of its confidential fields is not modelled. *)
Definition login : M unit :=
  let! w := get_world in
  let name := body_username (req w) in
  let pass := body_password (req w) in
  let! user := UserService.getUserByCredentials name name name in
  match user with
  | None => next (Some (AppError "Invalid username and/or password!" 401))
  | Some user =>
      tell (EvVerifyPassword (userID user)) >>
      if negb (verifyPassword E (password user) pass)
      then next (Some (AppError "Invalid username and/or password!" 401))
      else if negb (isActive user)
      then next (Some (AppError "User is not active. Please contact the admin." 403))
      else
        let '(dev, ip) := getDeviceID E (req w) in
        let! la := Date_now in
        let! si := Date_now in
        let sessionData :=
          {| lastActive := la; signedIn := si; device := dev; ipAddress := ip;
             userAgent := default "" (user_agent (req w)) |} in
        let! session := SessionService.createOrUpdateSession user sessionData in
        let age := (60 * 24)%Z in
        let! token := signHS256JWT E (sessionID session) (userID user) age in
        sendResponse {| statusCode := 200; status := "success";
                        message := "Logged in successfully!";
                        data := DataLogin user token; type := "auth" |}
  end.

(** [invalidBasicAuth]: set the [Authenticate] header, then [next(err)]. *)
Definition invalidBasicAuth (msg : string) (code : Z) : M unit :=
  next (Some (AppError msg code)).

Definition lockout_message : string :=
  "You have exceeded the number of times allowed for a secured session. Please try again in the next day.".

Definition replay_message : string :=
  "This OTP has expired. Please request it again in 30 seconds!".

Definition wrong_code_message : string :=
  "Invalid authentication, wrong OTP code.".

(** [!req.headers.authorization] *)
Definition present_authorization (r : Request) : option Authorization :=
  match authorization r with
  | Some (OtherScheme "") => None
  | o => o
  end.

(** [attempts && Number.parseInt(attempts, 10) === 3] *)
Definition reached_three (attempts : option nat) : bool :=
  match attempts with
  | Some n => Nat.eqb n 3
  | None => false
  end.

(** [AuthController.verifyOTP] *)
Definition verifyOTP : M unit :=
  let! w := get_world in
  match present_authorization (req w) with
  | None => invalidBasicAuth "Missing authorization in request!" 401
  | Some a =>
      let '(name, pass) := parseBasicAuth E a in
      if negb (truthy name) || negb (truthy pass)
      then invalidBasicAuth "Invalid authentication scheme!" 401
      else
        let! user := UserService.getUserComplete name in
        match user with
        | None => invalidBasicAuth "User with that ID is not found." 404
        | Some user =>
            let! attempts := CacheService.getOTPAttempts (userID user) in
            if reached_three attempts
            then
              let! locked := CacheService.getSecurityAlertEmailLock (userID user) in
              (if negb locked
               then CacheService.setSecurityAlertEmailLock (userID user) >>
                    sendNotification (email user) (fullName user)
               else ret tt) >>
              invalidBasicAuth lockout_message 429
            else
              let! usedOTP := CacheService.getBlacklistedOTP (userID user) pass in
              if usedOTP
              then CacheService.setOTPAttempts (userID user) >>
                   invalidBasicAuth replay_message 410
              else
                tell (EvValidateTOTP pass (totpSecret user)) >>
                let validTOTP := validateDefaultTOTP E pass (totpSecret user) in
                if negb validTOTP
                then CacheService.setOTPAttempts (userID user) >>
                     invalidBasicAuth wrong_code_message 401
                else
                  CacheService.blacklistOTP (userID user) pass >>
                  let! j := draw_id in
                  let! token := signEdDSAJWT E j (userID user) 15 in
                  CacheService.setOTPSession j (userID user) >>
                  sendResponse {| statusCode := 200; status := "success";
                                  message := "OTP verified. Special session has been given to the user.";
                                  data := DataToken token; type := "auth" |}
        end
  end.

(** The step-up token [verifyOTP] signs for [u] at world [w], after the
    identifier [j] has been drawn. *)
Definition stepup_token (w : World) (u : User) (j : string) : JWT :=
  let p := {| aud := JWT_AUDIENCE E;
              exp := (seconds (clock w (reads w)) + 15 * 60)%Z;
              iat := seconds (clock w (S (reads w)));
              iss := JWT_ISSUER E;
              jti := Some j;
              nbf := seconds (clock w (S (S (reads w))));
              sub := Some (userID u) |} in
  {| alg := EdDSA; payload := p; signature := edSign E (JWT_PRIVATE_KEY E) p |}.

Definition stepup_response (t : JWT) : Response :=
  {| statusCode := 200; status := "success";
     message := "OTP verified. Special session has been given to the user.";
     data := DataToken t; type := "auth" |}.

End Handlers.

(** ** The API-wide slow-down ([modules/middleware/slow-down.ts]) *)

Module SlowDown.

Local Open Scope Z_scope.








End SlowDown.

(** ** Sequences of requests and the shape of an OTP request *)

(** Serving a list of requests one after the other with the same handler. *)
Fixpoint run_all (h : M unit) (rs : list Request) (w : World) : World :=
  match rs with
  | [] => w
  | r :: rs' => run_all h rs' (snd (serve h r w))
  end.

(** The request is a [verifyOTP] call for subject [u] presenting [code]:
    its Basic credentials parse to the subject's identifier and the code,
    and the identifier resolves to [u]. *)
Definition presents (E : Externals) (r : Request) (w : World)
    (u : User) (code : string) : Prop :=
  ∃ a, present_authorization r = Some a
       ∧ parseBasicAuth E a = (userID u, code)
       ∧ truthy (userID u) = true
       ∧ truthy code = true
       ∧ List.find (fun x => String.eqb (userID x) (userID u)) (users w) = Some u.

(** The request bears a session token that [verifySessionJwt] accepts at
    clock second [now]. *)
Definition valid_session_token (E : Externals) (now : Z) (t : JWT) : Prop :=
  alg t = HS256
  ∧ signature t = hmacSHA256 E (JWT_SECRET E) (payload t)
  ∧ (nbf (payload t) <= now)%Z
  ∧ (now < exp (payload t))%Z
  ∧ aud (payload t) = JWT_AUDIENCE E
  ∧ iss (payload t) = JWT_ISSUER E.

(** The step-up token is one that [verifyEdDSAJWT] accepts at clock second
    [now]. *)
Definition valid_stepup_token (E : Externals) (now : Z) (t : JWT) : Prop :=
  alg t = EdDSA
  ∧ edVerify E (JWT_PUBLIC_KEY E) (payload t) (signature t) = true
  ∧ iss (payload t) = JWT_ISSUER E
  ∧ aud (payload t) = JWT_AUDIENCE E
  ∧ (nbf (payload t) <= now)%Z
  ∧ (now < exp (payload t))%Z.

(** The body [sendUserStatus] sends. *)
Definition status_response (isAuthenticated isMFA : bool) (user : option User) : Response :=
  {| statusCode := 200; status := "success";
     message := "Successfully fetched the user's status!";
     data := DataStatus isAuthenticated isMFA user;
     type := "auth" |}.

(** The [Session] table honours its two unique indexes: at most one row per
    user, at most one row per session identifier. *)
Definition table_ok (l : list SessionRow) : Prop :=
  NoDup (List.map s_userPK l) ∧ NoDup (List.map sessionID l).

(** ** A concrete instance, used to exercise the statements *)

Module Demo.

Fixpoint split_colon (s : string) : string * string :=
  match s with
  | EmptyString => ("", "")
  | String c rest =>
      if Ascii.eqb c (Ascii.ascii_of_nat 58) then ("", rest)
      else let '(a, b) := split_colon rest in (String c a, b)
  end.

Definition E : Externals :=
  {| JWT_SECRET := "secret";
     JWT_AUDIENCE := "api";
     JWT_ISSUER := "auth";
     JWT_PRIVATE_KEY := "private";
     JWT_PUBLIC_KEY := "public";
     hmacSHA256 := fun k p => k ++ "." ++ default "" (jti p);
     edSign := fun k p => "ed." ++ default "" (jti p);
     edVerify := fun k p s => String.eqb s ("ed." ++ default "" (jti p));
     parseBasicAuth := fun a => match a with
                                | OtherScheme raw => split_colon raw
                                | Bearer _ => ("", "")
                                end;
     validateDefaultTOTP := fun code secret => String.eqb code secret;
     verifyPassword := fun hash candidate => String.eqb hash candidate;
     getDeviceID := fun _ => ("device", "127.0.0.1") |}.

Definition alice : User :=
  {| userPK := 1; userID := "alice"; username := "alice";
     email := "alice@example.com"; phoneNumber := "+100";
     password := "pw-alice"; totpSecret := "123456";
     fullName := "Alice"; isActive := true |}.

Definition bob : User :=
  {| userPK := 2; userID := "bob"; username := "bob";
     email := "bob@example.com"; phoneNumber := "+200";
     password := "pw-bob"; totpSecret := "654321";
     fullName := "Bob"; isActive := true |}.

Definition no_request : Request :=
  {| authorization := None; otp_authorization := None; user_agent := None;
     body_username := ""; body_password := ""; auth := None; session := None |}.

(** The clock stands at second 1000; identifiers are drawn as
    [id0], [id1], [id2], ... *)
Definition ids (n : nat) : string :=
  match n with
  | 0 => "id0" | 1 => "id1" | 2 => "id2" | 3 => "id3" | 4 => "id4"
  | _ => "id5"
  end.

Definition w0 : World :=
  {| users := [alice; bob]; sessions := []; nextSessionPK := 1;
     cache := empty_cache; clock := fun _ => 1000000%Z; reads := 0;
     entropy := ids; draws := 0; req := no_request; res := None; log := [] |}.

Definition basic (credentials : string) : Request :=
  {| authorization := Some (OtherScheme credentials); otp_authorization := None;
     user_agent := None; body_username := ""; body_password := "";
     auth := None; session := None |}.

Definition credentials (name pass : string) : Request :=
  {| authorization := None; otp_authorization := None; user_agent := None;
     body_username := name; body_password := pass; auth := None; session := None |}.

Definition bearer (t : JWT) : Request :=
  {| authorization := Some (Bearer (Compact t)); otp_authorization := None;
     user_agent := None; body_username := ""; body_password := "";
     auth := None; session := None |}.

Definition with_attempts (n : nat) (w : World) : World :=
  set_cache (CacheService.with_otpAttempts (fun _ => {[ "alice" := n ]})) w.

(** Alice after two strikes, and after three. *)
Definition w_two_strikes : World := with_attempts 2 w0.
Definition w_locked : World := with_attempts 3 w0.

Definition right_code : Request := basic "alice:123456".
Definition wrong_code : Request := basic "alice:000000".

(** Alice's session token for session [s-alice], and a world whose cache
    knows that session. *)
Definition alice_token : JWT :=
  {| alg := HS256;
     payload := {| aud := "api"; exp := 87400; iat := 1000; iss := "auth";
                   jti := Some "s-alice"; nbf := 1000; sub := Some "alice" |};
     signature := "secret.s-alice" |}.

Definition w_alice_session : World :=
  set_cache (CacheService.with_sess (fun _ => {[ "s-alice" := "alice" ]})) w0.

(** The same world with the row of that session in the table. *)
Definition alice_row : SessionRow :=
  {| sessionPK := 1; sessionID := "s-alice"; s_userPK := 1;
     s_data := {| lastActive := 0; signedIn := 0; device := "device";
                  ipAddress := "127.0.0.1"; userAgent := "" |} |}.

Definition w_alice_live : World := set_sessions (fun _ => [alice_row]) w_alice_session.

(** What the first and the second login of Alice answer from [w0]. *)
Definition login_alice : Request := credentials "alice" "pw-alice".

Definition login_token (sid : string) : JWT :=
  {| alg := HS256;
     payload := {| aud := "api"; exp := 87400; iat := 1000; iss := "auth";
                   jti := Some sid; nbf := 1000; sub := Some "alice" |};
     signature := "secret." ++ sid |}.

Definition login_response (sid : string) : Response :=
  {| statusCode := 200; status := "success"; message := "Logged in successfully!";
     data := DataLogin alice (login_token sid); type := "auth" |}.

(** Bob's step-up token, and Alice's session presenting it. *)
Definition bob_stepup : JWT :=
  {| alg := EdDSA;
     payload := {| aud := "api"; exp := 1900; iat := 1000; iss := "auth";
                   jti := Some "j-bob"; nbf := 1000; sub := Some "bob" |};
     signature := "ed.j-bob" |}.

Definition alice_session : AuthInfo :=
  {| a_userPK := 1; a_userID := "alice"; a_tokenID := "s-alice";
     a_sessionPK := 1; a_sessionID := "s-alice"; a_lastActive := 1000000;
     a_signedIn := 1000000; a_device := "device"; a_ip := "127.0.0.1" |}.

Definition alice_with_bobs_token : Request :=
  {| authorization := None; otp_authorization := Some (Compact bob_stepup);
     user_agent := None; body_username := ""; body_password := "";
     auth := None; session := Some alice_session |}.

Definition w_bob_stepup : World :=
  set_cache (CacheService.with_otpSess (fun _ => {[ "j-bob" := "bob" ]})) w0.

End Demo.

(** * The rest of the token module, the error handler, and the handlers
      that end a session *)

(** ** [extractJWTFromAuthHeader] ([core/rfc7519.ts]) *)

Definition space : Ascii.ascii := Ascii.ascii_of_nat 32.

(** [s.split(sep)] for a separator of one character: the pieces between
    the separators, empty pieces included. *)
Fixpoint split_on (sep : Ascii.ascii) (s : string) : list string :=
  match s with
  | EmptyString => [EmptyString]
  | String c rest =>
      if Ascii.eqb c sep then EmptyString :: split_on sep rest
      else match split_on sep rest with
           | piece :: pieces => String c piece :: pieces
           | [] => [String c EmptyString]
           end
  end.

Fixpoint has_char (c : Ascii.ascii) (s : string) : bool :=
  match s with
  | EmptyString => false
  | String c' s' => Ascii.eqb c' c || has_char c s'
  end.

(** [extractJWTFromAuthHeader(req)]; the argument is
    [req.headers.authorization]. *)
Definition extractJWTFromAuthHeader (header : option string) : option string :=
  match header with
  | Some a =>
      if String.prefix "Bearer " a then nth_error (split_on space a) 1 else None
  | None => None
  end.

(** ** [validateJWTPayload] ([core/rfc7519.ts]) *)









(** ** The error handler ([modules/error]) *)

(** A segment of the path of a Zod issue: a key or an index. *)
Inductive PathSegment : Type :=
| Key (k : string)
| Index (i : N).

Record ZodIssue : Type := {
  issue_path : list PathSegment;
  issue_message : string;
}.

Inductive PrismaErrorClass : Type :=
| KnownRequestError
| UnknownRequestError
| InitializationError
| ValidationError.

(** An [Error] that is not an [AppError], by the tests the handler makes:
    its class, and for an error of no tested class its [name] and its
    [type] property. *)
Inductive ErrorObject : Type :=
| SyntaxError
| PrismaError (c : PrismaErrorClass)
| ZodError (issues : list ZodIssue)
| JoseError (name : string)
| OtherError (name : string) (type : option string).

(** What reaches the error-handling middleware. *)
Inductive ThrownValue : Type :=
| AnAppError (message : string) (statusCode : Z)
| AnError (e : ErrorObject)
| NotAnError.

(** What the middleware does, in order. *)
Inductive ErrorEffect : Type :=
| ConsoleError (v : ThrownValue)
| SendError (message : string) (statusCode : Z) (stack : bool)
| NextCalled.

(** [String(segment)] *)
Definition segment_text (s : PathSegment) : string :=
  match s with
  | Key k => k
  | Index i => NilEmpty.string_of_uint (N.to_uint i)
  end.

(** [formatZodError] *)
Definition formatZodError (issues : list ZodIssue) : string :=
  match issues with
  | issue :: _ =>
      String.concat "." (List.map segment_text (issue_path issue))
        ++ ": " ++ issue_message issue
  | [] => "Unknown zod validation error"
  end.

Definition integrity_message : string :=
  "Failed to verify the integrity of the token.".

(** The four classes of [jose] the handler tests with [instanceof]; none of
    them has a subclass. *)
Definition jose_handled (name : string) : bool :=
  String.eqb name "JWTClaimValidationFailed"
  || String.eqb name "JWSInvalid"
  || String.eqb name "JWSSignatureVerificationFailed"
  || String.eqb name "JWTExpired".

(** [handleOperationalErrors]: what it prints, and the [AppError] it
    returns as message and status code. *)
Definition handleOperationalErrors (err : ErrorObject)
    : list ErrorEffect * (string * Z) :=
  match err with
  | SyntaxError => ([], ("Invalid JSON! Please insert a valid one.", 400%Z))
  | PrismaError _ =>
      ([], ("Your request violates the constraints of the database. Please insert another data!", 400%Z))
  | ZodError issues => ([], (formatZodError issues, 400%Z))
  | JoseError name =>
      if jose_handled name then ([], (integrity_message, 401%Z))
      else if String.eqb name "UnauthorizedError" then ([], (integrity_message, 401%Z))
      else ([ConsoleError (AnError err)], ("Internal server error!", 500%Z))
  | OtherError name type =>
      if match type with
         | Some t => String.eqb t "entity.too.large"
         | None => false
         end
      then ([], ("Request too large! Please reduce your payload!", 413%Z))
      else if String.eqb name "UnauthorizedError" then ([], (integrity_message, 401%Z))
      else ([ConsoleError (AnError err)], ("Internal server error!", 500%Z))
  end.

Section ErrorHandler.

(** [config.NODE_ENV] *)
Variable NODE_ENV : string.

(** [sendErrorResponse]: the stack goes out in development only. *)
Definition sendErrorResponse (message : string) (statusCode : Z) : list ErrorEffect :=
  if String.eqb NODE_ENV "development"
  then [SendError message statusCode true]
  else [SendError message statusCode false].

(** [errorHandler] *)
Definition errorHandler (err : ThrownValue) : list ErrorEffect :=
  match err with
  | AnAppError message statusCode => sendErrorResponse message statusCode
  | AnError e =>
      let '(printed, (message, statusCode)) := handleOperationalErrors e in
      (printed ++ sendErrorResponse message statusCode)%list
  | NotAnError =>
      let message := "Unknown error! Please try again later!" in
      ([ConsoleError err; ConsoleError (AnAppError message 500)]
         ++ sendErrorResponse message 500 ++ [NextCalled])%list
  end.

End ErrorHandler.

(** The messages and status codes the handler itself writes. *)
Definition canned_errors : list (string * Z) :=
  [("Invalid JSON! Please insert a valid one.", 400%Z);
   ("Request too large! Please reduce your payload!", 413%Z);
   ("Your request violates the constraints of the database. Please insert another data!", 400%Z);
   (integrity_message, 401%Z);
   ("Internal server error!", 500%Z);
   ("Unknown error! Please try again later!", 500%Z)].

Definition is_SendError (e : ErrorEffect) : bool :=
  match e with
  | SendError _ _ _ => true
  | _ => false
  end.

(** How the errors of the handlers reach the error handler. *)
Definition thrown_value (e : Err) : ThrownValue :=
  match e with
  | AppError m c => AnAppError m c
  | UnauthorizedError _ => AnError (OtherError "UnauthorizedError" None)
  | JOSEError name => AnError (JoseError name)
  | TypeError _ => AnError (OtherError "TypeError" None)
  | HeadersSent => AnError (OtherError "Error" None)
  | PrismaUniqueViolation _ => AnError (PrismaError KnownRequestError)
  | PrismaNotFound => AnError (PrismaError KnownRequestError)
  end.

(** ** Routes *)

Definition is_next (e : Event) : bool :=
  match e with
  | EvNext None => true
  | _ => false
  end.

(** [handler.post(path, mw, h)]: Express runs [h] on the same request when
    [mw] has called [next()] without an argument. *)
Definition route (mw h : M unit) : M unit :=
  fun w =>
    match mw w with
    | (Done _, w1) =>
        if existsb is_next (drop (length (log w)) (log w1)) then h w1
        else (Done tt, w1)
    | (Thrown e, w1) => (Thrown e, w1)
    end.

(** ** Handlers that end a session *)

Definition set_users (f : list User → list User) (w : World) : World :=
  {| users := f (users w); sessions := sessions w; nextSessionPK := nextSessionPK w;
     cache := cache w; clock := clock w; reads := reads w; entropy := entropy w;
     draws := draws w; req := req w; res := res w; log := log w |}.

(** [res.status(204).send()]: the head is written as by [sendResponse],
    and there is no body. *)
Definition no_content : Response :=
  {| statusCode := 204; status := ""; message := ""; data := DataNone; type := "" |}.

(** [const { ... } = req.session] on a request that no middleware gave a
    session. *)
Definition no_session_error : Err :=
  TypeError "Cannot destructure property of 'req.session' as it is undefined.".

Definition no_session_detected : Err :=
  AppError "No session detected. Please log in again." 401.

Section Revocation.

Variable E : Externals.

(** Modelled from the spec: [util/safe-compare] is not among the sources;
    [safeCompare(a, b)] is a constant-time comparison of two secrets, left
    unspecified. *)
Variable safeCompare : string → string → bool.

(** Modelled from the spec: [UserService.updateUser] is not among the
    sources; the relational store is written by point writes, so the call
    with [{ userID }] and [{ password }] is a rewrite of the [User] table
    alone, left unspecified. *)
Variable updateUser : string → string → list User → list User.

(** [AuthController.logout]; [data: []] is [DataNone]. *)
Definition logout : M unit :=
  let! w := get_world in
  match session (req w) with
  | None => throw no_session_error
  | Some s =>
      SessionService.deleteSession (BySessionPK (a_sessionPK s)) >>
      sendResponse {| statusCode := 200; status := "success";
                      message := "Logged out successfully!";
                      data := DataNone; type := "auth" |}
  end.

(** [AuthController.updatePassword]; the three arguments are the fields of
    [req.body]. *)
Definition updatePassword (currentPassword newPassword confirmPassword : string)
    : M unit :=
  let! w := get_world in
  match session (req w) with
  | None => throw no_session_error
  | Some s =>
      if negb (truthy (a_userID s)) then next (Some no_session_detected)
      else
        let! user := UserService.getUserComplete (a_userID s) in
        match user with
        | None => next (Some (AppError "There is no user with that ID." 404))
        | Some user =>
            tell (EvVerifyPassword (userID user)) >>
            if negb (verifyPassword E (password user) currentPassword)
            then next (Some (AppError "Your previous password is wrong!" 401))
            else if negb (safeCompare newPassword confirmPassword)
            then next (Some (AppError "Your new passwords do not match." 401))
            else
              modify (set_users (updateUser (a_userID s) newPassword)) >>
              SessionService.deleteSession (ByUserPK (userPK user)) >>
              sendResponse {| statusCode := 200; status := "success";
                              message := "Password updated. For security, please log in again!";
                              data := DataNone; type := "auth" |}
        end
  end.

End Revocation.

(** ** The session controller ([api/v1/session/controller]) *)

Module SessionController.

Section Controller.

(** Modelled from the spec: [CacheService.getUserSessions] is not among
    the sources; it is a read of the key-value store that lists the session
    identifiers kept for a subject, left unspecified. *)
Variable getUserSessions : Cache → string → list string.

(** [SessionController.deleteMySession]; the argument is [req.params.id]. *)
Definition deleteMySession (id : string) : M unit :=
  let! w := get_world in
  match session (req w) with
  | None => throw no_session_error
  | Some s =>
      if negb (truthy (a_userID s)) then next (Some no_session_detected)
      else
        let currentSessions := getUserSessions (cache w) (a_userID s) in
        let mySess := existsb (fun sid => String.eqb sid id) currentSessions in
        if negb mySess
        then next (Some (AppError "You do not have a session with that ID." 404))
        else
          SessionService.deleteSession (BySessionPK (a_sessionPK s)) >>
          sendResponse no_content
  end.

(** [SessionController.deleteSession]; the argument is [req.params.id]. *)
Definition deleteSession (id : string) : M unit :=
  SessionService.deleteSession (BySessionID id) >>
  sendResponse no_content.

End Controller.

End SessionController.

(** ** The keys of the [Session] table *)

(** The rewrite [updateSession] performs for [{ sessionID: sid }] when
    [row] is the row found: the data of the row changes, its keys stay. *)
Definition refresh (sid : string) (row : SessionRow) (d : SessionData)
    (r : SessionRow) : SessionRow :=
  if matches (BySessionID sid) r
  then {| sessionPK := sessionPK row; sessionID := sessionID row;
          s_userPK := s_userPK row; s_data := d |}
  else r.

(** The two unique indexes hold, the primary key is unique, and every key
    is below the next value [n] of its sequence. *)
Definition keys_ok (l : list SessionRow) (n : Z) : Prop :=
  table_ok l ∧ NoDup (List.map sessionPK l)
  ∧ Forall (fun r => (sessionPK r < n)%Z) l.

Definition table_inv (w : World) : Prop :=
  keys_ok (sessions w) (nextSessionPK w).

(** The [User] table honours its unique index on [userID]. *)
Definition users_ok (l : list User) : Prop := NoDup (List.map userID l).

(** ** More of the concrete instance *)

Module Scenario.

(** Alice's session presenting the step-up token that [verifyOTP] issues
    her from [Demo.w0], under the identifier [id0]. *)
Definition alice_with_own_token : Request :=
  {| authorization := None;
     otp_authorization := Some (Compact (stepup_token Demo.E Demo.w0 Demo.alice "id0"));
     user_agent := None; body_username := ""; body_password := "";
     auth := None; session := Some Demo.alice_session |}.

(** A key-value store that lists two sessions for every subject. *)
Definition two_sessions (c : Cache) (uid : string) : list string :=
  ["s-old"; "s-alice"].

(** A user table that is not rewritten. *)
Definition keep_users (uid newPassword : string) (l : list User) : list User := l.

End Scenario.

(** * The account handlers of the controller: forgotten and reset
      passwords, e-mail verification, sending a code

    These handlers work on the two nullable columns of the [User] table
    that the session handlers never read, on counters and flags of their
    own in the key-value store, and on the mailer.  They are written as
    functions from state to state; every call that can be observed is
    appended to [calls]. *)

Module Account.

(** A row of the [User] table with [confirmationCode] and
    [forgotPasswordCode]. *)
Record UserRow : Type := {
  user : User;
  confirmationCode : option string;
  forgotPasswordCode : option string;
}.

(** The methods of [Email] the handlers call. *)
Inductive Mail : Type :=
| ForgotPasswordMail (to name url : string)
| ResetPasswordMail (to name : string)
| OTPMail (to name token : string).

(** The [data] of a response: [[]] or a user row. *)
Inductive Body : Type :=
| NoData
| UserData (row : UserRow).

Record Reply : Type := {
  r_statusCode : Z;
  r_status : string;
  r_message : string;
  r_data : Body;
  r_type : string;
}.

(** [req.query.media], an enumeration after validation. *)
Inductive Media : Type := email_media | sms_media | authenticator_media.

Inductive Call : Type :=
| Sent (r : Reply)
| Nexted (e : Err)
| Mailed (m : Mail)
| Raised (e : Err).

#[projections(primitive)] Record State : Type := {
  rows : list UserRow;
  forgotPasswordAttempts : gmap string nat;
  hasAskedOTP : gset string;
  sessionOwner : gmap string string;
  entropy : nat → string;
  draws : nat;
  calls : list Call;
}.

Definition set_rows (f : list UserRow → list UserRow) (s : State) : State :=
  {| rows := f (rows s); forgotPasswordAttempts := forgotPasswordAttempts s;
     hasAskedOTP := hasAskedOTP s; sessionOwner := sessionOwner s;
     entropy := entropy s; draws := draws s; calls := calls s |}.

Definition set_forgotPasswordAttempts (f : gmap string nat → gmap string nat)
    (s : State) : State :=
  {| rows := rows s; forgotPasswordAttempts := f (forgotPasswordAttempts s);
     hasAskedOTP := hasAskedOTP s; sessionOwner := sessionOwner s;
     entropy := entropy s; draws := draws s; calls := calls s |}.

Definition set_hasAskedOTP (f : gset string → gset string) (s : State) : State :=
  {| rows := rows s; forgotPasswordAttempts := forgotPasswordAttempts s;
     hasAskedOTP := f (hasAskedOTP s); sessionOwner := sessionOwner s;
     entropy := entropy s; draws := draws s; calls := calls s |}.

Definition set_sessionOwner (f : gmap string string → gmap string string)
    (s : State) : State :=
  {| rows := rows s; forgotPasswordAttempts := forgotPasswordAttempts s;
     hasAskedOTP := hasAskedOTP s; sessionOwner := f (sessionOwner s);
     entropy := entropy s; draws := draws s; calls := calls s |}.

Definition set_draws (n : nat) (s : State) : State :=
  {| rows := rows s; forgotPasswordAttempts := forgotPasswordAttempts s;
     hasAskedOTP := hasAskedOTP s; sessionOwner := sessionOwner s;
     entropy := entropy s; draws := n; calls := calls s |}.

Definition tell (c : Call) (s : State) : State :=
  {| rows := rows s; forgotPasswordAttempts := forgotPasswordAttempts s;
     hasAskedOTP := hasAskedOTP s; sessionOwner := sessionOwner s;
     entropy := entropy s; draws := draws s; calls := calls s ++ [c] |}.

(** [next(new AppError(message, statusCode))] *)
Definition next (message : string) (statusCode : Z) : State → State :=
  tell (Nexted (AppError message statusCode)).

(** [sendResponse] with [status: 'success'] and [type: 'auth'] *)
Definition sendResponse (statusCode : Z) (message : string) (data : Body)
    : State → State :=
  tell (Sent {| r_statusCode := statusCode; r_status := "success";
                r_message := message; r_data := data; r_type := "auth" |}).

(** Modelled from the spec: [modules/email] is not among the sources; the
    dispatcher is fire-and-forget, so a call is kept as the mail handed
    over. *)
Definition mail (m : Mail) : State → State := tell (Mailed m).

(** Modelled from the spec: [UserService.getUserComplete] and
    [UserService.getUser] are not among the sources; the relational store
    answers point reads on a unique column. *)
Definition getUserBy (column : User → string) (value : string) (s : State)
    : option UserRow :=
  List.find (fun r => String.eqb (column (user r)) value) (rows s).

(** Modelled from the spec: the point read on the unique, nullable column
    [forgotPasswordCode]; a null never matches. *)
Definition getUserByForgotPasswordCode (token : string) (s : State)
    : option UserRow :=
  List.find (fun r => match forgotPasswordCode r with
                      | Some c => String.eqb c token
                      | None => false
                      end) (rows s).

(** Modelled from the spec: [UserService.updateUser({ userID }, data)] is
    not among the sources; it is the point write of the columns in [data]
    to the row of [userID]. *)
Definition updateUser (uid : string) (data : UserRow → UserRow) : State → State :=
  set_rows (List.map (fun r => if String.eqb (userID (user r)) uid then data r else r)).

(** Modelled from the spec: the attempt counter of password resets is a
    per-subject integer; a key never written reads as absent. *)
Definition getForgotPasswordAttempts (uid : string) (s : State) : option nat :=
  forgotPasswordAttempts s !! uid.

(** Modelled from the spec: the counter increments by one. *)
Definition setForgotPasswordAttempts (uid : string) : State → State :=
  set_forgotPasswordAttempts (fun m => <[uid := S (default 0 (m !! uid))]> m).

(** Modelled from the spec: the flag that a subject has asked for a code
    is a keyed entry of the store. *)
Definition getHasAskedOTP (uid : string) (s : State) : bool :=
  bool_decide (uid ∈ hasAskedOTP s).

Definition setHasAskedOTP (uid : string) : State → State :=
  set_hasAskedOTP (fun f => {[ uid ]} ∪ f).

(** Modelled from the spec: [deleteAllForSubject(subjectID)] removes every
    session of the subject from the store. *)
Definition deleteUserSessions (uid : string) : State → State :=
  set_sessionOwner (filter (fun kv => kv.2 ≠ uid)).

(** Modelled from the spec: [util/random-bytes] is not among the sources;
    every call draws the next text from the entropy source. *)
Definition randomBytes (s : State) : string * State :=
  (entropy s (draws s), set_draws (S (draws s)) s).

(** [attempts && Number.parseInt(attempts, 10) === 2] *)
Definition reached_two (attempts : option nat) : bool :=
  match attempts with
  | Some n => Nat.eqb n 2
  | None => false
  end.

(** The columns a handler writes. *)
Definition with_forgotPasswordCode (c : option string) (r : UserRow) : UserRow :=
  {| user := user r; confirmationCode := confirmationCode r;
     forgotPasswordCode := c |}.

Definition with_password (p : string) (u : User) : User :=
  {| userPK := userPK u; userID := userID u; username := username u;
     email := email u; phoneNumber := phoneNumber u; password := p;
     totpSecret := totpSecret u; fullName := fullName u; isActive := isActive u |}.

Definition verified (mail : string) (u : User) : User :=
  {| userPK := userPK u; userID := userID u; username := username u;
     email := mail; phoneNumber := phoneNumber u; password := password u;
     totpSecret := totpSecret u; fullName := fullName u; isActive := true |}.

Section Handlers.

(** [String.prototype.toLowerCase] *)
Variable toLowerCase : string → string.

(** Modelled from the spec: [util/safe-compare] is not among the sources;
    a constant-time comparison of two secrets, left unspecified. *)
Variable safeCompare : string → string → bool.

(** Modelled from the spec: what [UserService.updateUser] stores for a
    password it is given (the service hashes it), left unspecified. *)
Variable storedPassword : string → string.

(** [config.NODE_ENV] *)
Variable NODE_ENV : string.

(** Modelled from the spec: [generateDefaultTOTP(username, secret).token]
    of [core/rfc6238], the code of the current time-step, left
    unspecified. *)
Variable generateDefaultTOTP : string → string → string.

(** The link of the reset mail; outside production the port is 3000. *)
Definition reset_url (protocol hostname token : string) : string :=
  let withPort := if String.eqb NODE_ENV "production" then "" else ":3000" in
  protocol ++ "://" ++ hostname ++ withPort
  ++ "/reset-password?token=" ++ token ++ "&action=reset".

(** [AuthController.forgotPassword]; the arguments are the two fields of
    [req.body], [req.protocol] and [req.hostname].  The first binding of
    the destructured pair is the user found by [email], the second the user
    found by [username]. *)
Definition forgotPassword (mail_ name_ protocol hostname : string) (s : State)
    : State :=
  let userByUsername := getUserBy email mail_ s in
  let userByEmail := getUserBy username name_ s in
  match userByUsername, userByEmail with
  | Some userByUsername, Some userByEmail =>
      if negb (String.eqb (toLowerCase (email (user userByUsername))) mail_)
         || negb (String.eqb (toLowerCase (username (user userByEmail))) name_)
      then next "Incorrect username and/or email!" 401 s
      else
        let uid := userID (user userByUsername) in
        if reached_two (getForgotPasswordAttempts uid s)
        then next "You have recently asked for a password reset twice. Please wait for two hours before retrying." 429 s
        else if negb (isActive (user userByUsername))
        then next "This account is disabled. Please contact the admin for reactivation." 403 s
        else
          let '(token, s) := randomBytes s in
          let url := reset_url protocol hostname token in
          let s := updateUser uid (with_forgotPasswordCode (Some token)) s in
          let s := mail (ForgotPasswordMail (email (user userByUsername))
                           (fullName (user userByUsername)) url) s in
          let s := setForgotPasswordAttempts uid s in
          sendResponse 202 "Reset password request has been sent to the email!" NoData s
  | _, _ => next "User with those identifiers is not found!" 404 s
  end.

(** [AuthController.resetPassword]; the arguments are [req.params.token]
    and the two fields of [req.body]. *)
Definition resetPassword (token newPassword confirmPassword : string) (s : State)
    : State :=
  if negb (safeCompare newPassword confirmPassword)
  then next "Your passwords do not match!" 400 s
  else
    match getUserByForgotPasswordCode token s with
    | None => next "There is no user associated with the token." 404 s
    | Some u =>
        if negb (isActive (user u))
        then next "This user is not active. Please contact the administrator for reactivation." 403 s
        else
          let uid := userID (user u) in
          let s := updateUser uid
                     (fun r => {| user := with_password (storedPassword newPassword) (user r);
                                  confirmationCode := confirmationCode r;
                                  forgotPasswordCode := None |}) s in
          let s := deleteUserSessions uid s in
          let s := mail (ResetPasswordMail (email (user u)) (fullName (user u))) s in
          sendResponse 200 "Password has been successfully reset. Please try logging in again!"
            NoData s
    end.

(** The row [updateUser] returns: the one it wrote. *)
Definition verified_row (mail_ : string) (r : UserRow) : UserRow :=
  {| user := verified mail_ (user r); confirmationCode := None;
     forgotPasswordCode := forgotPasswordCode r |}.

(** [AuthController.verifyEmail]; the arguments are the two fields of
    [req.params]. *)
Definition verifyEmail (code mail_ : string) (s : State) : State :=
  match getUserBy email mail_ s with
  | None => next "Invalid email verification code!" 400 s
  | Some u =>
      if negb (truthyO (confirmationCode u))
      then next "Invalid email verification code!" 400 s
      else if strict_neq (Some code) (confirmationCode u)
      then next "Invalid email verification code!" 400 s
      else
        let s := updateUser (userID (user u)) (verified_row mail_) s in
        sendResponse 200 "Email verified! You may now use and log in to the webservice!"
          (UserData (verified_row mail_ u)) s
  end.

(** [AuthController.sendOTP]; the arguments are [req.session] and
    [req.query.media]. *)
Definition sendOTP (session : option AuthInfo) (media : Media) (s : State) : State :=
  match session with
  | None => tell (Raised no_session_error) s
  | Some a =>
      let uid := a_userID a in
      if negb (truthy uid) then next "No session detected. Please log in again." 401 s
      else
        match getUserBy userID uid s with
        | None => next "User with this ID does not exist!" 404 s
        | Some u =>
            if getHasAskedOTP uid s
            then next "You have recently asked for an OTP. Please wait 30 seconds before we process your request again." 429 s
            else
              let token := generateDefaultTOTP (username (user u)) (totpSecret (user u)) in
              let s := match media with
                       | email_media =>
                           mail (OTPMail (email (user u)) (fullName (user u)) token) s
                       | _ => s
                       end in
              match media with
              | sms_media =>
                  next "Media is not yet implemented. Please use another media." 501 s
              | _ =>
                  let s := setHasAskedOTP uid s in
                  sendResponse 202 "OTP processed. Please check your chosen media and verify the OTP there."
                    NoData s
              end
        end
  end.

End Handlers.

(** The answers of the handlers. *)
Definition reply (statusCode : Z) (message : string) (data : Body) : Reply :=
  {| r_statusCode := statusCode; r_status := "success"; r_message := message;
     r_data := data; r_type := "auth" |}.

Definition refusal (message : string) (statusCode : Z) : Call :=
  Nexted (AppError message statusCode).

(** The [User] table honours its unique index on [userID]. *)
Definition rows_ok (l : list UserRow) : Prop :=
  NoDup (List.map (fun r => userID (user r)) l).

(** The request with e-mail [e] and username [n] finds an active account
    [uid] by the e-mail, and an account by the username. *)
Definition ready (s : State) (e n uid : string) : Prop :=
  ∃ a b, getUserBy email e s = Some a
         ∧ getUserBy username n s = Some b
         ∧ userID (user a) = uid
         ∧ isActive (user a) = true.

(** Readers of the log. *)
Definition is_mail (c : Call) : bool :=
  match c with
  | Mailed _ => true
  | _ => false
  end.

Definition mails (l : list Call) : list Call := List.filter is_mail l.

(** Serving the same handler several times in a row. *)
Fixpoint repeat_handler (h : State → State) (n : nat) (s : State) : State :=
  match n with
  | 0 => s
  | S n' => repeat_handler h n' (h s)
  end.

End Account.

(** A concrete instance of the account handlers: the two users of [Demo],
    one live session each, no pending request. *)
Module AccountScenario.

(** Lower case of the ASCII letters. *)
Definition lower_ascii (c : Ascii.ascii) : Ascii.ascii :=
  let n := Ascii.nat_of_ascii c in
  if Nat.leb 65 n && Nat.leb n 90 then Ascii.ascii_of_nat (n + 32) else c.

Fixpoint toLowerCase (s : string) : string :=
  match s with
  | EmptyString => EmptyString
  | String c rest => String (lower_ascii c) (toLowerCase rest)
  end.

Definition safeCompare (a b : string) : bool := String.eqb a b.

Definition storedPassword (p : string) : string := "hash:" ++ p.

Definition generateDefaultTOTP (name secret : string) : string := secret.

Definition alice_account : Account.UserRow :=
  {| Account.user := Demo.alice; Account.confirmationCode := None;
     Account.forgotPasswordCode := None |}.

Definition bob_account : Account.UserRow :=
  {| Account.user := Demo.bob; Account.confirmationCode := None;
     Account.forgotPasswordCode := None |}.

Definition start : Account.State :=
  {| Account.rows := [alice_account; bob_account];
     Account.forgotPasswordAttempts := ∅;
     Account.hasAskedOTP := ∅;
     Account.sessionOwner := {[ "s-alice" := "alice"; "s-bob" := "bob" ]};
     Account.entropy := Demo.ids;
     Account.draws := 0;
     Account.calls := [] |}.

(** Alice has asked for a reset and holds the code [id0]. *)
Definition asked : Account.State :=
  Account.forgotPassword toLowerCase "development" "alice@example.com" "alice"
    "https" "example.com" start.

End AccountScenario.

(** * Proofs *)

(** Symbolic execution of the monad: unfold the plumbing, leave the maps,
    sets and strings folded. *)
Ltac msimpl :=
  cbv beta iota zeta delta
    [serve begin_request bind ret throw try_catch get_world modify tell next
     sendResponse sendNotification invalidBasicAuth Date_now draw_id
     set_sessions set_nextSessionPK set_cache set_reads set_draws set_req set_res emit
     users sessions nextSessionPK cache clock reads entropy draws req res log
     authorization otp_authorization user_agent body_username body_password auth session
     set_auth set_session mbind option_bind
     CacheService.getUserIDFromSession CacheService.setSession CacheService.deleteSession
     CacheService.getOTPAttempts CacheService.setOTPAttempts CacheService.getBlacklistedOTP
     CacheService.blacklistOTP CacheService.getSecurityAlertEmailLock
     CacheService.setSecurityAlertEmailLock CacheService.getOTPSession CacheService.setOTPSession
     CacheService.with_sess CacheService.with_otpAttempts CacheService.with_blacklistedOTP
     CacheService.with_securityAlertEmailLock CacheService.with_otpSess
     sess otpAttempts blacklistedOTP securityAlertEmailLock otpSess
     UserService.getUser UserService.getUserComplete UserService.getUserByCredentials
     fst snd]; cbn [negb orb andb].

Ltac msimpl_in H :=
  cbv beta iota zeta delta
    [serve begin_request bind ret throw try_catch get_world modify tell next
     sendResponse sendNotification invalidBasicAuth Date_now draw_id
     set_sessions set_nextSessionPK set_cache set_reads set_draws set_req set_res emit
     users sessions nextSessionPK cache clock reads entropy draws req res log
     authorization otp_authorization user_agent body_username body_password auth session
     set_auth set_session mbind option_bind
     CacheService.getUserIDFromSession CacheService.setSession CacheService.deleteSession
     CacheService.getOTPAttempts CacheService.setOTPAttempts CacheService.getBlacklistedOTP
     CacheService.blacklistOTP CacheService.getSecurityAlertEmailLock
     CacheService.setSecurityAlertEmailLock CacheService.getOTPSession CacheService.setOTPSession
     CacheService.with_sess CacheService.with_otpAttempts CacheService.with_blacklistedOTP
     CacheService.with_securityAlertEmailLock CacheService.with_otpSess
     sess otpAttempts blacklistedOTP securityAlertEmailLock otpSess
     UserService.getUser UserService.getUserComplete UserService.getUserByCredentials
     fst snd] in H; cbn [negb orb andb] in H.

(** Rewrite with a fact about the state, then keep executing. *)
Ltac mrw H := msimpl_in H; rewrite H; msimpl.

(** Evaluate the readers of a concrete list of events. *)
Ltac lsimpl :=
  cbn [next_calls send_calls count List.filter length app
       is_validateTOTP is_signEdDSA is_setOTPAttempts is_notification].

(** Close a goal [log w ++ e1 ++ ... = log w ++ ?evs]. *)
Ltac log_eq := rewrite <- ?app_assoc; reflexivity.

Lemma count_app (p : Event → bool) (l1 l2 : list Event) :
  count p (l1 ++ l2) = count p l1 + count p l2.
Proof. unfold count. rewrite List.filter_app, length_app. reflexivity. Qed.

Lemma next_calls_app (l1 l2 : list Event) :
  next_calls (l1 ++ l2) = (next_calls l1 ++ next_calls l2)%list.
Proof.
  induction l1 as [|e l1 IH]; [reflexivity|].
  destruct e; cbn [next_calls app]; rewrite ?IH; reflexivity.
Qed.

Lemma presents_users (E : Externals) (r : Request) (w1 w2 : World) (u : User) (code : string) :
  users w1 = users w2 → presents E r w1 u code → presents E r w2 u code.
Proof.
  intros Hw (a & H). exists a. rewrite <- Hw. exact H.
Qed.

Section OTP.

Variable E : Externals.

(** The first steps of [verifyOTP], up to the attempt counter. *)
Ltac enter_verifyOTP H :=
  destruct H as (?a & ?Ha & ?Hp & ?Hn & ?Hc & ?Hu);
  unfold verifyOTP; msimpl;
  match goal with
  | Ha : present_authorization _ = _, Hp : parseBasicAuth _ _ = _,
    Hn : truthy _ = _, Hc : truthy _ = _, Hu : List.find _ _ = _ |- _ =>
      mrw Ha; mrw Hp; rewrite Hn, Hc; msimpl; mrw Hu
  end.

(** A locked-out subject: the call answers 429 before any verifier runs. *)
Lemma verifyOTP_locked_step (w : World) (r : Request) (u : User) (code : string) :
  presents E r w u code →
  otpAttempts (cache w) !! userID u = Some 3 →
  ∃ w' evs,
    serve (verifyOTP E) r w = (Done tt, w')
    ∧ log w' = (log w ++ evs)%list
    ∧ next_calls evs = [Some (AppError lockout_message 429)]
    ∧ count is_validateTOTP evs = 0
    ∧ count is_signEdDSA evs = 0
    ∧ count is_setOTPAttempts evs = 0
    ∧ count is_notification evs
      = (if bool_decide (userID u ∈ securityAlertEmailLock (cache w)) then 0 else 1)
    ∧ res w' = None
    ∧ users w' = users w
    ∧ otpAttempts (cache w') = otpAttempts (cache w)
    ∧ otpSess (cache w') = otpSess (cache w)
    ∧ blacklistedOTP (cache w') = blacklistedOTP (cache w)
    ∧ userID u ∈ securityAlertEmailLock (cache w').
Proof.
  intros H H3. enter_verifyOTP H. msimpl_in H3. rewrite H3.
  cbn [reached_three Nat.eqb]. msimpl.
  destruct (bool_decide _) eqn:Hl; msimpl.
  - eexists _, _. split; [reflexivity|]. msimpl.
    split; [log_eq|]. apply bool_decide_eq_true in Hl.
    lsimpl. repeat split; auto.
  - eexists _, _. split; [reflexivity|]. msimpl.
    split; [log_eq|]. 
    lsimpl. repeat split; auto. set_solver.
Qed.

(** C4 - Lockout.  Once the OTP attempt counter of subject [u] stands at
    three, every later [verifyOTP] call for [u], whatever code it presents
    (a correct one included), answers the lockout error 429; over the
    whole sequence [validateDefaultTOTP] is never reached, no step-up
    token is signed, and the counter stays at three. *)
Theorem verifyOTP_lockout_blocks_every_attempt
    (w : World) (u : User) (rs : list Request) :
  otpAttempts (cache w) !! userID u = Some 3 →
  Forall (fun r => ∃ code, presents E r w u code) rs →
  ∃ evs,
    log (run_all (verifyOTP E) rs w) = (log w ++ evs)%list
    ∧ next_calls evs = repeat (Some (AppError lockout_message 429)) (length rs)
    ∧ count is_validateTOTP evs = 0
    ∧ count is_signEdDSA evs = 0
    ∧ otpAttempts (cache (run_all (verifyOTP E) rs w)) !! userID u = Some 3.
Proof.
  intros H3 Hrs. revert w H3 Hrs.
  induction rs as [|r rs IH]; intros w H3 Hrs.
  - exists []. cbn. rewrite app_nil_r. auto.
  - apply Forall_cons in Hrs as [[code Hr] Hrs].
    destruct (verifyOTP_locked_step w r u code Hr H3)
      as (w' & evs & Hrun & Hlog & Hnext & Hval & Hsign & _ & _ & _ & Husers & Hatt & _).
    cbn [run_all]. rewrite Hrun. cbn [snd].
    destruct (IH w') as (evs' & Hlog' & Hnext' & Hval' & Hsign' & H3').
    + rewrite Hatt. exact H3.
    + eapply Forall_impl; [exact Hrs|].
      intros r' [c Hc]. exists c. eapply presents_users; [|exact Hc]. symmetry. exact Husers.
    + exists (evs ++ evs')%list. rewrite Hlog', Hlog, next_calls_app, !count_app.
      rewrite Hnext, Hnext', Hval, Hval', Hsign, Hsign'.
      rewrite <- app_assoc. cbn. auto.
Qed.

(** A replayed code: one strike, answer 410, no verifier, no token. *)
Lemma verifyOTP_replay_step (w : World) (r : Request) (u : User) (code : string) :
  presents E r w u code →
  reached_three (otpAttempts (cache w) !! userID u) = false →
  (userID u, code) ∈ blacklistedOTP (cache w) →
  ∃ w' evs,
    serve (verifyOTP E) r w = (Done tt, w')
    ∧ log w' = (log w ++ evs)%list
    ∧ next_calls evs = [Some (AppError replay_message 410)]
    ∧ count is_validateTOTP evs = 0
    ∧ count is_signEdDSA evs = 0
    ∧ count is_setOTPAttempts evs = 1
    ∧ count is_notification evs = 0
    ∧ res w' = None
    ∧ users w' = users w
    ∧ otpAttempts (cache w')
      = <[userID u := S (default 0 (otpAttempts (cache w) !! userID u))]>
          (otpAttempts (cache w))
    ∧ otpSess (cache w') = otpSess (cache w)
    ∧ blacklistedOTP (cache w') = blacklistedOTP (cache w)
    ∧ securityAlertEmailLock (cache w') = securityAlertEmailLock (cache w).
Proof.
  intros H H3 Hb. enter_verifyOTP H.
  mrw H3.
  pose proof (bool_decide_eq_true_2 _ Hb) as Hd. mrw Hd.
  eexists _, _. split; [reflexivity|]. msimpl.
  split; [log_eq|]. lsimpl. repeat split; auto.
Qed.

(** A wrong code: the verifier runs, one strike, answer 401. *)
Lemma verifyOTP_wrong_step (w : World) (r : Request) (u : User) (code : string) :
  presents E r w u code →
  reached_three (otpAttempts (cache w) !! userID u) = false →
  (userID u, code) ∉ blacklistedOTP (cache w) →
  validateDefaultTOTP E code (totpSecret u) = false →
  ∃ w' evs,
    serve (verifyOTP E) r w = (Done tt, w')
    ∧ log w' = (log w ++ evs)%list
    ∧ next_calls evs = [Some (AppError wrong_code_message 401)]
    ∧ count is_validateTOTP evs = 1
    ∧ count is_signEdDSA evs = 0
    ∧ count is_setOTPAttempts evs = 1
    ∧ count is_notification evs = 0
    ∧ res w' = None
    ∧ users w' = users w
    ∧ otpAttempts (cache w')
      = <[userID u := S (default 0 (otpAttempts (cache w) !! userID u))]>
          (otpAttempts (cache w))
    ∧ otpSess (cache w') = otpSess (cache w)
    ∧ blacklistedOTP (cache w') = blacklistedOTP (cache w)
    ∧ securityAlertEmailLock (cache w') = securityAlertEmailLock (cache w).
Proof.
  intros H H3 Hb Hv. enter_verifyOTP H.
  mrw H3.
  pose proof (bool_decide_eq_false_2 _ Hb) as Hd. mrw Hd. mrw Hv.
  eexists _, _. split; [reflexivity|]. msimpl.
  split; [log_eq|]. lsimpl. repeat split; auto.
Qed.

(** A fresh, correct code: blacklist it, sign, record the step-up
    session, respond - in that order. *)
Lemma verifyOTP_success_step (w : World) (r : Request) (u : User) (code : string) :
  presents E r w u code →
  reached_three (otpAttempts (cache w) !! userID u) = false →
  (userID u, code) ∉ blacklistedOTP (cache w) →
  validateDefaultTOTP E code (totpSecret u) = true →
  ∃ w',
    let j := entropy w (draws w) in
    let t := stepup_token E w u j in
    serve (verifyOTP E) r w = (Done tt, w')
    ∧ log w' = (log w ++
                [EvGetOTPAttempts (userID u);
                 EvGetBlacklistedOTP (userID u) code;
                 EvValidateTOTP code (totpSecret u);
                 EvBlacklistOTP (userID u) code;
                 EvSignEdDSA t;
                 EvSetOTPSession j (userID u);
                 EvSend (stepup_response t)])%list
    ∧ res w' = Some (stepup_response t)
    ∧ users w' = users w
    ∧ otpAttempts (cache w') = otpAttempts (cache w)
    ∧ otpSess (cache w') = <[j := userID u]> (otpSess (cache w))
    ∧ blacklistedOTP (cache w') = {[ (userID u, code) ]} ∪ blacklistedOTP (cache w)
    ∧ securityAlertEmailLock (cache w') = securityAlertEmailLock (cache w).
Proof.
  intros H H3 Hb Hv. enter_verifyOTP H.
  mrw H3.
  pose proof (bool_decide_eq_false_2 _ Hb) as Hd. mrw Hd. mrw Hv.
  unfold signEdDSAJWT. msimpl.
  eexists. split; [reflexivity|]. msimpl.
  split; [log_eq|]. lsimpl. repeat split; auto.
Qed.




(** A failed OTP verification, replayed or wrong, is one strike. *)
Lemma verifyOTP_failure_strikes_once
    (w : World) (r : Request) (u : User) (code : string) :
  presents E r w u code →
  reached_three (otpAttempts (cache w) !! userID u) = false →
  (userID u, code) ∈ blacklistedOTP (cache w)
    ∨ validateDefaultTOTP E code (totpSecret u) = false →
  ∃ w' evs,
    serve (verifyOTP E) r w = (Done tt, w')
    ∧ log w' = (log w ++ evs)%list
    ∧ (next_calls evs = [Some (AppError replay_message 410)]
       ∨ next_calls evs = [Some (AppError wrong_code_message 401)])
    ∧ count is_setOTPAttempts evs = 1
    ∧ count is_notification evs = 0
    ∧ count is_signEdDSA evs = 0
    ∧ res w' = None
    ∧ users w' = users w
    ∧ otpAttempts (cache w') !! userID u
      = Some (S (default 0 (otpAttempts (cache w) !! userID u)))
    ∧ securityAlertEmailLock (cache w') = securityAlertEmailLock (cache w).
Proof.
  intros H H3 Hfail.
  destruct (decide ((userID u, code) ∈ blacklistedOTP (cache w))) as [Hb|Hb].
  - destruct (verifyOTP_replay_step w r u code H H3 Hb)
      as (w' & evs & ? & ? & ? & ? & ? & ? & ? & ? & ? & Hatt & ? & ? & ?).
    exists w', evs. rewrite Hatt, lookup_insert_eq. auto 12.
  - destruct Hfail as [Hb'|Hv]; [contradiction|].
    destruct (verifyOTP_wrong_step w r u code H H3 Hb Hv)
      as (w' & evs & ? & ? & ? & ? & ? & ? & ? & ? & ? & Hatt & ? & ? & ?).
    exists w', evs. rewrite Hatt, lookup_insert_eq. auto 12.
Qed.

(** With the counter at three and the alert lock set, nothing is sent. *)
Lemma verifyOTP_locked_silent (w : World) (u : User) (rs : list Request) :
  otpAttempts (cache w) !! userID u = Some 3 →
  userID u ∈ securityAlertEmailLock (cache w) →
  Forall (fun r => ∃ code, presents E r w u code) rs →
  ∃ evs,
    log (run_all (verifyOTP E) rs w) = (log w ++ evs)%list
    ∧ count is_notification evs = 0.
Proof.
  revert w. induction rs as [|r rs IH]; intros w H3 Hl Hrs.
  - exists []. cbn. rewrite app_nil_r. auto.
  - apply Forall_cons in Hrs as [[code Hr] Hrs].
    destruct (verifyOTP_locked_step w r u code Hr H3)
      as (w' & evs & Hrun & Hlog & _ & _ & _ & _ & Hn & _ & Husers & Hatt & _ & _ & Hl').
    rewrite (bool_decide_eq_true_2 _ Hl) in Hn.
    cbn [run_all]. rewrite Hrun. cbn [snd].
    destruct (IH w') as (evs' & Hlog' & Hn').
    + rewrite Hatt. exact H3.
    + exact Hl'.
    + eapply Forall_impl; [exact Hrs|].
      intros r' [c Hc]. exists c. eapply presents_users; [|exact Hc]. symmetry. exact Husers.
    + exists (evs ++ evs')%list. rewrite Hlog', Hlog, count_app, Hn, Hn'.
      rewrite <- app_assoc. auto.
Qed.

(** From the counter at three on: the first blocked attempt sends the
    notification unless the lock is already set; nobody after it does. *)
Lemma verifyOTP_locked_notifications (w : World) (u : User) (rs : list Request) :
  otpAttempts (cache w) !! userID u = Some 3 →
  Forall (fun r => ∃ code, presents E r w u code) rs →
  ∃ evs,
    log (run_all (verifyOTP E) rs w) = (log w ++ evs)%list
    ∧ count is_notification evs
      = if bool_decide (userID u ∈ securityAlertEmailLock (cache w)) then 0
        else match rs with [] => 0 | _ :: _ => 1 end.
Proof.
  intros H3 Hrs. destruct rs as [|r rs].
  - exists []. cbn. rewrite app_nil_r. destruct (bool_decide _); auto.
  - apply Forall_cons in Hrs as [[code Hr] Hrs].
    destruct (verifyOTP_locked_step w r u code Hr H3)
      as (w' & evs & Hrun & Hlog & _ & _ & _ & _ & Hn & _ & Husers & Hatt & _ & _ & Hl').
    destruct (verifyOTP_locked_silent w' u rs) as (evs' & Hlog' & Hn').
    + rewrite Hatt. exact H3.
    + exact Hl'.
    + eapply Forall_impl; [exact Hrs|].
      intros r' [c Hc]. exists c. eapply presents_users; [|exact Hc]. symmetry. exact Husers.
    + exists (evs ++ evs')%list. cbn [run_all]. rewrite Hrun. cbn [snd].
      rewrite Hlog', Hlog, count_app, Hn, Hn', <- app_assoc.
      split; [reflexivity|]. destruct (bool_decide _); reflexivity.
Qed.

(** C7, as amended - Security notification.  The failed attempt [r0] that
    takes the counter of [u] from two to three sends no notification.
    Over any sequence [rs] of later attempts for [u] the notification is
    sent once, by the first of them, if the alert lock was not set, and
    not at all if [rs] is empty or the lock was set: at most one
    notification per episode. *)
Theorem security_notification_per_episode
    (w : World) (u : User) (r0 : Request) (code0 : string) (rs : list Request) :
  presents E r0 w u code0 →
  otpAttempts (cache w) !! userID u = Some 2 →
  (userID u, code0) ∈ blacklistedOTP (cache w)
    ∨ validateDefaultTOTP E code0 (totpSecret u) = false →
  Forall (fun r => ∃ code, presents E r w u code) rs →
  let w1 := snd (serve (verifyOTP E) r0 w) in
  ∃ evs0 evs,
    log w1 = (log w ++ evs0)%list
    ∧ otpAttempts (cache w1) !! userID u = Some 3
    ∧ count is_notification evs0 = 0
    ∧ log (run_all (verifyOTP E) rs w1) = (log w1 ++ evs)%list
    ∧ count is_notification evs
      = if bool_decide (userID u ∈ securityAlertEmailLock (cache w)) then 0
        else match rs with [] => 0 | _ :: _ => 1 end.
Proof.
  intros H0 H2 Hfail Hrs w1.
  destruct (verifyOTP_failure_strikes_once w r0 u code0 H0) as
    (w' & evs0 & Hrun & Hlog & _ & _ & Hn & _ & _ & Husers & Hatt & Hlock);
    [rewrite H2; reflexivity|exact Hfail|].
  subst w1. rewrite Hrun. cbn [snd].
  rewrite H2 in Hatt. cbn [default] in Hatt.
  destruct (verifyOTP_locked_notifications w' u rs Hatt) as (evs & Hlog' & Hn').
  { eapply Forall_impl; [exact Hrs|].
    intros r' [c Hc]. exists c. eapply presents_users; [|exact Hc]. symmetry. exact Husers. }
  exists evs0, evs. rewrite Hlock in Hn'. auto.
Qed.

End OTP.

Section Login.

Variable E : Externals.

(** [login] has no attempt counter: whatever the request, it neither calls
    [setOTPAttempts] nor changes the counters. *)
Lemma login_never_strikes (w : World) (r : Request) :
  ∃ c w' evs,
    serve (login E) r w = (c, w')
    ∧ log w' = (log w ++ evs)%list
    ∧ count is_setOTPAttempts evs = 0
    ∧ otpAttempts (cache w') = otpAttempts (cache w).
Proof.
  unfold login. msimpl.
  destruct (List.find _ (users w)) as [u|]; msimpl.
  2:{ eexists _, _, _. split; [reflexivity|]. msimpl. split; [log_eq|]. lsimpl. auto. }
  destruct (verifyPassword _ _ _); msimpl.
  2:{ eexists _, _, _. split; [reflexivity|]. msimpl. split; [log_eq|]. lsimpl. auto. }
  destruct (isActive u); msimpl.
  2:{ eexists _, _, _. split; [reflexivity|]. msimpl. split; [log_eq|]. lsimpl. auto. }
  destruct (getDeviceID _ _) as [dev ip]. msimpl.
  unfold SessionService.createOrUpdateSession, SessionService.upsert. msimpl.
  destruct (List.find _ (sessions w)) as [old|]; msimpl.
  - destruct (existsb _ (sessions w)); msimpl.
    { eexists _, _, _. split; [reflexivity|]. msimpl. split; [log_eq|]. lsimpl. auto. }
    unfold signHS256JWT. msimpl.
    eexists _, _, _. split; [reflexivity|]. msimpl. split; [log_eq|]. lsimpl. auto.
  - destruct (existsb _ (sessions w)); msimpl.
    { eexists _, _, _. split; [reflexivity|]. msimpl. split; [log_eq|]. lsimpl. auto. }
    unfold signHS256JWT. msimpl.
    eexists _, _, _. split; [reflexivity|]. msimpl. split; [log_eq|]. lsimpl. auto.
Qed.

(** A wrong password at [login]: answer 401, cache untouched. *)
Lemma login_wrong_password (w : World) (r : Request) (u : User) :
  List.find (fun x => String.eqb (username x) (body_username r)
                      || String.eqb (email x) (body_username r)
                      || String.eqb (phoneNumber x) (body_username r)) (users w)
    = Some u →
  verifyPassword E (password u) (body_password r) = false →
  ∃ w',
    serve (login E) r w = (Done tt, w')
    ∧ log w' = (log w ++ [EvVerifyPassword (userID u);
                          EvNext (Some (AppError "Invalid username and/or password!" 401))])%list
    ∧ cache w' = cache w
    ∧ res w' = None.
Proof.
  intros Hu Hp. unfold login. msimpl. mrw Hu. mrw Hp.
  eexists. split; [reflexivity|]. msimpl. split; [log_eq|]. auto.
Qed.

End Login.

(** C3, as amended - Strikes.  A failed OTP verification at [verifyOTP],
    whether the code is replayed (410) or wrong (401), calls
    [setOTPAttempts] exactly once and leaves the subject's counter one
    higher.  [login] has no attempt counter: on no request, a wrong password
    included, does it call [setOTPAttempts] or change a counter. *)
Theorem failed_verification_strikes (E : Externals) :
  (∀ w r u code,
      presents E r w u code →
      reached_three (otpAttempts (cache w) !! userID u) = false →
      (userID u, code) ∈ blacklistedOTP (cache w)
        ∨ validateDefaultTOTP E code (totpSecret u) = false →
      ∃ w' evs,
        serve (verifyOTP E) r w = (Done tt, w')
        ∧ log w' = (log w ++ evs)%list
        ∧ (next_calls evs = [Some (AppError replay_message 410)]
           ∨ next_calls evs = [Some (AppError wrong_code_message 401)])
        ∧ count is_setOTPAttempts evs = 1
        ∧ otpAttempts (cache w') !! userID u
          = Some (S (default 0 (otpAttempts (cache w) !! userID u))))
  ∧ (∀ w r,
      ∃ c w' evs,
        serve (login E) r w = (c, w')
        ∧ log w' = (log w ++ evs)%list
        ∧ count is_setOTPAttempts evs = 0
        ∧ otpAttempts (cache w') = otpAttempts (cache w)).
Proof.
  split.
  - intros w r u code H H3 Hfail.
    destruct (verifyOTP_failure_strikes_once E w r u code H H3 Hfail)
      as (w' & evs & ? & ? & ? & ? & _ & _ & _ & _ & ? & _).
    exists w', evs. auto 10.
  - apply login_never_strikes.
Qed.

Section SessionTable.

Lemma replace_for_eq (upk : Z) (row r : SessionRow) :
  s_userPK r = upk → replace_for upk row r = row.
Proof. intros H. unfold replace_for. rewrite (proj2 (Z.eqb_eq _ _) H). reflexivity. Qed.

Lemma replace_for_ne (upk : Z) (row r : SessionRow) :
  s_userPK r ≠ upk → replace_for upk row r = r.
Proof. intros H. unfold replace_for. rewrite (proj2 (Z.eqb_neq _ _) H). reflexivity. Qed.

Lemma replace_for_userPK (upk : Z) (row : SessionRow) (l : list SessionRow) :
  s_userPK row = upk →
  List.map s_userPK (List.map (replace_for upk row) l) = List.map s_userPK l.
Proof.
  intros Hrow. induction l as [|r l IH]; [reflexivity|].
  cbn [List.map]. rewrite IH. f_equal.
  destruct (Z.eq_dec (s_userPK r) upk) as [Heq|Hne].
  - rewrite replace_for_eq; congruence.
  - rewrite replace_for_ne; congruence.
Qed.

Lemma find_userPK_In (upk : Z) (l : list SessionRow) (old : SessionRow) :
  List.find (matches (ByUserPK upk)) l = Some old →
  In old l ∧ s_userPK old = upk.
Proof.
  intros H. apply List.find_some in H as [Hin Hm]. split; [exact Hin|].
  cbn [matches] in Hm. apply Z.eqb_eq. exact Hm.
Qed.

Lemma find_userPK_None (upk : Z) (l : list SessionRow) :
  List.find (matches (ByUserPK upk)) l = None →
  ¬ In upk (List.map s_userPK l).
Proof.
  intros H Hin. apply in_map_iff in Hin as (r & Hr & Hin).
  pose proof (List.find_none _ _ H r Hin) as Hm. cbn [matches] in Hm.
  apply Z.eqb_neq in Hm. congruence.
Qed.

(** After the replacement the new identifier resolves to the new row. *)
Lemma find_replaced_new (upk : Z) (row : SessionRow) (l : list SessionRow) :
  In upk (List.map s_userPK l) →
  existsb (fun r => String.eqb (sessionID r) (sessionID row)
                    && negb (s_userPK r =? upk)%Z) l = false →
  List.find (matches (BySessionID (sessionID row)))
    (List.map (replace_for upk row) l) = Some row.
Proof.
  induction l as [|r l IH]; cbn [List.map existsb List.find In].
  - intros [].
  - intros Hin Hex. apply orb_false_iff in Hex as [Hr Hex].
    destruct (Z.eq_dec (s_userPK r) upk) as [Heq|Hne].
    + rewrite replace_for_eq by exact Heq.
      cbn [matches]. rewrite String.eqb_refl. reflexivity.
    + rewrite replace_for_ne by exact Hne.
      rewrite (proj2 (Z.eqb_neq _ _) Hne) in Hr. cbn [negb] in Hr.
      rewrite andb_true_r in Hr.
      cbn [matches]. rewrite Hr. apply IH; [|exact Hex].
      destruct Hin as [Hin|Hin]; [contradiction|exact Hin].
Qed.


(** Rows of other users keep their identifiers. *)
Lemma replace_for_others (upk : Z) (row : SessionRow) (l : list SessionRow) :
  ¬ In upk (List.map s_userPK l) →
  List.map (replace_for upk row) l = l.
Proof.
  induction l as [|r l IH]; cbn [List.map In]; [reflexivity|].
  intros Hn. rewrite replace_for_ne, IH; auto.
Qed.

Lemma existsb_other_false (upk : Z) (sid : string) (l : list SessionRow) :
  existsb (fun r => String.eqb (sessionID r) sid && negb (s_userPK r =? upk)%Z) l = false →
  ¬ In upk (List.map s_userPK l) →
  ¬ In sid (List.map sessionID l).
Proof.
  induction l as [|r l IH]; cbn [List.map In existsb]; [tauto|].
  intros Hex Hn. apply orb_false_iff in Hex as [Hr Hex].
  intros [Hh|Ht].
  - rewrite Hh, String.eqb_refl in Hr. cbn [andb] in Hr.
    apply negb_false_iff, Z.eqb_eq in Hr. tauto.
  - apply IH; auto.
Qed.

Lemma replace_for_table_ok (upk : Z) (row : SessionRow) (l : list SessionRow) :
  s_userPK row = upk →
  table_ok l →
  existsb (fun r => String.eqb (sessionID r) (sessionID row)
                    && negb (s_userPK r =? upk)%Z) l = false →
  table_ok (List.map (replace_for upk row) l).
Proof.
  intros Hrow [Hpk Hsid] Hex. split.
  - rewrite replace_for_userPK; assumption.
  - clear Hrow. induction l as [|r l IH]; cbn [List.map]; [constructor|].
    cbn [List.map] in Hpk, Hsid. inversion Hpk as [|? ? Hpk1 Hpk2]; subst.
    inversion Hsid as [|? ? Hsid1 Hsid2]; subst.
    rewrite list_elem_of_In in Hpk1. rewrite list_elem_of_In in Hsid1.
    cbn [existsb] in Hex. apply orb_false_iff in Hex as [Hr Hex].
    destruct (Z.eq_dec (s_userPK r) upk) as [Heq|Hne].
    + rewrite replace_for_eq by exact Heq.
      rewrite replace_for_others by (rewrite <- Heq; exact Hpk1).
      constructor; [|exact Hsid2].
      rewrite list_elem_of_In.
      apply (existsb_other_false upk); [exact Hex|rewrite <- Heq; exact Hpk1].
    + rewrite replace_for_ne by exact Hne.
      constructor; [|apply IH; assumption].
      rewrite list_elem_of_In.
      intros Hin. apply in_map_iff in Hin as (r' & Hr' & Hin).
      apply in_map_iff in Hin as (r0 & <- & Hin0).
      destruct (Z.eq_dec (s_userPK r0) upk) as [Heq0|Hne0].
      * rewrite replace_for_eq in Hr' by exact Heq0.
        rewrite Hr', String.eqb_refl in Hr.
        rewrite (proj2 (Z.eqb_neq _ _) Hne) in Hr. discriminate.
      * rewrite replace_for_ne in Hr' by exact Hne0.
        apply Hsid1. apply in_map_iff. exists r0. auto.
Qed.

Lemma append_table_ok (row : SessionRow) (l : list SessionRow) :
  table_ok l →
  ¬ In (s_userPK row) (List.map s_userPK l) →
  existsb (fun r => String.eqb (sessionID r) (sessionID row)) l = false →
  table_ok (l ++ [row]).
Proof.
  intros [Hpk Hsid] Hn Hex. split; rewrite List.map_app; cbn [List.map].
  - apply NoDup_app. split; [exact Hpk|]. split; [|apply NoDup_singleton].
    intros x Hx Hx'. apply list_elem_of_In in Hx. apply list_elem_of_singleton in Hx'. subst. auto.
  - apply NoDup_app. split; [exact Hsid|]. split; [|apply NoDup_singleton].
    intros x Hx Hx'. apply list_elem_of_In in Hx. apply list_elem_of_singleton in Hx'. subst.
    apply in_map_iff in Hx as (r & Hr & Hin).
    assert (Ht : existsb (fun r => String.eqb (sessionID r) (sessionID row)) l = true).
    { apply existsb_exists. exists r. split; [exact Hin|]. rewrite Hr. apply String.eqb_refl. }
    congruence.
Qed.

Lemma NoDup_map_inj {A B} (f : A → B) (l : list A) (a b : A) :
  NoDup (List.map f l) → In a l → In b l → f a = f b → a = b.
Proof.
  induction l as [|x l IH]; cbn [List.map In]; [tauto|].
  intros Hnd Ha Hb Hf. inversion Hnd as [|? ? Hx Hnd']; subst.
  rewrite list_elem_of_In in Hx.
  destruct Ha as [->|Ha], Hb as [->|Hb]; auto.
  - exfalso. apply Hx. rewrite Hf. apply in_map. exact Hb.
  - exfalso. apply Hx. rewrite <- Hf. apply in_map. exact Ha.
Qed.

Lemma find_sessionID_In (sid : string) (l : list SessionRow) (row : SessionRow) :
  List.find (matches (BySessionID sid)) l = Some row →
  In row l ∧ sessionID row = sid.
Proof.
  intros H. apply List.find_some in H as [Hin Hm]. split; [exact Hin|].
  cbn [matches] in Hm. apply String.eqb_eq. exact Hm.
Qed.

Lemma find_appended (row : SessionRow) (l : list SessionRow) :
  existsb (fun r => String.eqb (sessionID r) (sessionID row)) l = false →
  List.find (matches (BySessionID (sessionID row))) (l ++ [row]) = Some row.
Proof.
  induction l as [|r l IH]; cbn [existsb app List.find matches].
  - intros _. rewrite String.eqb_refl. reflexivity.
  - intros Hex. apply orb_false_iff in Hex as [Hr Hex]. rewrite Hr. auto.
Qed.

(** What a completed upsert leaves behind. *)
Lemma upsert_post (w w' : World) (upk : Z) (newID : string) (d : SessionData)
    (row : SessionRow) :
  table_ok (sessions w) →
  SessionService.upsert upk newID d w = (Done row, w') →
  table_ok (sessions w')
  ∧ s_userPK row = upk
  ∧ List.find (matches (BySessionID (sessionID row))) (sessions w') = Some row
  ∧ cache w' = cache w
  ∧ users w' = users w
  ∧ log w' = log w
  ∧ ((∃ old, List.find (matches (ByUserPK upk)) (sessions w) = Some old
             ∧ sessionID row = newID
             ∧ sessions w' = List.map (replace_for upk row) (sessions w))
     ∨ (List.find (matches (ByUserPK upk)) (sessions w) = None
        ∧ sessions w' = (sessions w ++ [row])%list)).
Proof.
  intros Hok. unfold SessionService.upsert. msimpl.
  destruct (List.find _ _) as [old|] eqn:Hfind; msimpl.
  - destruct (existsb _ _) eqn:Hex; msimpl; [discriminate|].
    intros Heq. injection Heq as <- <-. msimpl.
    split; [apply replace_for_table_ok; [reflexivity|exact Hok|exact Hex]|].
    split; [reflexivity|].
    split.
    { apply (find_replaced_new upk
               {| sessionPK := sessionPK old; sessionID := newID;
                  s_userPK := upk; s_data := d |}); [|exact Hex].
      apply find_userPK_In in Hfind as [Hin Hpk]. rewrite <- Hpk.
      apply in_map. exact Hin. }
    repeat split. left. exists old. auto.
  - destruct (existsb _ _) eqn:Hex; msimpl; [discriminate|].
    intros Heq. injection Heq as <- <-. msimpl.
    split.
    { apply append_table_ok; [exact Hok| |exact Hex].
      apply find_userPK_None. exact Hfind. }
    split; [reflexivity|].
    split; [apply find_appended; exact Hex|].
    repeat split. right. auto.
Qed.

Lemma createOrUpdateSession_post (w w' : World) (u : User) (d : SessionData)
    (row : SessionRow) :
  table_ok (sessions w) →
  SessionService.createOrUpdateSession u d w = (Done row, w') →
  table_ok (sessions w')
  ∧ s_userPK row = userPK u
  ∧ List.find (matches (BySessionID (sessionID row))) (sessions w') = Some row
  ∧ sess (cache w') = <[sessionID row := userID u]> (sess (cache w))
  ∧ otpAttempts (cache w') = otpAttempts (cache w)
  ∧ users w' = users w
  ∧ ((∃ old, List.find (matches (ByUserPK (userPK u))) (sessions w) = Some old
             ∧ sessions w' = List.map (replace_for (userPK u) row) (sessions w))
     ∨ (List.find (matches (ByUserPK (userPK u))) (sessions w) = None
        ∧ sessions w' = (sessions w ++ [row])%list)).
Proof.
  intros Hok. unfold SessionService.createOrUpdateSession. msimpl.
  destruct (SessionService.upsert _ _ _ _) as [[row'|e] w1] eqn:Hup; msimpl;
    [|discriminate].
  intros Heq. injection Heq as <- <-. msimpl.
  apply upsert_post in Hup; [|exact Hok]. msimpl_in Hup.
  destruct Hup as (Hok' & Hpk & Hfind & Hcache & Husers & _ & Hcase).
  rewrite Hcache.
  repeat (split; [assumption || reflexivity|]).
  destruct Hcase as [(old & ? & ? & ?)|[? ?]]; [left; exists old|right]; auto.
Qed.

End SessionTable.

Section Session.

Variable E : Externals.

(** [verifySessionJwt] lets a valid session token through and stores its
    payload in [req.auth]. *)
Lemma verifySessionJwt_valid (w : World) (t : JWT) :
  authorization (req w) = Some (Bearer (Compact t)) →
  valid_session_token E (seconds (clock w (reads w))) t →
  verifySessionJwt E w
    = (Done None, set_req (set_auth (payload t)) (set_reads (S (reads w)) w)).
Proof.
  intros Ha (Halg & Hsig & Hnbf & Hexp & Haud & Hiss).
  unfold verifySessionJwt. msimpl. mrw Ha.
  rewrite Halg. cbn [Alg_eqb negb].
  rewrite Hsig, String.eqb_refl. cbn [negb].
  msimpl_in Hnbf. msimpl_in Hexp.
  rewrite (proj2 (Z.ltb_ge _ _) Hnbf).
  rewrite (proj2 (Z.leb_gt _ _) Hexp).
  rewrite Haud, Hiss, !String.eqb_refl. cbn [negb]. msimpl. rewrite Ha. reflexivity.
Qed.

(** A valid token whose [jti] is not in the session store is refused. *)
Lemma hasSession_rejects_absent (w : World) (r : Request) (t : JWT) (sid : string) :
  authorization r = Some (Bearer (Compact t)) →
  valid_session_token E (seconds (clock w (reads w))) t →
  jti (payload t) = Some sid →
  sess (cache w) !! sid = None →
  ∃ w' evs,
    serve (hasSession E) r w = (Done tt, w')
    ∧ log w' = (log w ++ evs)%list
    ∧ next_calls evs = [Some integrity_error]
    ∧ (truthy sid = true → In (EvGetUserIDFromSession sid) evs)
    ∧ res w' = None
    ∧ session (req w') = session r
    ∧ sessions w' = sessions w.
Proof.
  intros Ha Hv Hj Hs. unfold hasSession. msimpl.
  erewrite verifySessionJwt_valid; [|exact Ha|exact Hv]. msimpl.
  rewrite Hj. cbn [mbind option_bind]. msimpl.
  destruct (truthy sid) eqn:Ht; msimpl.
  - mrw Hs. cbn [truthyO]. msimpl.
    eexists _, _. split; [reflexivity|]. msimpl. split; [log_eq|].
    lsimpl. repeat split; auto. intros _. left. reflexivity.
  - eexists _, _. split; [reflexivity|]. msimpl. split; [log_eq|].
    lsimpl. repeat split; auto. discriminate.
Qed.


End Session.

Section Supersede.

Variable E : Externals.




End Supersede.

Section SessionGate.

Variable E : Externals.

Ltac refused :=
  eexists; split; [log_eq|]; cbn [In];
  let Hin := fresh "Hin" in
  intros Hin; exfalso;
  repeat (destruct Hin as [Hin|Hin]; try discriminate); contradiction.

(** Whatever the request, [hasSession] lets it through only when the
    token's [jti] is in the session store. *)
Lemma hasSession_accepts_only_stored (w : World) (r : Request) :
  ∃ evs,
    log (snd (serve (hasSession E) r w)) = (log w ++ evs)%list
    ∧ (In (EvNext None) evs →
       ∃ t sid uid,
         authorization r = Some (Bearer (Compact t))
         ∧ jti (payload t) = Some sid
         ∧ sess (cache w) !! sid = Some uid
         ∧ In (EvGetUserIDFromSession sid) evs).
Proof.
  unfold hasSession, verifySessionJwt, SessionService.getSession,
    SessionService.updateSession. msimpl.
  destruct (authorization _) as [[[t|raw]|raw]|] eqn:Ha; msimpl; try refused.
  destruct (Alg_eqb _ _); msimpl; [|refused].
  destruct (String.eqb (signature t) _); msimpl; [|refused].
  destruct (Z.ltb _ _); msimpl; [refused|].
  destruct (Z.leb _ _); msimpl; [refused|].
  destruct (String.eqb (aud _) _); msimpl; [|refused].
  destruct (String.eqb (iss _) _); msimpl; [|refused].
  destruct (jti (payload t)) as [sid|] eqn:Hj; msimpl; [|refused].
  destruct (truthy sid); msimpl; [|refused].
  destruct (_ !! sid) as [uid|] eqn:Hs; cbn [truthyO]; msimpl; [|refused].
  destruct (truthy uid); msimpl; [|refused].
  destruct (List.find _ _) as [row|]; msimpl; [|refused].
  destruct (List.find _ _) as [u|]; msimpl; [|refused].
  destruct (isActive u); msimpl; [|refused].
  destruct (getDeviceID _ _) as [dev ip]. msimpl.
  destruct (List.find _ _) as [old|]; msimpl; [|refused].
  eexists. split; [log_eq|]. intros _.
  exists t, sid, uid. repeat split; auto. left. reflexivity.
Qed.

End SessionGate.

Section Status.

Variable E : Externals.

Lemma verifyEdDSAJWT_valid (w : World) (t : JWT) :
  valid_stepup_token E (seconds (clock w (reads w))) t →
  verifyEdDSAJWT E (Compact t) w = (Done t, set_reads (S (reads w)) w).
Proof.
  intros (Halg & Hsig & Hiss & Haud & Hnbf & Hexp).
  unfold verifyEdDSAJWT. rewrite Halg, Hsig, Hiss, Haud, !String.eqb_refl.
  cbn [Alg_eqb negb]. msimpl.
  msimpl_in Hnbf. msimpl_in Hexp.
  rewrite (proj2 (Z.ltb_ge _ _) Hnbf).
  rewrite (proj2 (Z.leb_gt _ _) Hexp). reflexivity.
Qed.

(** The identifier check of [getStatus] has no [return]: on a mismatch the
    handler sends the non-MFA status, falls through to the MFA status, and
    the [catch] block then sends once more.  Only the first send is
    delivered; the other two raise, the last one out of the handler. *)
Lemma getStatus_mismatch (w : World) (r : Request) (s : AuthInfo) (u : User)
    (t : JWT) (j uid : string) :
  session r = Some s →
  truthy (a_userID s) = true →
  List.find (fun x => String.eqb (userID x) (a_userID s)) (users w) = Some u →
  isActive u = true →
  otp_authorization r = Some (Compact t) →
  valid_stepup_token E (seconds (clock w (reads w))) t →
  jti (payload t) = Some j →
  truthy j = true →
  otpSess (cache w) !! j = Some uid →
  truthy uid = true →
  strict_neq (Some (a_userID s)) (Some uid) || strict_neq (sub (payload t)) (Some uid)
    = true →
  ∃ w' evs,
    serve (getStatus E) r w = (Thrown HeadersSent, w')
    ∧ log w' = (log w ++ evs)%list
    ∧ send_calls evs = [status_response true false (Some u);
                        status_response true true (Some u);
                        status_response false false None]
    ∧ res w' = Some (status_response true false (Some u)).
Proof.
  intros Hs Hts Hu Hact Ho Hv Hj Htj Hc Htu Hneq.
  unfold getStatus, sendUserStatus, extract_otp_token. msimpl.
  mrw Hs. rewrite Hts. msimpl. mrw Hu. rewrite Hact. msimpl. mrw Ho.
  erewrite verifyEdDSAJWT_valid; [|exact Hv]. msimpl.
  rewrite Hj. cbn [truthyO default from_option]. rewrite Htj. msimpl.
  cbn [default from_option id].
  mrw Hc. cbn [truthyO]. rewrite Htu. msimpl.
  rewrite Hneq. msimpl.
  eexists _, _. split; [reflexivity|]. msimpl. split; [log_eq|].
  lsimpl. auto.
Qed.

End Status.



(** * The claims on a concrete instance *)

Lemma demo_presents (code : string) :
  truthy code = true →
  Demo.split_colon ("alice:" ++ code) = ("alice", code) →
  ∀ w, users w = users Demo.w0 →
       presents Demo.E (Demo.basic ("alice:" ++ code)) w Demo.alice code.
Proof.
  intros Hc Hs w Hu. exists (OtherScheme ("alice:" ++ code)).
  rewrite Hu. repeat split; auto.
Qed.

Lemma verifyOTP_lockout_witness :
  ∃ evs,
    log (run_all (verifyOTP Demo.E) [Demo.right_code; Demo.wrong_code] Demo.w_locked)
      = (log Demo.w_locked ++ evs)%list
    ∧ next_calls evs = repeat (Some (AppError lockout_message 429)) 2
    ∧ count is_validateTOTP evs = 0
    ∧ count is_signEdDSA evs = 0
    ∧ otpAttempts (cache (run_all (verifyOTP Demo.E)
                            [Demo.right_code; Demo.wrong_code] Demo.w_locked))
        !! "alice" = Some 3.
Proof.
  apply (verifyOTP_lockout_blocks_every_attempt Demo.E Demo.w_locked Demo.alice
           [Demo.right_code; Demo.wrong_code]).
  - vm_compute. reflexivity.
  - repeat constructor.
    + exists "123456". apply (demo_presents "123456"); reflexivity.
    + exists "000000". apply (demo_presents "000000"); reflexivity.
Defined.



(** C1 - Revocation.  A request bearing a valid session token whose [jti]
    is not in the session store is refused by [hasSession] with the 401
    integrity error: no response, no [req.session], and for a non-empty
    [jti] the store lookup is in the log.  Deleting an identifier from the
    store makes it absent.  For every request whatever, [hasSession] calls
    [next()] only after a store lookup of the token's [jti] that found a
    subject. *)
Theorem revoked_session_is_refused (E : Externals) (w : World) (r : Request)
    (t : JWT) (sid : string) :
  authorization r = Some (Bearer (Compact t)) →
  valid_session_token E (seconds (clock w (reads w))) t →
  jti (payload t) = Some sid →
  sess (cache w) !! sid = None →
  (∃ w' evs,
      serve (hasSession E) r w = (Done tt, w')
      ∧ log w' = (log w ++ evs)%list
      ∧ next_calls evs = [Some integrity_error]
      ∧ (truthy sid = true → In (EvGetUserIDFromSession sid) evs)
      ∧ res w' = None
      ∧ session (req w') = session r)
  ∧ (∀ w0, sess (cache (snd (CacheService.deleteSession sid w0))) !! sid = None)
  ∧ (∀ w0 r0,
        ∃ evs,
          log (snd (serve (hasSession E) r0 w0)) = (log w0 ++ evs)%list
          ∧ (In (EvNext None) evs →
             ∃ t0 sid0 uid,
               authorization r0 = Some (Bearer (Compact t0))
               ∧ jti (payload t0) = Some sid0
               ∧ sess (cache w0) !! sid0 = Some uid
               ∧ In (EvGetUserIDFromSession sid0) evs)).
Proof.
  intros Ha Hv Hj Hs. split; [|split].
  - destruct (hasSession_rejects_absent E w r t sid Ha Hv Hj Hs)
      as (w' & evs & ? & ? & ? & ? & ? & ? & _).
    exists w', evs. auto 10.
  - intros w0. unfold CacheService.deleteSession. msimpl. apply lookup_delete_eq.
  - apply hasSession_accepts_only_stored.
Qed.

Lemma revoked_session_witness :
  let w := snd (CacheService.deleteSession "s-alice" Demo.w_alice_session) in
  ∃ w' evs,
    serve (hasSession Demo.E) (Demo.bearer Demo.alice_token) w = (Done tt, w')
    ∧ log w' = (log w ++ evs)%list
    ∧ next_calls evs = [Some integrity_error]
    ∧ (truthy "s-alice" = true → In (EvGetUserIDFromSession "s-alice") evs)
    ∧ res w' = None
    ∧ session (req w') = session (Demo.bearer Demo.alice_token).
Proof.
  cbv zeta.
  apply (revoked_session_is_refused Demo.E
           (snd (CacheService.deleteSession "s-alice" Demo.w_alice_session))
           (Demo.bearer Demo.alice_token) Demo.alice_token "s-alice").
  - reflexivity.
  - vm_compute. repeat split; congruence.
  - reflexivity.
  - vm_compute. reflexivity.
Defined.



(** C3: a wrong password at [login] leaves the attempt counter alone. *)
Lemma wrong_password_is_no_strike :
  let w' := snd (serve (login Demo.E) (Demo.credentials "alice" "wrong") Demo.w0) in
  next_calls (log w') = [Some (AppError "Invalid username and/or password!" 401)]
  ∧ count is_setOTPAttempts (log w') = 0
  ∧ otpAttempts (cache w') !! "alice" = None
  ∧ otpAttempts (cache w') !! "alice" ≠ Some 1.
Proof.
  cbv zeta. split; [vm_compute; reflexivity|]. split; [vm_compute; reflexivity|].
  split; [vm_compute; reflexivity|]. vm_compute. discriminate.
Qed.

Lemma failed_verification_witness :
  ∃ w' evs,
    serve (verifyOTP Demo.E) Demo.wrong_code Demo.w0 = (Done tt, w')
    ∧ log w' = (log Demo.w0 ++ evs)%list
    ∧ (next_calls evs = [Some (AppError replay_message 410)]
       ∨ next_calls evs = [Some (AppError wrong_code_message 401)])
    ∧ count is_setOTPAttempts evs = 1
    ∧ otpAttempts (cache w') !! "alice" = Some 1.
Proof.
  destruct (failed_verification_strikes Demo.E) as [Hotp _].
  apply (Hotp Demo.w0 Demo.wrong_code Demo.alice "000000").
  - apply (demo_presents "000000"); reflexivity.
  - reflexivity.
  - right. reflexivity.
Defined.


(** C7: the strike that takes Alice's counter to three sends nothing, and
    with no further attempt the episode ends without a notification. *)
Lemma third_strike_sends_no_notification :
  let w' := snd (serve (verifyOTP Demo.E) Demo.wrong_code Demo.w_two_strikes) in
  otpAttempts (cache w') !! "alice" = Some 3
  ∧ count is_notification (log w') = 0
  ∧ count is_notification (log w') ≠ 1.
Proof.
  cbv zeta. split; [vm_compute; reflexivity|]. split; [vm_compute; reflexivity|].
  vm_compute. discriminate.
Qed.

Lemma security_notification_witness :
  let w1 := snd (serve (verifyOTP Demo.E) Demo.wrong_code Demo.w_two_strikes) in
  ∃ evs0 evs,
    log w1 = (log Demo.w_two_strikes ++ evs0)%list
    ∧ otpAttempts (cache w1) !! "alice" = Some 3
    ∧ count is_notification evs0 = 0
    ∧ log (run_all (verifyOTP Demo.E) [Demo.right_code; Demo.wrong_code] w1)
      = (log w1 ++ evs)%list
    ∧ count is_notification evs = 1.
Proof.
  cbv zeta.
  apply (security_notification_per_episode Demo.E Demo.w_two_strikes Demo.alice
           Demo.wrong_code "000000" [Demo.right_code; Demo.wrong_code]).
  - apply (demo_presents "000000"); reflexivity.
  - vm_compute. reflexivity.
  - right. reflexivity.
  - repeat constructor.
    + exists "123456". apply (demo_presents "123456"); reflexivity.
    + exists "000000". apply (demo_presents "000000"); reflexivity.
Defined.


(** C10: on the same request [getStatus] ends with an error raised out of
    its [catch] block. *)
Theorem getStatus_mismatch_raises :
  fst (serve (getStatus Demo.E) Demo.alice_with_bobs_token Demo.w_bob_stepup)
  = Thrown HeadersSent.
Proof. vm_compute. reflexivity. Qed.

Section StatusCases.

Variable E : Externals.

(** [verifyEdDSAJWT] only reads the clock; what it returns is the token it
    was given. *)
Lemma verifyEdDSAJWT_frame (tok : TokenString) (w w1 : World) (c : Completion JWT) :
  verifyEdDSAJWT E tok w = (c, w1) →
  log w1 = log w ∧ res w1 = res w ∧ cache w1 = cache w
  ∧ (∀ d, c = Done d → tok = Compact d).
Proof.
  unfold verifyEdDSAJWT. destruct tok as [t|raw]; msimpl.
  - repeat (match goal with
            | |- context [if ?b then _ else _] => destruct b
            end; msimpl);
      intros Heq; injection Heq as ? ?; subst; repeat split; auto;
      intros d Hd; try discriminate; injection Hd as ->; reflexivity.
  - intros Heq. injection Heq as ? ?; subst. repeat split; auto. discriminate.
Qed.

Lemma strict_neq_false (a b : option string) :
  strict_neq a b = false → a = b.
Proof.
  destruct a as [x|], b as [y|]; cbn [strict_neq]; try discriminate; auto.
  intros H. apply negb_false_iff, String.eqb_eq in H. congruence.
Qed.

Lemma strict_neq_true (a b : option string) :
  strict_neq a b = true → a ≠ b.
Proof.
  destruct a as [x|], b as [y|]; cbn [strict_neq]; try discriminate; auto.
  intros H. apply negb_true_iff, String.eqb_neq in H. congruence.
Qed.

Ltac one_send :=
  eexists; split; [log_eq|]; left; split; [reflexivity|];
  eexists _, _, _; split; [reflexivity|]; split; [reflexivity|];
  discriminate.

(** X1 - Every run of [getStatus].  Either it resolves after exactly one
    response, which is delivered and claims MFA only for a verified token
    whose [jti] the cache maps to the session's user and whose [sub] is that
    user; or the identifiers differ, the non-MFA response is the one
    delivered, two more sends are attempted and the handler raises. *)
Theorem getStatus_outcomes (w : World) (r : Request) :
  ∃ evs,
    log (snd (serve (getStatus E) r w)) = (log w ++ evs)%list
    ∧ ((fst (serve (getStatus E) r w) = Done tt
        ∧ ∃ a m u,
            send_calls evs = [status_response a m u]
            ∧ res (snd (serve (getStatus E) r w)) = Some (status_response a m u)
            ∧ (m = true →
               ∃ s t j,
                 session r = Some s
                 ∧ otp_authorization r = Some (Compact t)
                 ∧ fst (verifyEdDSAJWT E (Compact t) (begin_request r w)) = Done t
                 ∧ jti (payload t) = Some j
                 ∧ otpSess (cache w) !! j = Some (a_userID s)
                 ∧ sub (payload t) = Some (a_userID s)))
       ∨ (fst (serve (getStatus E) r w) = Thrown HeadersSent
          ∧ ∃ u s t j uid,
              send_calls evs = [status_response true false (Some u);
                                status_response true true (Some u);
                                status_response false false None]
              ∧ res (snd (serve (getStatus E) r w))
                = Some (status_response true false (Some u))
              ∧ session r = Some s
              ∧ otp_authorization r = Some (Compact t)
              ∧ jti (payload t) = Some j
              ∧ otpSess (cache w) !! j = Some uid
              ∧ (a_userID s ≠ uid ∨ sub (payload t) ≠ Some uid))).
Proof.
  unfold getStatus, sendUserStatus, extract_otp_token. msimpl.
  destruct (session _) as [s|] eqn:Hs; msimpl; [|one_send].
  destruct (truthy (a_userID s)); msimpl; [|one_send].
  destruct (List.find _ _) as [u|]; msimpl; [|one_send].
  destruct (isActive u); msimpl; [|one_send].
  destruct (otp_authorization _) as [[t|raw]|] eqn:Ho; msimpl; [| |one_send].
  2:{ destruct raw; msimpl; [one_send|].
      unfold verifyEdDSAJWT. msimpl. one_send. }
  destruct (verifyEdDSAJWT E (Compact t) _) as [[d|e] w1] eqn:Hv; msimpl.
  2:{ apply verifyEdDSAJWT_frame in Hv as (Hl & Hr & _). msimpl_in Hl. msimpl_in Hr.
      rewrite Hr, Hl. one_send. }
  pose proof Hv as Hv'.
  apply verifyEdDSAJWT_frame in Hv' as (Hl & Hr & Hc & Hd).
  specialize (Hd d eq_refl). injection Hd as <-.
  msimpl_in Hl. msimpl_in Hr. msimpl_in Hc.
  destruct (jti (payload t)) as [j|] eqn:Hj; cbn [truthyO]; msimpl;
    [|rewrite Hr, Hl; one_send].
  destruct (truthy j); msimpl; [|rewrite Hr, Hl; one_send].
  cbn [default from_option id]. rewrite Hc.
  destruct (_ !! j) as [uid|] eqn:Hu; cbn [truthyO]; msimpl;
    [|rewrite Hr, Hl; one_send].
  destruct (truthy uid); msimpl; [|rewrite Hr, Hl; one_send].
  assert (Hacc : fst (verifyEdDSAJWT E (Compact t) (begin_request r w)) = Done t).
  { msimpl. msimpl_in Hv. rewrite Hv. reflexivity. }
  destruct (strict_neq _ _ || strict_neq _ _) eqn:Hneq; msimpl; rewrite Hr, Hl; msimpl.
  - eexists. split; [log_eq|]. right. split; [reflexivity|].
    exists u, s, t, j, uid. lsimpl. repeat split; auto.
    apply orb_true_iff in Hneq as [H|H]; apply strict_neq_true in H.
    + left. congruence.
    + right. exact H.
  - eexists. split; [log_eq|]. left. split; [reflexivity|].
    eexists _, _, _. split; [reflexivity|]. split; [reflexivity|].
    intros _. apply orb_false_iff in Hneq as [H1 H2].
    apply strict_neq_false in H1, H2. injection H1 as H1.
    exists s, t, j. rewrite H1. auto 10.
Qed.

End StatusCases.

Section Extras.

Variable E : Externals.

(** X2 - A live session.  A request bearing a valid session token whose
    [jti] the cache maps to an active user and the table to a row goes
    through [hasSession]: [next()] is called, nothing is sent, the row is
    refreshed and [req.session] names the user, the row and the session. *)
Theorem hasSession_accepts_live_session (w : World) (r : Request) (t : JWT)
    (sid uid : string) (row : SessionRow) (u : User) :
  authorization r = Some (Bearer (Compact t)) →
  valid_session_token E (seconds (clock w (reads w))) t →
  jti (payload t) = Some sid →
  truthy sid = true →
  sess (cache w) !! sid = Some uid →
  truthy uid = true →
  List.find (matches (BySessionID sid)) (sessions w) = Some row →
  List.find (fun x => String.eqb (userID x) uid) (users w) = Some u →
  isActive u = true →
  ∃ w' evs a,
    serve (hasSession E) r w = (Done tt, w')
    ∧ log w' = (log w ++ evs)%list
    ∧ next_calls evs = [None]
    ∧ res w' = None
    ∧ session (req w') = Some a
    ∧ a_userID a = uid
    ∧ a_userPK a = userPK u
    ∧ a_sessionID a = sid
    ∧ a_sessionPK a = sessionPK row
    ∧ cache w' = cache w.
Proof.
  intros Ha Hv Hj Hts Hs Htu Hf Hu Hact. unfold hasSession. msimpl.
  erewrite verifySessionJwt_valid; [|exact Ha|exact Hv]. msimpl.
  rewrite Hj. msimpl. rewrite Hts. msimpl. mrw Hs. cbn [truthyO]. rewrite Htu. msimpl.
  unfold SessionService.getSession. msimpl. mrw Hf.
  cbn [default from_option id]. mrw Hu. rewrite Hact. msimpl.
  destruct (getDeviceID _ _) as [dev ip]. msimpl.
  unfold SessionService.updateSession. msimpl. rewrite Hf. msimpl.
  eexists _, _, _. split; [reflexivity|]. msimpl. split; [log_eq|].
  lsimpl. repeat split; reflexivity.
Qed.

Lemma find_filter_negb (wh : SessionWhere) (l : list SessionRow) :
  List.find (matches wh) (List.filter (fun r => negb (matches wh r)) l) = None.
Proof.
  induction l as [|r l IH]; [reflexivity|]. cbn [List.filter].
  destruct (matches wh r) eqn:Hm; cbn [negb]; [exact IH|].
  cbn [List.find]. rewrite Hm. exact IH.
Qed.

(** X3 - Explicit revocation.  After [SessionService.deleteSession] by
    session identifier has completed, neither the table nor the cache knows
    the identifier. *)
Theorem deleteSession_revokes (w w' : World) (sid : string) :
  SessionService.deleteSession (BySessionID sid) w = (Done tt, w') →
  List.find (matches (BySessionID sid)) (sessions w') = None
  ∧ sess (cache w') !! sid = None.
Proof.
  unfold SessionService.deleteSession. msimpl.
  destruct (List.find _ _) as [row|] eqn:Hf; msimpl; [|discriminate].
  intros Heq. injection Heq as <-. msimpl.
  apply find_sessionID_In in Hf as [_ Hsid]. rewrite Hsid.
  split; [apply find_filter_negb|apply lookup_delete_eq].
Qed.

(** X4 - A fresh, correct code.  [verifyOTP] answers 200 with a step-up
    token for the subject, valid for 15 minutes from the issuing readings of
    the clock, whose [jti] is the identifier just drawn; the OTP session
    maps that [jti] to the subject, and the attempt counter is untouched. *)
Theorem verifyOTP_success_issues_stepup (w : World) (r : Request) (u : User)
    (code : string) :
  presents E r w u code →
  reached_three (otpAttempts (cache w) !! userID u) = false →
  (userID u, code) ∉ blacklistedOTP (cache w) →
  validateDefaultTOTP E code (totpSecret u) = true →
  ∃ w' t,
    serve (verifyOTP E) r w = (Done tt, w')
    ∧ res w' = Some (stepup_response t)
    ∧ alg t = EdDSA
    ∧ sub (payload t) = Some (userID u)
    ∧ jti (payload t) = Some (entropy w (draws w))
    ∧ exp (payload t) = (seconds (clock w (reads w)) + 15 * 60)%Z
    ∧ otpSess (cache w') !! entropy w (draws w) = Some (userID u)
    ∧ otpAttempts (cache w') = otpAttempts (cache w).
Proof.
  intros H H3 Hb Hv.
  destruct (verifyOTP_success_step E w r u code H H3 Hb Hv)
    as (w' & Hrun & _ & Hres & _ & Hatt & Hsess & _).
  exists w', (stepup_token E w u (entropy w (draws w))).
  rewrite Hsess, lookup_insert_eq. auto 10.
Qed.

End Extras.

Lemma live_session_witness :
  ∃ w' evs a,
    serve (hasSession Demo.E) (Demo.bearer Demo.alice_token) Demo.w_alice_live = (Done tt, w')
    ∧ log w' = (log Demo.w_alice_live ++ evs)%list
    ∧ next_calls evs = [None]
    ∧ res w' = None
    ∧ session (req w') = Some a
    ∧ a_userID a = "alice"
    ∧ a_userPK a = userPK Demo.alice
    ∧ a_sessionID a = "s-alice"
    ∧ a_sessionPK a = sessionPK Demo.alice_row
    ∧ cache w' = cache Demo.w_alice_live.
Proof.
  apply (hasSession_accepts_live_session Demo.E Demo.w_alice_live
           (Demo.bearer Demo.alice_token) Demo.alice_token "s-alice" "alice"
           Demo.alice_row Demo.alice); try reflexivity.
  vm_compute. repeat split; congruence.
Defined.

Lemma deleteSession_witness :
  List.find (matches (BySessionID "s-alice"))
    (sessions (snd (SessionService.deleteSession (BySessionID "s-alice") Demo.w_alice_live)))
  = None
  ∧ sess (cache (snd (SessionService.deleteSession (BySessionID "s-alice")
                        Demo.w_alice_live))) !! "s-alice" = None.
Proof.
  apply (deleteSession_revokes Demo.w_alice_live). vm_compute. reflexivity.
Defined.

Lemma stepup_witness :
  ∃ w' t,
    serve (verifyOTP Demo.E) Demo.right_code Demo.w0 = (Done tt, w')
    ∧ res w' = Some (stepup_response t)
    ∧ alg t = EdDSA
    ∧ sub (payload t) = Some "alice"
    ∧ jti (payload t) = Some "id0"
    ∧ exp (payload t) = 1900%Z
    ∧ otpSess (cache w') !! "id0" = Some "alice"
    ∧ otpAttempts (cache w') = otpAttempts (cache Demo.w0).
Proof.
  apply (verifyOTP_success_issues_stepup Demo.E Demo.w0 Demo.right_code Demo.alice "123456").
  - apply (demo_presents "123456"); reflexivity.
  - reflexivity.
  - apply (bool_decide_eq_false_1 _). vm_compute. reflexivity.
  - reflexivity.
Defined.

Section CounterBound.

Variable E : Externals.

Lemma strike_stays_within_three (m : gmap string nat) (k uid : string) (n : nat) :
  (∀ (uid : string) (n : nat), m !! uid = Some n → (n ≤ 3)%nat) →
  reached_three (m !! k) = false →
  <[k := S (default 0 (m !! k))]> m !! uid = Some n →
  (n ≤ 3)%nat.
Proof.
  intros Hb H3 Hl. destruct (decide (k = uid)) as [->|Hne].
  - rewrite lookup_insert_eq in Hl. injection Hl as <-.
    destruct (m !! uid) as [c|] eqn:Hc; cbn [default from_option id reached_three] in *.
    + specialize (Hb uid c Hc). apply Nat.eqb_neq in H3. lia.
    + lia.
  - rewrite lookup_insert_ne in Hl by exact Hne. eauto.
Qed.

(** X5 - The attempt counters never pass three.  Whatever the request, if
    every counter is at most three before a [verifyOTP] call, every counter
    is at most three after it: the branches that add a strike run only when
    the subject's counter is not yet three. *)
Theorem verifyOTP_counters_stay_within_three (w : World) (r : Request) :
  (∀ (uid : string) (n : nat), otpAttempts (cache w) !! uid = Some n → (n ≤ 3)%nat) →
  ∀ (uid : string) (n : nat),
    otpAttempts (cache (snd (serve (verifyOTP E) r w))) !! uid = Some n → (n ≤ 3)%nat.
Proof.
  intros Hb uid n. unfold verifyOTP, present_authorization. msimpl.
  destruct (authorization _) as [[t|raw]|]; msimpl; [| |apply Hb].
  - destruct (parseBasicAuth _ _) as [name pass]. msimpl.
    destruct (negb (truthy name) || negb (truthy pass)); msimpl; [apply Hb|].
    destruct (List.find _ _) as [u|]; msimpl; [|apply Hb].
    destruct (reached_three _) eqn:H3; msimpl.
    + destruct (bool_decide _); msimpl; apply Hb.
    + destruct (bool_decide _); msimpl.
      * apply strike_stays_within_three; assumption.
      * destruct (validateDefaultTOTP _ _ _); msimpl.
        -- unfold signEdDSAJWT. msimpl. apply Hb.
        -- apply strike_stays_within_three; assumption.
  - destruct raw as [|c raw']; msimpl; [apply Hb|].
    destruct (parseBasicAuth _ _) as [name pass]. msimpl.
    destruct (negb (truthy name) || negb (truthy pass)); msimpl; [apply Hb|].
    destruct (List.find _ _) as [u|]; msimpl; [|apply Hb].
    destruct (reached_three _) eqn:H3; msimpl.
    + destruct (bool_decide _); msimpl; apply Hb.
    + destruct (bool_decide _); msimpl.
      * apply strike_stays_within_three; assumption.
      * destruct (validateDefaultTOTP _ _ _); msimpl.
        -- unfold signEdDSAJWT. msimpl. apply Hb.
        -- apply strike_stays_within_three; assumption.
Qed.

End CounterBound.

Lemma counters_witness :
  ∃ n : nat,
    otpAttempts (cache (snd (serve (verifyOTP Demo.E) Demo.wrong_code Demo.w_two_strikes)))
      !! "alice" = Some n
    ∧ (n ≤ 3)%nat.
Proof.
  exists 3. assert (Hl : otpAttempts (cache (snd (serve (verifyOTP Demo.E) Demo.wrong_code
                                                 Demo.w_two_strikes))) !! "alice" = Some 3)
    by (vm_compute; reflexivity).
  split; [exact Hl|].
  apply (verifyOTP_counters_stay_within_three Demo.E Demo.w_two_strikes Demo.wrong_code)
    with (uid := "alice"); [|exact Hl].
  intros uid n. unfold Demo.w_two_strikes, Demo.with_attempts.
  cbn [cache set_cache otpAttempts CacheService.with_otpAttempts].
  intros H. apply lookup_singleton_Some in H as [_ <-]. lia.
Defined.

(** * More of the code *)

(** Case on the lookup of a session row, and on the lookup of a user. *)
Ltac find_row row H :=
  match goal with
  | |- context [List.find ?f ?l] =>
      lazymatch type of f with
      | SessionRow → bool => destruct (List.find f l) as [row|] eqn:H
      end
  end.

Ltac find_user u H :=
  match goal with
  | |- context [List.find ?f ?l] =>
      lazymatch type of f with
      | User → bool => destruct (List.find f l) as [u|] eqn:H
      end
  end.


(** ** The bearer token of a header *)

Section BearerToken.

Lemma append_cons (c : Ascii.ascii) (s t : string) :
  String c s ++ t = String c (s ++ t).
Proof. reflexivity. Qed.

Lemma append_nil (t : string) : "" ++ t = t.
Proof. reflexivity. Qed.

Lemma prefix_app (p a : string) :
  String.prefix p a = true ↔ ∃ b, a = p ++ b.
Proof.
  revert a. induction p as [|c p IH]; intros a.
  - split; [intros _; exists a; reflexivity|].
    intros _. destruct a; reflexivity.
  - destruct a as [|c' a]; cbn [String.prefix].
    + split; [discriminate|intros [b Hb]; discriminate].
    + destruct (Ascii.ascii_dec c c') as [->|Hne].
      * rewrite IH. split; intros [b Hb]; exists b;
          rewrite append_cons in *; congruence.
      * split; [discriminate|]. intros [b Hb].
        rewrite append_cons in Hb. congruence.
Qed.

(** The first piece of a split is the text before the first separator. *)
Lemma split_on_first (sep : Ascii.ascii) (t rest : string) :
  has_char sep t = false →
  rest = "" ∨ (∃ r, rest = String sep r) →
  ∃ pieces, split_on sep (t ++ rest) = t :: pieces.
Proof.
  intros Ht Hrest. induction t as [|c t IH];
    rewrite ?append_cons, ?append_nil.
  - destruct Hrest as [->|[r ->]]; cbn [split_on]; [eauto|].
    rewrite Ascii.eqb_refl. eauto.
  - cbn [has_char] in Ht. apply orb_false_iff in Ht as [Hc Ht].
    cbn [split_on]. rewrite Hc.
    destruct (IH Ht) as [pieces ->]. eauto.
Qed.

(** Every text is a piece without separator followed by nothing or by a
    separator. *)
Lemma first_piece (sep : Ascii.ascii) (s : string) :
  ∃ t rest, s = t ++ rest ∧ has_char sep t = false
            ∧ (rest = "" ∨ ∃ r, rest = String sep r).
Proof.
  induction s as [|c s (t & rest & -> & Ht & Hrest)].
  - exists "", "". auto.
  - destruct (Ascii.eqb c sep) eqn:Hc.
    + apply Ascii.eqb_eq in Hc as ->.
      exists "", (String sep (t ++ rest)). repeat split; eauto.
    + exists (String c t), rest. cbn [has_char].
      rewrite Hc, Ht. auto.
Qed.

End BearerToken.

(** X6 - The bearer token of a header.  [extractJWTFromAuthHeader] answers
    a text [x] exactly when the header is [Bearer ] followed by [x], where
    [x] has no space and is followed by nothing or by a space and anything:
    what comes after a second space is dropped, and [x] may be empty.  It
    answers [undefined] exactly when the header is missing or does not
    start with [Bearer ]. *)
Theorem extractJWTFromAuthHeader_token (header : option string) :
  (∀ x, extractJWTFromAuthHeader header = Some x ↔
        ∃ rest, header = Some ("Bearer " ++ x ++ rest)
                ∧ has_char space x = false
                ∧ (rest = "" ∨ ∃ r, rest = String space r))
  ∧ (extractJWTFromAuthHeader header = None ↔
     header = None ∨ ∃ a, header = Some a ∧ String.prefix "Bearer " a = false).
Proof.
  assert (Hbearer : ∀ t rest,
            has_char space t = false →
            rest = "" ∨ (∃ r, rest = String space r) →
            extractJWTFromAuthHeader (Some ("Bearer " ++ t ++ rest)) = Some t).
  { intros t rest Ht Hrest. unfold extractJWTFromAuthHeader.
    rewrite (proj2 (prefix_app _ _)) by eauto.
    destruct (split_on_first space t rest Ht Hrest) as [pieces Hp].
    change ("Bearer " ++ t ++ rest) with ("Bearer" ++ String space (t ++ rest)).
    destruct (split_on_first space "Bearer" (String space (t ++ rest)))
      as [pieces' Hp']; [reflexivity|eauto|].
    change (split_on space ("Bearer" ++ String space (t ++ rest)))
      with ("Bearer" :: split_on space (t ++ rest)).
    rewrite Hp. reflexivity. }
  split.
  - intros x. split.
    + unfold extractJWTFromAuthHeader. destruct header as [a|]; [|discriminate].
      destruct (String.prefix "Bearer " a) eqn:Hp; [|discriminate].
      apply prefix_app in Hp as [b ->].
      destruct (first_piece space b) as (t & rest & -> & Ht & Hrest).
      intros Hx. pose proof (Hbearer t rest Ht Hrest) as Hb.
      unfold extractJWTFromAuthHeader in Hb.
      rewrite (proj2 (prefix_app _ _)) in Hb by eauto.
      rewrite Hb in Hx. injection Hx as <-. eauto.
    + intros (rest & -> & Hx & Hrest). apply Hbearer; assumption.
  - split.
    + unfold extractJWTFromAuthHeader. destruct header as [a|]; [|auto].
      destruct (String.prefix "Bearer " a) eqn:Hp; [|eauto].
      apply prefix_app in Hp as [b ->].
      destruct (first_piece space b) as (t & rest & -> & Ht & Hrest).
      intros Hn. pose proof (Hbearer t rest Ht Hrest) as Hb.
      unfold extractJWTFromAuthHeader in Hb.
      rewrite (proj2 (prefix_app _ _)) in Hb by eauto.
      congruence.
    + intros [->|(a & -> & Hp)]; [reflexivity|].
      unfold extractJWTFromAuthHeader. rewrite Hp. reflexivity.
Qed.

(** ** The payload schema *)


(** ** The step-up token *)

(** X8 - Issue then verify, for the step-up token.  When the public key
    verifies what the private key signs, a token issued by [signEdDSAJWT]
    for [subjectID] under [tokenID] carries [alg = EdDSA],
    [sub = subjectID], [jti = tokenID] and an [exp] of [ttl] minutes after
    the issuing reading of the clock; [verifyEdDSAJWT] at a reading not
    before its [nbf] gives the token back if the reading is before [exp],
    and raises [JWTExpired] from [exp] on. *)
Theorem stepup_token_roundtrip (E : Externals) (w : World)
    (subjectID tokenID : string) (ttl : Z) :
  (∀ p, edVerify E (JWT_PUBLIC_KEY E) p (edSign E (JWT_PRIVATE_KEY E) p) = true) →
  (seconds (clock w (S (S (reads w)))) ≤ seconds (clock w (S (S (S (reads w))))))%Z →
  ∃ t w1 w2,
    signEdDSAJWT E tokenID subjectID ttl w = (Done t, w1)
    ∧ alg t = EdDSA
    ∧ sub (payload t) = Some subjectID
    ∧ jti (payload t) = Some tokenID
    ∧ exp (payload t) = (seconds (clock w (reads w)) + ttl * 60)%Z
    ∧ verifyEdDSAJWT E (Compact t) w1
      = (if (exp (payload t) <=? seconds (clock w (S (S (S (reads w))))))%Z
         then Thrown (JOSEError "JWTExpired") else Done t, w2).
Proof.
  intros Hkeys Hnbf. unfold signEdDSAJWT. msimpl.
  eexists _, _, _. split; [reflexivity|].
  cbn [alg payload sub jti exp]. repeat (split; [reflexivity|]).
  unfold verifyEdDSAJWT. cbn [alg payload signature iss aud nbf exp Alg_eqb negb].
  rewrite Hkeys, !String.eqb_refl. cbn [negb]. msimpl.
  msimpl_in Hnbf. rewrite (proj2 (Z.ltb_ge _ _) Hnbf).
  destruct (Z.leb _ _); reflexivity.
Qed.

(** ** The session gate *)

Section Gate.

Variable E : Externals.

Ltac turned_away :=
  eexists; split; [log_eq|]; cbn [In];
  let Hin := fresh "Hin" in
  intros Hin; exfalso;
  repeat (destruct Hin as [Hin|Hin]; try discriminate); contradiction.

(** X9 - What the gate demands.  Whatever the request, [hasSession] calls
    [next()] only when the request bears a compact token that is valid at
    the reading of the clock, whose [jti] the cache maps to a user
    identifier and the table to a row, and that identifier is an active
    user's. *)
Theorem hasSession_accepts_only_live_sessions (w : World) (r : Request) :
  ∃ evs,
    log (snd (serve (hasSession E) r w)) = (log w ++ evs)%list
    ∧ (In (EvNext None) evs →
       ∃ t sid uid row u,
         authorization r = Some (Bearer (Compact t))
         ∧ valid_session_token E (seconds (clock w (reads w))) t
         ∧ jti (payload t) = Some sid
         ∧ truthy sid = true
         ∧ sess (cache w) !! sid = Some uid
         ∧ truthy uid = true
         ∧ List.find (matches (BySessionID sid)) (sessions w) = Some row
         ∧ List.find (fun x => String.eqb (userID x) uid) (users w) = Some u
         ∧ isActive u = true).
Proof.
  unfold hasSession, verifySessionJwt, SessionService.getSession,
    SessionService.updateSession. msimpl.
  destruct (authorization _) as [[[t|raw]|raw]|] eqn:Ha; msimpl; try turned_away.
  destruct (Alg_eqb _ _) eqn:Halg; msimpl; [|turned_away].
  destruct (String.eqb (signature t) _) eqn:Hsig; msimpl; [|turned_away].
  destruct (Z.ltb _ _) eqn:Hnbf; msimpl; [turned_away|].
  destruct (Z.leb _ _) eqn:Hexp; msimpl; [turned_away|].
  destruct (String.eqb (aud _) _) eqn:Haud; msimpl; [|turned_away].
  destruct (String.eqb (iss _) _) eqn:Hiss; msimpl; [|turned_away].
  destruct (jti (payload t)) as [sid|] eqn:Hj; msimpl; [|turned_away].
  destruct (truthy sid) eqn:Hts; msimpl; [|turned_away].
  destruct (_ !! sid) as [uid|] eqn:Hs; cbn [truthyO]; msimpl; [|turned_away].
  destruct (truthy uid) eqn:Htu; msimpl; [|turned_away].
  find_row row Hrow; msimpl; [|turned_away].
  cbn [default from_option id].
  find_user u Hu; msimpl; [|turned_away].
  destruct (isActive u) eqn:Hact; msimpl; [|turned_away].
  destruct (getDeviceID _ _) as [dev ip]. msimpl.
  rewrite Hrow. msimpl.
  eexists. split; [log_eq|]. intros _.
  exists t, sid, uid, row, u.
  split; [reflexivity|]. split.
  { unfold valid_session_token. msimpl.
    destruct (alg t); try discriminate.
    apply String.eqb_eq in Hsig, Haud, Hiss.
    apply Z.ltb_ge in Hnbf. apply Z.leb_gt in Hexp.
    repeat split; assumption. }
  repeat split; assumption.
Qed.

End Gate.

(** ** The error handler *)

Lemma sendErrorResponse_eq (NODE_ENV m : string) (c : Z) :
  sendErrorResponse NODE_ENV m c
    = [SendError m c (String.eqb NODE_ENV "development")].
Proof. unfold sendErrorResponse. destruct (String.eqb _ _); reflexivity. Qed.

(** X10 - One answer for every error.  Whatever reaches [errorHandler], it
    sends exactly one error response; it calls [next()] only for a value
    that is not an [Error]; an [AppError] goes out with its own message and
    status; anything else goes out with 400, 401, 413 or 500, and, unless
    it is a Zod error, with one of six fixed messages, so that the text of
    an unexpected error never reaches the client. *)
Theorem errorHandler_answers_once (NODE_ENV : string) (err : ThrownValue) :
  ∃ m c,
    List.filter is_SendError (errorHandler NODE_ENV err)
      = [SendError m c (String.eqb NODE_ENV "development")]
    ∧ (In NextCalled (errorHandler NODE_ENV err) ↔ err = NotAnError)
    ∧ match err with
      | AnAppError m0 c0 => m = m0 ∧ c = c0
      | AnError (ZodError issues) => m = formatZodError issues ∧ c = 400%Z
      | _ => In (m, c) canned_errors
      end.
Proof.
  pose proof (sendErrorResponse_eq NODE_ENV) as Hsend.
  destruct err as [m0 c0|e|]; cbn [errorHandler].
  - exists m0, c0. rewrite Hsend. cbn [List.filter is_SendError In].
    repeat split; try discriminate. intros [H|[]]. discriminate.
  - assert (Hop : ∃ printed m c,
              handleOperationalErrors e = (printed, (m, c))
              ∧ List.filter is_SendError printed = []
              ∧ ¬ In NextCalled printed
              ∧ match e with
                | ZodError issues => m = formatZodError issues ∧ c = 400%Z
                | _ => In (m, c) canned_errors
                end).
    { destruct e as [|k|issues|name|name type]; cbn [handleOperationalErrors].
      - eexists _, _, _. split; [reflexivity|]. cbn. tauto.
      - eexists _, _, _. split; [reflexivity|]. cbn. tauto.
      - eexists _, _, _. split; [reflexivity|]. cbn. tauto.
      - destruct (jose_handled name); [|destruct (String.eqb name _)];
          (eexists _, _, _; split; [reflexivity|]); cbn;
          (split; [reflexivity|]); (split; [|tauto]);
          intros H; repeat (destruct H as [H|H]; try discriminate); exact H.
      - destruct (match type with Some _ => _ | None => _ end);
          [|destruct (String.eqb name _)];
          (eexists _, _, _; split; [reflexivity|]); cbn;
          (split; [reflexivity|]); (split; [|tauto]);
          intros H; repeat (destruct H as [H|H]; try discriminate); exact H. }
    destruct Hop as (printed & m & c & -> & Hf & Hn & Hc).
    exists m, c. rewrite Hsend, List.filter_app, Hf. cbn [app List.filter is_SendError].
    split; [reflexivity|]. split.
    + split; [|discriminate]. intros Hin. apply in_app_iff in Hin as [Hin|Hin].
      * contradiction.
      * destruct Hin as [Hin|[]]. discriminate.
    + destruct e; exact Hc.
  - eexists _, _. rewrite Hsend. cbn [app List.filter is_SendError].
    split; [reflexivity|]. split.
    + split; [reflexivity|]. intros _. cbn. tauto.
    + cbn. tauto.
Qed.

Section GateAnswers.

Variable E : Externals.
Variable NODE_ENV : string.

Ltac answered_with_error :=
  eexists _, _; split; [reflexivity|]; msimpl; split; [log_eq|];
  lsimpl; split; [reflexivity|]; split; [reflexivity|];
  right; eexists _, _, _; split; [reflexivity|];
  split; [cbn [thrown_value errorHandler handleOperationalErrors app];
          try change (String.eqb "UnauthorizedError" "UnauthorizedError") with true;
          cbn iota; apply sendErrorResponse_eq|];
  auto.

(** X11 - The gate and the error handler.  [hasSession] never raises and
    never sends a response itself: on every request it calls [next] exactly
    once, either without an argument, or with an error that [errorHandler]
    answers with 400, 401 or 403 and nothing else, never with a 500. *)
Theorem hasSession_answers (w : World) (r : Request) :
  ∃ w' evs,
    serve (hasSession E) r w = (Done tt, w')
    ∧ log w' = (log w ++ evs)%list
    ∧ send_calls evs = []
    ∧ res w' = None
    ∧ (next_calls evs = [None]
       ∨ ∃ e m c,
           next_calls evs = [Some e]
           ∧ errorHandler NODE_ENV (thrown_value e)
             = [SendError m c (String.eqb NODE_ENV "development")]
           ∧ (c = 400 ∨ c = 401 ∨ c = 403)%Z).
Proof.
  unfold hasSession, verifySessionJwt, SessionService.getSession,
    SessionService.updateSession, integrity_error. msimpl.
  destruct (authorization _) as [[[t|raw]|raw]|] eqn:Ha; msimpl;
    try answered_with_error.
  destruct (Alg_eqb _ _); msimpl; [|answered_with_error].
  destruct (String.eqb (signature t) _); msimpl; [|answered_with_error].
  destruct (Z.ltb _ _); msimpl; [answered_with_error|].
  destruct (Z.leb _ _); msimpl; [answered_with_error|].
  destruct (String.eqb (aud _) _); msimpl; [|answered_with_error].
  destruct (String.eqb (iss _) _); msimpl; [|answered_with_error].
  destruct (jti (payload t)) as [sid|]; msimpl; [|answered_with_error].
  destruct (truthy sid); msimpl; [|answered_with_error].
  destruct (_ !! sid) as [uid|]; cbn [truthyO]; msimpl; [|answered_with_error].
  destruct (truthy uid); msimpl; [|answered_with_error].
  find_row row Hrow; msimpl; [|answered_with_error].
  cbn [default from_option id].
  find_user u Hu; msimpl; [|answered_with_error].
  destruct (isActive u); msimpl; [|answered_with_error].
  destruct (getDeviceID _ _) as [dev ip]. msimpl.
  rewrite Hrow. msimpl.
  eexists _, _. split; [reflexivity|]. msimpl. split; [log_eq|].
  lsimpl. auto.
Qed.

End GateAnswers.

(** ** Ending a session *)

Section RefreshedTable.

Variables (sid : string) (row : SessionRow) (d : SessionData).


Lemma refresh_keys (l : list SessionRow) :
  List.find (matches (BySessionID sid)) l = Some row →
  NoDup (List.map sessionID l) →
  List.map sessionPK (List.map (refresh sid row d) l) = List.map sessionPK l
  ∧ List.map sessionID (List.map (refresh sid row d) l) = List.map sessionID l
  ∧ List.map s_userPK (List.map (refresh sid row d) l) = List.map s_userPK l.
Proof.
  intros Hf Hnd.
  assert (Hone : ∀ r, In r l → matches (BySessionID sid) r = true → r = row).
  { intros r Hin Hm. apply find_sessionID_In in Hf as [Hrow Hsid].
    cbn [matches] in Hm. apply String.eqb_eq in Hm.
    apply (NoDup_map_inj sessionID l); auto. congruence. }
  clear Hf Hnd. induction l as [|r l IH]; [auto|].
  cbn [List.map]. destruct IH as (-> & -> & ->).
  { intros r' Hin. apply Hone. right. exact Hin. }
  unfold refresh. destruct (matches _ r) eqn:Hm; [|auto].
  rewrite (Hone r (or_introl eq_refl) Hm). auto.
Qed.

(** With a unique primary key, the key of the refreshed row resolves to
    it. *)
Lemma find_pk_refreshed (l : list SessionRow) :
  List.find (matches (BySessionID sid)) l = Some row →
  NoDup (List.map sessionPK l) →
  ∃ found, List.find (matches (BySessionPK (sessionPK row))) (List.map (refresh sid row d) l)
           = Some found
           ∧ sessionID found = sid ∧ sessionPK found = sessionPK row.
Proof.
  intros Hf Hnd. pose proof (find_sessionID_In _ _ _ Hf) as [Hin Hsid].
  destruct (List.find (matches (BySessionPK (sessionPK row))) (List.map (refresh sid row d) l))
    as [found|] eqn:Hfound.
  - exists found. split; [reflexivity|].
    apply List.find_some in Hfound as [Hin' Hm]. cbn [matches] in Hm.
    apply Z.eqb_eq in Hm. split; [|exact Hm].
    apply in_map_iff in Hin' as (r & <- & Hr). unfold refresh in *.
    destruct (matches (BySessionID sid) r) eqn:Hmr.
    + exact Hsid.
    + rewrite (NoDup_map_inj sessionPK l r row Hnd Hr Hin Hm). exact Hsid.
  - exfalso.
    pose proof (List.find_none _ _ Hfound (refresh sid row d row) (in_map _ _ _ Hin)) as Hn.
    unfold refresh in Hn. cbn [matches] in Hn. rewrite Hsid, String.eqb_refl in Hn.
    cbn [sessionPK] in Hn. rewrite Z.eqb_refl in Hn. discriminate.
Qed.

(** Once the rows with that key are removed, no row carries [sid]. *)
Lemma find_sid_after_delete (l : list SessionRow) :
  List.find (matches (BySessionID sid)) l = Some row →
  NoDup (List.map sessionPK l) →
  List.find (matches (BySessionID sid))
    (List.filter (fun r => negb (matches (BySessionPK (sessionPK row)) r))
       (List.map (refresh sid row d) l)) = None.
Proof.
  intros Hf Hnd. pose proof (find_sessionID_In _ _ _ Hf) as [Hin Hsid].
  match goal with
  | |- ?lhs = None => destruct lhs as [found|] eqn:Hfound; [exfalso|reflexivity]
  end.
  apply List.find_some in Hfound as [Hin' Hm].
  apply filter_In in Hin' as [Hin' Hpk].
  apply negb_true_iff in Hpk. cbn [matches] in Hpk, Hm.
  apply Z.eqb_neq in Hpk. apply String.eqb_eq in Hm.
  apply in_map_iff in Hin' as (r & <- & Hr). unfold refresh in *.
  cbn [matches] in *.
  destruct (String.eqb_spec (sessionID r) sid) as [Hr'|Hr'].
  - apply Hpk. reflexivity.
  - contradiction.
Qed.

End RefreshedTable.

Section LiveSession.

Variable E : Externals.

(** What [hasSession] leaves behind for a live session. *)
Lemma hasSession_live_step (w : World) (r : Request) (t : JWT)
    (sid uid : string) (row : SessionRow) (u : User) :
  authorization r = Some (Bearer (Compact t)) →
  valid_session_token E (seconds (clock w (reads w))) t →
  jti (payload t) = Some sid →
  truthy sid = true →
  sess (cache w) !! sid = Some uid →
  truthy uid = true →
  List.find (matches (BySessionID sid)) (sessions w) = Some row →
  List.find (fun x => String.eqb (userID x) uid) (users w) = Some u →
  isActive u = true →
  ∃ w' d a,
    serve (hasSession E) r w = (Done tt, w')
    ∧ sessions w' = List.map (refresh sid row d) (sessions w)
    ∧ cache w' = cache w
    ∧ users w' = users w
    ∧ nextSessionPK w' = nextSessionPK w
    ∧ log w' = (log w ++ [EvGetUserIDFromSession sid; EvNext None])%list
    ∧ res w' = None
    ∧ session (req w') = Some a
    ∧ a_userID a = uid
    ∧ a_userPK a = userPK u
    ∧ a_sessionID a = sid
    ∧ a_sessionPK a = sessionPK row.
Proof.
  intros Ha Hv Hj Hts Hs Htu Hf Hu Hact. unfold hasSession. msimpl.
  erewrite verifySessionJwt_valid; [|exact Ha|exact Hv]. msimpl.
  rewrite Hj. msimpl. rewrite Hts. msimpl. mrw Hs. cbn [truthyO]. rewrite Htu. msimpl.
  unfold SessionService.getSession. msimpl. mrw Hf.
  cbn [default from_option id]. mrw Hu. rewrite Hact. msimpl.
  destruct (getDeviceID _ _) as [dev ip]. msimpl.
  unfold SessionService.updateSession. msimpl. rewrite Hf. msimpl.
  eexists _, _, _. split; [reflexivity|]. msimpl.
  split; [reflexivity|]. split; [reflexivity|]. split; [reflexivity|].
  split; [reflexivity|]. split; [log_eq|].
  repeat split; reflexivity.
Qed.

End LiveSession.

Section Logout.

Variable E : Externals.

(** X12 - Log-out.  On the route [hasSession, logout], a request with a
    live session is answered 200, the row and the cache entry of its
    session are gone, and a later request bearing the same token is never
    let through by [hasSession]. *)
Theorem logout_revokes_session (w : World) (r : Request) (t : JWT)
    (sid uid : string) (row : SessionRow) (u : User) :
  authorization r = Some (Bearer (Compact t)) →
  valid_session_token E (seconds (clock w (reads w))) t →
  jti (payload t) = Some sid →
  truthy sid = true →
  sess (cache w) !! sid = Some uid →
  truthy uid = true →
  List.find (matches (BySessionID sid)) (sessions w) = Some row →
  List.find (fun x => String.eqb (userID x) uid) (users w) = Some u →
  isActive u = true →
  NoDup (List.map sessionPK (sessions w)) →
  ∃ w1 resp,
    serve (route (hasSession E) logout) r w = (Done tt, w1)
    ∧ res w1 = Some resp
    ∧ statusCode resp = 200%Z
    ∧ message resp = "Logged out successfully!"
    ∧ List.find (matches (BySessionID sid)) (sessions w1) = None
    ∧ sess (cache w1) !! sid = None
    ∧ ∀ r2, authorization r2 = Some (Bearer (Compact t)) →
            ∃ evs, log (snd (serve (hasSession E) r2 w1)) = (log w1 ++ evs)%list
                   ∧ ¬ In (EvNext None) evs.
Proof.
  intros Ha Hv Hj Hts Hs Htu Hf Hu Hact Hnd.
  destruct (hasSession_live_step E w r t sid uid row u Ha Hv Hj Hts Hs Htu Hf Hu Hact)
    as (w' & d & a & Hrun & Hsessions & Hcache & _ & _ & Hlog & Hres & Hsess
        & _ & _ & _ & Hpk).
  destruct (find_pk_refreshed sid row d (sessions w) Hf Hnd)
    as (found & Hfound & Hfsid & _).
  pose proof (find_sid_after_delete sid row d (sessions w) Hf Hnd) as Hgone.
  unfold serve in Hrun |- *. unfold route. rewrite Hrun.
  replace (log (begin_request r w)) with (log w) by reflexivity.
  rewrite Hlog, drop_app_length. cbn [existsb is_next orb].
  unfold logout. msimpl. mrw Hsess.
  unfold SessionService.deleteSession. msimpl.
  rewrite Hpk. rewrite <- Hsessions in Hfound, Hgone. mrw Hfound. mrw Hres.
  eexists _, _. split; [reflexivity|].
  match goal with
  | |- res ?W = _ ∧ _ => set (w1 := W)
  end.
  assert (Hdel : sess (cache w1) !! sid = None).
  { subst w1. msimpl. rewrite Hfsid. apply lookup_delete_eq. }
  split; [reflexivity|]. split; [reflexivity|]. split; [reflexivity|].
  split; [subst w1; msimpl; msimpl_in Hgone; exact Hgone|].
  split; [exact Hdel|].
  intros r2 Ha2.
  destruct (hasSession_accepts_only_stored E w1 r2) as (evs & Hl & Hin).
  exists evs. split; [exact Hl|]. intros Hnext.
  destruct (Hin Hnext) as (t' & sid' & uid' & Ha' & Hj' & Hs' & _).
  pose proof (eq_trans (eq_sym Ha2) Ha') as Ht. injection Ht as <-.
  pose proof (eq_trans (eq_sym Hj) Hj') as Hsid. injection Hsid as <-.
  pose proof (eq_trans (eq_sym Hdel) Hs') as Hno. discriminate.
Qed.

End Logout.

(** ** The session controller *)

Lemma in_filter_other (wh : SessionWhere) (l : list SessionRow) (r0 : SessionRow) :
  In r0 l → matches wh r0 = false →
  In r0 (List.filter (fun r => negb (matches wh r)) l).
Proof.
  intros Hin Hm. apply filter_In. split; [exact Hin|]. rewrite Hm. reflexivity.
Qed.

(** X13 - Deleting a session by its identifier.  When the table has a row
    with that identifier, [SessionController.deleteSession] removes it and
    the cache entry, leaves every other row where it is and answers 204.
    When it has none, the handler raises Prisma's not-found error before
    anything else: no response is sent, and an entry the cache may still
    hold under the identifier stays; the error handler answers that error
    with a 400. *)
Theorem deleteSession_by_identifier (NODE_ENV : string) (w : World) (r : Request)
    (id : string) :
  match List.find (matches (BySessionID id)) (sessions w) with
  | Some row =>
      ∃ w', serve (SessionController.deleteSession id) r w = (Done tt, w')
            ∧ res w' = Some no_content
            ∧ List.find (matches (BySessionID id)) (sessions w') = None
            ∧ sess (cache w') = delete id (sess (cache w))
            ∧ ∀ r0, In r0 (sessions w) → sessionID r0 ≠ id → In r0 (sessions w')
  | None =>
      ∃ w', serve (SessionController.deleteSession id) r w = (Thrown PrismaNotFound, w')
            ∧ res w' = None
            ∧ sessions w' = sessions w
            ∧ cache w' = cache w
            ∧ log w' = log w
            ∧ errorHandler NODE_ENV (thrown_value PrismaNotFound)
              = [SendError "Your request violates the constraints of the database. Please insert another data!"
                   400 (String.eqb NODE_ENV "development")]
  end.
Proof.
  destruct (List.find _ _) as [row|] eqn:Hf.
  - unfold SessionController.deleteSession, SessionService.deleteSession. msimpl.
    mrw Hf. eexists. split; [reflexivity|]. msimpl.
    split; [reflexivity|]. split; [apply find_filter_negb|].
    apply find_sessionID_In in Hf as [_ ->].
    split; [reflexivity|].
    intros r0 Hin Hne. apply in_filter_other; [exact Hin|].
    cbn [matches]. apply String.eqb_neq. exact Hne.
  - unfold SessionController.deleteSession, SessionService.deleteSession. msimpl.
    mrw Hf. eexists. split; [reflexivity|]. msimpl.
    repeat (split; [reflexivity|]).
    cbn [thrown_value errorHandler handleOperationalErrors app].
    apply sendErrorResponse_eq.
Qed.

Section MySession.

Variable getUserSessions : Cache → string → list string.

(** X14 - Deleting one's own session.  [deleteMySession] checks that the
    identifier in the path is among the caller's sessions, and then deletes
    the session of the request itself, by its primary key: the rows with
    another key stay, and so does the cache entry of the identifier in the
    path when that is not the identifier of the row deleted.  An identifier
    that is not among the caller's sessions gets a 404 and changes
    nothing. *)
Theorem deleteMySession_deletes_the_callers_session (w : World) (r : Request)
    (id : string) (a : AuthInfo) (row : SessionRow) :
  session r = Some a →
  truthy (a_userID a) = true →
  List.find (matches (BySessionPK (a_sessionPK a))) (sessions w) = Some row →
  (In id (getUserSessions (cache w) (a_userID a)) →
   ∃ w', serve (SessionController.deleteMySession getUserSessions id) r w = (Done tt, w')
         ∧ res w' = Some no_content
         ∧ List.find (matches (BySessionPK (a_sessionPK a))) (sessions w') = None
         ∧ sess (cache w') = delete (sessionID row) (sess (cache w))
         ∧ (∀ r0, In r0 (sessions w) → sessionPK r0 ≠ a_sessionPK a → In r0 (sessions w'))
         ∧ (sessionID row ≠ id → sess (cache w') !! id = sess (cache w) !! id))
  ∧ (¬ In id (getUserSessions (cache w) (a_userID a)) →
     ∃ w', serve (SessionController.deleteMySession getUserSessions id) r w = (Done tt, w')
           ∧ log w' = (log w ++ [EvNext (Some (AppError "You do not have a session with that ID." 404))])%list
           ∧ res w' = None
           ∧ sessions w' = sessions w
           ∧ cache w' = cache w).
Proof.
  intros Hs Ht Hf.
  assert (Hex : ∀ l, existsb (fun sid => String.eqb sid id) l = true ↔ In id l).
  { intros l. rewrite existsb_exists. split.
    - intros (x & Hin & Hx). apply String.eqb_eq in Hx. congruence.
    - intros Hin. exists id. split; [exact Hin|apply String.eqb_refl]. }
  split; intros Hid.
  - unfold SessionController.deleteMySession, SessionService.deleteSession. msimpl.
    mrw Hs. rewrite Ht. msimpl.
    apply Hex in Hid. msimpl_in Hid. rewrite Hid. msimpl. mrw Hf.
    eexists. split; [reflexivity|]. msimpl.
    split; [reflexivity|]. split; [apply find_filter_negb|].
    split; [reflexivity|]. split.
    + intros r0 Hin Hne. apply in_filter_other; [exact Hin|].
      cbn [matches]. apply Z.eqb_neq. exact Hne.
    + intros Hne. apply lookup_delete_ne. exact Hne.
  - unfold SessionController.deleteMySession. msimpl.
    mrw Hs. rewrite Ht. msimpl.
    destruct (existsb _ _) eqn:Hb.
    { exfalso. apply Hid. apply Hex. msimpl. exact Hb. }
    msimpl. eexists. split; [reflexivity|]. msimpl. auto.
Qed.

End MySession.

(** ** Changing the password *)

Section Password.

Variable E : Externals.
Variable safeCompare : string → string → bool.
Variable updateUser : string → string → list User → list User.

Lemma updatePassword_success_step (w : World) (r : Request) (a : AuthInfo)
    (u : User) (row : SessionRow)
    (currentPassword newPassword confirmPassword : string) :
  session r = Some a →
  truthy (a_userID a) = true →
  List.find (fun x => String.eqb (userID x) (a_userID a)) (users w) = Some u →
  verifyPassword E (password u) currentPassword = true →
  safeCompare newPassword confirmPassword = true →
  List.find (matches (ByUserPK (userPK u))) (sessions w) = Some row →
  ∃ w' resp,
    serve (updatePassword E safeCompare updateUser
             currentPassword newPassword confirmPassword) r w = (Done tt, w')
    ∧ res w' = Some resp
    ∧ statusCode resp = 200%Z
    ∧ users w' = updateUser (a_userID a) newPassword (users w)
    ∧ List.find (matches (ByUserPK (userPK u))) (sessions w') = None
    ∧ sess (cache w') = delete (sessionID row) (sess (cache w)).
Proof.
  intros Hs Ht Hu Hv Hc Hf.
  unfold updatePassword, SessionService.deleteSession, set_users. msimpl.
  mrw Hs. rewrite Ht. msimpl. mrw Hu. rewrite Hv, Hc. msimpl. mrw Hf.
  eexists _, _. repeat (split; [reflexivity|]).
  split; [apply find_filter_negb|reflexivity].
Qed.

(** X15 - A password change ends the session.  For a request with a
    session of user [u]: when the current password verifies and the two new
    ones compare equal, [updatePassword] rewrites the user, deletes the
    session row of [u] with its cache entry and answers 200, after which
    [hasSession] never lets a token of that session through; when [u] has
    no session row, the user is rewritten all the same and the handler then
    raises Prisma's not-found error without answering.  A wrong current
    password, or new passwords that differ, get a 401 and change nothing. *)
Theorem updatePassword_ends_the_session (w : World) (r : Request) (a : AuthInfo)
    (u : User) (currentPassword newPassword confirmPassword : string) :
  session r = Some a →
  truthy (a_userID a) = true →
  List.find (fun x => String.eqb (userID x) (a_userID a)) (users w) = Some u →
  let run := serve (updatePassword E safeCompare updateUser
                      currentPassword newPassword confirmPassword) r w in
  (verifyPassword E (password u) currentPassword = true →
   safeCompare newPassword confirmPassword = true →
   match List.find (matches (ByUserPK (userPK u))) (sessions w) with
   | Some row =>
       ∃ resp, fst run = Done tt
               ∧ res (snd run) = Some resp
               ∧ statusCode resp = 200%Z
               ∧ users (snd run) = updateUser (a_userID a) newPassword (users w)
               ∧ List.find (matches (ByUserPK (userPK u))) (sessions (snd run)) = None
               ∧ sess (cache (snd run)) = delete (sessionID row) (sess (cache w))
               ∧ ∀ r2 t,
                   authorization r2 = Some (Bearer (Compact t)) →
                   jti (payload t) = Some (sessionID row) →
                   ∃ evs,
                     log (snd (serve (hasSession E) r2 (snd run)))
                       = (log (snd run) ++ evs)%list
                     ∧ ¬ In (EvNext None) evs
   | None =>
       fst run = Thrown PrismaNotFound
       ∧ res (snd run) = None
       ∧ users (snd run) = updateUser (a_userID a) newPassword (users w)
   end)
  ∧ (verifyPassword E (password u) currentPassword = false
     ∨ safeCompare newPassword confirmPassword = false →
     ∃ m, fst run = Done tt
          ∧ log (snd run)
            = (log w ++ [EvVerifyPassword (userID u); EvNext (Some (AppError m 401))])%list
          ∧ res (snd run) = None
          ∧ users (snd run) = users w
          ∧ sessions (snd run) = sessions w
          ∧ cache (snd run) = cache w).
Proof.
  intros Hs Ht Hu run. subst run. split.
  - intros Hv Hc.
    destruct (List.find (matches (ByUserPK (userPK u))) (sessions w))
      as [row|] eqn:Hf.
    + destruct (updatePassword_success_step w r a u row currentPassword newPassword
                  confirmPassword Hs Ht Hu Hv Hc Hf)
        as (w' & resp & -> & Hres & Hcode & Husers & Hgone & Hcache).
      cbn [fst snd]. exists resp. repeat (split; [assumption || reflexivity|]).
      intros r2 t Ha2 Hj.
      destruct (hasSession_accepts_only_stored E w' r2) as (evs & Hl & Hin).
      exists evs. split; [exact Hl|]. intros Hnext.
      destruct (Hin Hnext) as (t' & sid' & uid' & Ha' & Hj' & Hs' & _).
      pose proof (eq_trans (eq_sym Ha2) Ha') as Ht'. injection Ht' as <-.
      pose proof (eq_trans (eq_sym Hj) Hj') as Hsid. injection Hsid as <-.
      rewrite Hcache, lookup_delete_eq in Hs'. discriminate.
    + unfold updatePassword, SessionService.deleteSession, set_users. msimpl.
      mrw Hs. rewrite Ht. msimpl. mrw Hu. rewrite Hv, Hc. msimpl. mrw Hf.
      repeat split.
  - intros Hfail.
    unfold updatePassword. msimpl.
    mrw Hs. rewrite Ht. msimpl. mrw Hu.
    destruct (verifyPassword _ _ _) eqn:Hv; msimpl.
    + destruct Hfail as [Hfail|Hfail]; [discriminate|]. rewrite Hfail. msimpl.
      eexists. split; [reflexivity|]. split; [log_eq|]. auto.
    + eexists. split; [reflexivity|]. split; [log_eq|]. auto.
Qed.

End Password.

(** ** From log-in to the gate *)

Lemma find_userID_unique (l : list User) (u : User) :
  users_ok l → In u l →
  List.find (fun x => String.eqb (userID x) (userID u)) l = Some u.
Proof.
  unfold users_ok. induction l as [|x l IH]; cbn [List.map In List.find]; [tauto|].
  intros Hnd Hin. inversion Hnd as [|? ? Hx Hnd']; subst.
  rewrite list_elem_of_In in Hx.
  destruct Hin as [->|Hin]; [rewrite String.eqb_refl; reflexivity|].
  destruct (String.eqb_spec (userID x) (userID u)) as [Heq|Hne]; [|auto].
  exfalso. apply Hx. rewrite Heq. apply in_map. exact Hin.
Qed.

Section LoginThenGate.

Variable E : Externals.

(** A login that answers went through every check, wrote the session and
    signed a token for it with the shared secret. *)
Lemma login_success_full (w : World) (r : Request) (resp : Response) :
  res (snd (serve (login E) r w)) = Some resp →
  ∃ u d row tok wa wb,
    SessionService.createOrUpdateSession u d wa = (Done row, wb)
    ∧ sessions wa = sessions w
    ∧ cache wa = cache w
    ∧ users wa = users w
    ∧ sessions (snd (serve (login E) r w)) = sessions wb
    ∧ cache (snd (serve (login E) r w)) = cache wb
    ∧ users (snd (serve (login E) r w)) = users wb
    ∧ fst (serve (login E) r w) = Done tt
    ∧ resp = {| statusCode := 200; status := "success";
                message := "Logged in successfully!";
                data := DataLogin u tok; type := "auth" |}
    ∧ In u (users w)
    ∧ isActive u = true
    ∧ alg tok = HS256
    ∧ signature tok = hmacSHA256 E (JWT_SECRET E) (payload tok)
    ∧ aud (payload tok) = JWT_AUDIENCE E
    ∧ iss (payload tok) = JWT_ISSUER E
    ∧ jti (payload tok) = Some (sessionID row)
    ∧ sub (payload tok) = Some (userID u).
Proof.
  unfold login. msimpl.
  find_user u Hu; msimpl; [|discriminate].
  destruct (verifyPassword _ _ _); msimpl; [|discriminate].
  destruct (isActive u) eqn:Hact; msimpl; [|discriminate].
  destruct (getDeviceID _ _) as [dev ip]. msimpl.
  match goal with
  | |- context [SessionService.createOrUpdateSession ?u ?d ?wa] =>
      destruct (SessionService.createOrUpdateSession u d wa) as [[row|e] wb] eqn:Hc
  end; msimpl.
  2:{ intros Hres. exfalso. revert Hc Hres.
      unfold SessionService.createOrUpdateSession, SessionService.upsert. msimpl.
      find_row old Hold; msimpl.
      - destruct (existsb _ _); msimpl.
        + intros Heq. injection Heq as <- <-. discriminate.
        + discriminate.
      - destruct (existsb _ _); msimpl.
        + intros Heq. injection Heq as <- <-. discriminate.
        + discriminate. }
  unfold signHS256JWT. msimpl.
  assert (Hr : res wb = None).
  { revert Hc. unfold SessionService.createOrUpdateSession, SessionService.upsert. msimpl.
    find_row old Hold; msimpl.
    - destruct (existsb _ _); msimpl; [discriminate|].
      intros Heq. injection Heq as <- <-. reflexivity.
    - destruct (existsb _ _); msimpl; [discriminate|].
      intros Heq. injection Heq as <- <-. reflexivity. }
  mrw Hr. intros Hres. injection Hres as <-.
  eexists u, _, row, _, _, wb. split; [exact Hc|]. msimpl.
  repeat (split; [reflexivity|]).
  split; [apply List.find_some in Hu as [Hin _]; exact Hin|].
  split; [exact Hact|].
  repeat split; reflexivity.
Qed.

(** X16 - From log-in to the gate.  When [login] has answered with a
    token, a request that bears this token at a reading of the clock from
    its [nbf] on and before its [exp] is let through by [hasSession], with
    [req.session] naming the user who logged in and the session of the
    token.  The tables are taken with their unique indexes, and the
    identifiers of the user and of the session are not empty. *)
Theorem login_token_opens_session (w : World) (r r2 : Request) (resp : Response)
    (u : User) (tok : JWT) (sid : string) :
  table_ok (sessions w) →
  users_ok (users w) →
  let w1 := snd (serve (login E) r w) in
  res w1 = Some resp →
  data resp = DataLogin u tok →
  jti (payload tok) = Some sid →
  truthy sid = true →
  truthy (userID u) = true →
  (nbf (payload tok) ≤ seconds (clock w1 (reads w1)))%Z →
  (seconds (clock w1 (reads w1)) < exp (payload tok))%Z →
  authorization r2 = Some (Bearer (Compact tok)) →
  ∃ w2 evs a,
    serve (hasSession E) r2 w1 = (Done tt, w2)
    ∧ log w2 = (log w1 ++ evs)%list
    ∧ next_calls evs = [None]
    ∧ session (req w2) = Some a
    ∧ a_userID a = userID u
    ∧ a_userPK a = userPK u
    ∧ a_sessionID a = sid.
Proof.
  intros Hok Hus w1 Hres Hdata Hj Hts Htu Hnbf Hexp Ha.
  destruct (login_success_full w r resp Hres)
    as (u' & d & row & tok' & wa & wb & Hc & Hsa & Hca & Hua & Hs1 & Hc1 & Hu1 & _
        & -> & Hin & Hact & Halg & Hsig & Haud & Hiss & Hj' & _).
  cbn [data] in Hdata. injection Hdata as -> ->.
  rewrite Hj in Hj'. injection Hj' as ->.
  apply createOrUpdateSession_post in Hc; [|rewrite Hsa; exact Hok].
  destruct Hc as (_ & _ & Hfind & Hsess & _ & Husers & _).
  destruct (hasSession_live_step E w1 r2 tok (sessionID row) (userID u) row u)
    as (w2 & d2 & a & Hrun & _ & _ & _ & _ & Hlog & _ & Hsession & Hauid & Hapk & Hasid & _).
  - exact Ha.
  - unfold valid_session_token. auto 10.
  - exact Hj.
  - exact Hts.
  - subst w1. rewrite Hc1, Hsess. apply lookup_insert_eq.
  - exact Htu.
  - subst w1. rewrite Hs1. exact Hfind.
  - subst w1. rewrite Hu1, Husers, Hua. apply find_userID_unique; assumption.
  - exact Hact.
  - exists w2, [EvGetUserIDFromSession (sessionID row); EvNext None], a.
    repeat split; assumption.
Qed.

End LoginThenGate.

(** ** Every run of [login] and of [verifyOTP] *)

Section Outcomes.

Variable E : Externals.

Ltac login_refused :=
  eexists _, _, _; split; [reflexivity|]; msimpl; split; [log_eq|];
  left; lsimpl; repeat (split; [reflexivity|]).

(** X17 - Every run of [login].  Either the request is refused, with the
    same 401 for a credential that matches no user and for a password that
    does not verify, or with a 403 for a user who is not active; or the
    session identifier collides and the upsert raises; or the password of
    an active user has verified and the answer is a 200 with a token whose
    [sub] is that user.  In the first two cases nothing is sent and the
    session table and the cache are as before. *)
Theorem login_outcomes (w : World) (r : Request) :
  let found :=
    List.find (fun x => String.eqb (username x) (body_username r)
                        || String.eqb (email x) (body_username r)
                        || String.eqb (phoneNumber x) (body_username r)) (users w) in
  ∃ c w' evs,
    serve (login E) r w = (c, w')
    ∧ log w' = (log w ++ evs)%list
    ∧ ((c = Done tt ∧ res w' = None ∧ send_calls evs = []
        ∧ sessions w' = sessions w ∧ cache w' = cache w
        ∧ ((next_calls evs = [Some (AppError "Invalid username and/or password!" 401)]
            ∧ (found = None
               ∨ ∃ u, found = Some u
                      ∧ verifyPassword E (password u) (body_password r) = false))
           ∨ (next_calls evs
                = [Some (AppError "User is not active. Please contact the admin." 403)]
              ∧ ∃ u, found = Some u
                     ∧ verifyPassword E (password u) (body_password r) = true
                     ∧ isActive u = false)))
       ∨ (c = Thrown (PrismaUniqueViolation "sessionID")
          ∧ res w' = None ∧ send_calls evs = [] ∧ next_calls evs = []
          ∧ sessions w' = sessions w ∧ cache w' = cache w)
       ∨ (c = Done tt ∧ next_calls evs = []
          ∧ ∃ u tok,
              found = Some u
              ∧ verifyPassword E (password u) (body_password r) = true
              ∧ isActive u = true
              ∧ res w' = Some {| statusCode := 200; status := "success";
                                 message := "Logged in successfully!";
                                 data := DataLogin u tok; type := "auth" |}
              ∧ alg tok = HS256
              ∧ sub (payload tok) = Some (userID u)
              ∧ sess (cache w') !! default "" (jti (payload tok)) = Some (userID u))).
Proof.
  intros found. subst found. unfold login. msimpl.
  find_user u Hu; msimpl.
  2:{ login_refused. left. auto. }
  destruct (verifyPassword _ _ _) eqn:Hp; msimpl.
  2:{ login_refused. left. split; [reflexivity|]. right. exists u. auto. }
  destruct (isActive u) eqn:Hact; msimpl.
  2:{ login_refused. right. split; [reflexivity|]. exists u. auto. }
  destruct (getDeviceID _ _) as [dev ip]. msimpl.
  unfold SessionService.createOrUpdateSession, SessionService.upsert. msimpl.
  find_row old Hold; msimpl.
  - destruct (existsb _ _); msimpl.
    { eexists _, _, _. split; [reflexivity|]. msimpl. split; [log_eq|].
      right. left. lsimpl. repeat split; reflexivity. }
    unfold signHS256JWT. msimpl.
    eexists _, _, _. split; [reflexivity|]. msimpl. split; [log_eq|].
    right. right. lsimpl. split; [reflexivity|]. split; [reflexivity|].
    eexists u, _. split; [reflexivity|]. split; [exact Hp|]. split; [exact Hact|].
    repeat (split; [reflexivity|]).
    cbn [payload jti default from_option id]. apply lookup_insert_eq.
  - destruct (existsb _ _); msimpl.
    { eexists _, _, _. split; [reflexivity|]. msimpl. split; [log_eq|].
      right. left. lsimpl. repeat split; reflexivity. }
    unfold signHS256JWT. msimpl.
    eexists _, _, _. split; [reflexivity|]. msimpl. split; [log_eq|].
    right. right. lsimpl. split; [reflexivity|]. split; [reflexivity|].
    eexists u, _. split; [reflexivity|]. split; [exact Hp|]. split; [exact Hact|].
    repeat (split; [reflexivity|]).
    cbn [payload jti default from_option id]. apply lookup_insert_eq.
Qed.

End Outcomes.

Section OTPOutcomes.

Variable E : Externals.

Ltac otp_refused :=
  eexists _, _; split; [reflexivity|]; msimpl; split; [log_eq|];
  left; eexists _, _; lsimpl; split; [reflexivity|];
  split; [tauto|]; repeat split; reflexivity.

(** X18 - Every run of [verifyOTP].  The handler never raises and answers
    once: either with an error, 401, 404, 429 or 410, and then no token is
    signed and neither the OTP sessions nor the blacklist change; or with
    the 200 that carries a step-up token, and then the subject was not
    locked out, the code was not on the blacklist, the validator was called
    once and accepted the code, the code is on the blacklist afterwards and
    the token's [sub] is the subject. *)
Theorem verifyOTP_outcomes (w : World) (r : Request) :
  ∃ w' evs,
    serve (verifyOTP E) r w = (Done tt, w')
    ∧ log w' = (log w ++ evs)%list
    ∧ ((∃ m c,
          next_calls evs = [Some (AppError m c)]
          ∧ (c = 401 ∨ c = 404 ∨ c = 429 ∨ c = 410)%Z
          ∧ send_calls evs = []
          ∧ res w' = None
          ∧ count is_signEdDSA evs = 0
          ∧ otpSess (cache w') = otpSess (cache w)
          ∧ blacklistedOTP (cache w') = blacklistedOTP (cache w))
       ∨ (∃ a u code t,
            present_authorization r = Some a
            ∧ parseBasicAuth E a = (userID u, code)
            ∧ List.find (fun x => String.eqb (userID x) (userID u)) (users w) = Some u
            ∧ reached_three (otpAttempts (cache w) !! userID u) = false
            ∧ ((userID u, code) ∉ blacklistedOTP (cache w))
            ∧ validateDefaultTOTP E code (totpSecret u) = true
            ∧ count is_validateTOTP evs = 1
            ∧ next_calls evs = []
            ∧ send_calls evs = [stepup_response t]
            ∧ res w' = Some (stepup_response t)
            ∧ sub (payload t) = Some (userID u)
            ∧ ((userID u, code) ∈ blacklistedOTP (cache w'))
            ∧ otpAttempts (cache w') = otpAttempts (cache w))).
Proof.
  unfold verifyOTP. msimpl.
  destruct (present_authorization r) as [a|] eqn:Ha; msimpl; [|otp_refused].
  destruct (parseBasicAuth E a) as [name pass] eqn:Hp. msimpl.
  destruct (negb (truthy name) || negb (truthy pass)); msimpl; [otp_refused|].
  find_user u Hu; msimpl; [|otp_refused].
  assert (Hname : name = userID u).
  { apply List.find_some in Hu as [_ Hn]. apply String.eqb_eq in Hn. congruence. }
  subst name.
  destruct (reached_three _) eqn:H3; msimpl.
  { destruct (bool_decide _); msimpl; otp_refused. }
  destruct (bool_decide _) eqn:Hb; msimpl; [otp_refused|].
  destruct (validateDefaultTOTP _ _ _) eqn:Hv; msimpl; [|otp_refused].
  unfold signEdDSAJWT. msimpl.
  eexists _, _. split; [reflexivity|]. msimpl. split; [log_eq|].
  right. exists a, u, pass, (stepup_token E w u (entropy w (draws w))).
  lsimpl. split; [reflexivity|]. split; [exact Hp|].
  split; [exact Hu|]. split; [exact H3|].
  split; [apply bool_decide_eq_false in Hb; exact Hb|].
  split; [exact Hv|].
  repeat (split; [reflexivity|]). split; [|reflexivity].
  set_solver.
Qed.

End OTPOutcomes.

(** ** The keys of the session table *)

Section Keys.

Lemma NoDup_map_filter {A B} (f : A → B) (p : A → bool) (l : list A) :
  NoDup (List.map f l) → NoDup (List.map f (List.filter p l)).
Proof.
  induction l as [|x l IH]; cbn [List.map List.filter]; [auto|].
  intros Hnd. apply NoDup_cons in Hnd as [Hx Hnd].
  destruct (p x); cbn [List.map]; [|auto].
  apply NoDup_cons. split; [|auto].
  rewrite list_elem_of_In in Hx |- *. intros Hin. apply Hx.
  apply in_map_iff in Hin as (y & Hy & Hin). apply filter_In in Hin as [Hin _].
  apply in_map_iff. eauto.
Qed.

Lemma Forall_filter_keep {A} (P : A → Prop) (p : A → bool) (l : list A) :
  Forall P l → Forall P (List.filter p l).
Proof.
  intros H. apply List.Forall_forall. intros x Hin.
  apply filter_In in Hin as [Hin _].
  rewrite List.Forall_forall in H. auto.
Qed.

Lemma keys_filter (p : SessionRow → bool) (l : list SessionRow) (n : Z) :
  keys_ok l n → keys_ok (List.filter p l) n.
Proof.
  intros ([Hu Hs] & Hpk & Hlt). repeat split.
  - apply NoDup_map_filter. exact Hu.
  - apply NoDup_map_filter. exact Hs.
  - apply NoDup_map_filter. exact Hpk.
  - apply Forall_filter_keep. exact Hlt.
Qed.

Lemma Forall_keys (l l' : list SessionRow) (n : Z) :
  List.map sessionPK l' = List.map sessionPK l →
  Forall (fun r => (sessionPK r < n)%Z) l →
  Forall (fun r => (sessionPK r < n)%Z) l'.
Proof.
  intros Heq H. apply (List.Forall_map sessionPK (fun k => (k < n)%Z)).
  rewrite Heq. apply (List.Forall_map sessionPK (fun k => (k < n)%Z)). exact H.
Qed.

Lemma keys_refresh (sid : string) (row : SessionRow) (d : SessionData)
    (l : list SessionRow) (n : Z) :
  List.find (matches (BySessionID sid)) l = Some row →
  keys_ok l n → keys_ok (List.map (refresh sid row d) l) n.
Proof.
  intros Hf ([Hu Hs] & Hpk & Hlt).
  destruct (refresh_keys sid row d l Hf Hs) as (Epk & Esid & Eupk).
  repeat split.
  - rewrite Eupk. exact Hu.
  - rewrite Esid. exact Hs.
  - rewrite Epk. exact Hpk.
  - apply (Forall_keys l); assumption.
Qed.

Lemma replace_for_keys (upk : Z) (old row : SessionRow) (l : list SessionRow) :
  List.find (matches (ByUserPK upk)) l = Some old →
  NoDup (List.map s_userPK l) →
  sessionPK row = sessionPK old →
  List.map sessionPK (List.map (replace_for upk row) l) = List.map sessionPK l.
Proof.
  intros Hf Hnd Hrow.
  assert (Hone : ∀ r, In r l → s_userPK r = upk → r = old).
  { intros r Hin Hr. apply find_userPK_In in Hf as [Hold Hupk].
    apply (NoDup_map_inj s_userPK l); auto. congruence. }
  clear Hf Hnd. induction l as [|r l IH]; [reflexivity|].
  cbn [List.map]. rewrite IH by (intros r' Hin; apply Hone; right; exact Hin).
  f_equal. destruct (Z.eq_dec (s_userPK r) upk) as [Heq|Hne].
  - rewrite replace_for_eq by exact Heq.
    rewrite (Hone r (or_introl eq_refl) Heq). exact Hrow.
  - rewrite replace_for_ne by exact Hne. reflexivity.
Qed.

Lemma keys_replace (upk : Z) (old row : SessionRow) (l : list SessionRow) (n : Z) :
  List.find (matches (ByUserPK upk)) l = Some old →
  sessionPK row = sessionPK old →
  s_userPK row = upk →
  existsb (fun r => String.eqb (sessionID r) (sessionID row)
                    && negb (s_userPK r =? upk)%Z) l = false →
  keys_ok l n → keys_ok (List.map (replace_for upk row) l) n.
Proof.
  intros Hf Hpk Hupk Hex (Hok & Hnd & Hlt).
  pose proof (replace_for_keys upk old row l Hf (proj1 Hok) Hpk) as Epk.
  split; [apply replace_for_table_ok; assumption|].
  split; [rewrite Epk; exact Hnd|].
  apply (Forall_keys l); assumption.
Qed.

Lemma keys_append (row : SessionRow) (l : list SessionRow) (n : Z) :
  sessionPK row = n →
  ¬ In (s_userPK row) (List.map s_userPK l) →
  existsb (fun r => String.eqb (sessionID r) (sessionID row)) l = false →
  keys_ok l n → keys_ok (l ++ [row]) (n + 1).
Proof.
  intros Hpk Hn Hex (Hok & Hnd & Hlt).
  split; [apply append_table_ok; assumption|]. split.
  - rewrite List.map_app. cbn [List.map]. apply NoDup_app.
    split; [exact Hnd|]. split; [|apply NoDup_singleton].
    intros k Hk Hk'. apply list_elem_of_In in Hk.
    apply list_elem_of_singleton in Hk'. subst k.
    apply in_map_iff in Hk as (r & Hr & Hin).
    rewrite List.Forall_forall in Hlt. specialize (Hlt r Hin). lia.
  - apply List.Forall_app. split.
    + apply List.Forall_forall. intros r Hin.
      rewrite List.Forall_forall in Hlt. specialize (Hlt r Hin). lia.
    + constructor; [lia|constructor].
Qed.

End Keys.

Section KeysKept.

Variable E : Externals.
Variable safeCompare : string → string → bool.
Variable updateUser : string → string → list User → list User.
Variable getUserSessions : Cache → string → list string.

Ltac keys_start H :=
  unfold table_inv in *; msimpl_in H; msimpl.

(** Case on every test that is left, for goals that say the table is what
    it was. *)
Ltac keys_cases H :=
  repeat (first
    [ exact H
    | match goal with
      | |- context [match ?x with _ => _ end] =>
          lazymatch x with
          | context [match _ with _ => _ end] => fail
          | _ => destruct x; msimpl
          end
      end ]).

Lemma login_keeps_keys (w : World) (r : Request) :
  table_inv w → table_inv (snd (serve (login E) r w)).
Proof.
  intros H. unfold login. keys_start H.
  find_user u Hu; msimpl; [|exact H].
  destruct (verifyPassword _ _ _); msimpl; [|exact H].
  destruct (isActive u); msimpl; [|exact H].
  destruct (getDeviceID _ _) as [dev ip]. msimpl.
  unfold SessionService.createOrUpdateSession, SessionService.upsert. msimpl.
  find_row old Hold; msimpl.
  - destruct (existsb _ _) eqn:Hex; msimpl; [exact H|].
    unfold signHS256JWT. msimpl.
    apply (keys_replace (userPK u) old); auto.
  - destruct (existsb _ _) eqn:Hex; msimpl; [exact H|].
    unfold signHS256JWT. msimpl.
    apply keys_append; auto.
    apply find_userPK_None. exact Hold.
Qed.

Lemma hasSession_keeps_keys (w : World) (r : Request) :
  table_inv w → table_inv (snd (serve (hasSession E) r w)).
Proof.
  intros H.
  unfold hasSession, verifySessionJwt, SessionService.getSession,
    SessionService.updateSession. keys_start H.
  destruct (authorization _) as [[[t|raw]|raw]|]; msimpl; try exact H.
  destruct (Alg_eqb _ _); msimpl; [|exact H].
  destruct (String.eqb (signature t) _); msimpl; [|exact H].
  destruct (Z.ltb _ _); msimpl; [exact H|].
  destruct (Z.leb _ _); msimpl; [exact H|].
  destruct (String.eqb (aud _) _); msimpl; [|exact H].
  destruct (String.eqb (iss _) _); msimpl; [|exact H].
  destruct (jti (payload t)) as [sid|]; msimpl; [|exact H].
  destruct (truthy sid); msimpl; [|exact H].
  destruct (_ !! sid) as [uid|]; cbn [truthyO]; msimpl; [|exact H].
  destruct (truthy uid); msimpl; [|exact H].
  find_row row Hrow; msimpl; [|exact H].
  cbn [default from_option id].
  find_user u Hu; msimpl; [|exact H].
  destruct (isActive u); msimpl; [|exact H].
  destruct (getDeviceID _ _) as [dev ip]. msimpl.
  rewrite Hrow. msimpl.
  apply (keys_refresh sid row _ _ _ Hrow H).
Qed.

Lemma logout_keeps_keys (w : World) (r : Request) :
  table_inv w → table_inv (snd (serve logout r w)).
Proof.
  intros H. unfold logout, SessionService.deleteSession. keys_start H.
  destruct (session _) as [a|]; msimpl; [|exact H].
  find_row row Hrow; msimpl; [|exact H].
  apply keys_filter. exact H.
Qed.

Lemma updatePassword_keeps_keys (w : World) (r : Request) (c n k : string) :
  table_inv w →
  table_inv (snd (serve (updatePassword E safeCompare updateUser c n k) r w)).
Proof.
  intros H. unfold updatePassword, SessionService.deleteSession, set_users.
  keys_start H.
  destruct (session _) as [a|]; msimpl; [|exact H].
  destruct (truthy _); msimpl; [|exact H].
  find_user u Hu; msimpl; [|exact H].
  destruct (verifyPassword _ _ _); msimpl; [|exact H].
  destruct (safeCompare _ _); msimpl; [|exact H].
  find_row row Hrow; msimpl; [|exact H].
  apply keys_filter. exact H.
Qed.

Lemma deleteMySession_keeps_keys (w : World) (r : Request) (id : string) :
  table_inv w →
  table_inv (snd (serve (SessionController.deleteMySession getUserSessions id) r w)).
Proof.
  intros H. unfold SessionController.deleteMySession, SessionService.deleteSession.
  keys_start H.
  destruct (session _) as [a|]; msimpl; [|exact H].
  destruct (truthy _); msimpl; [|exact H].
  destruct (existsb _ _); msimpl; [|exact H].
  find_row row Hrow; msimpl; [|exact H].
  apply keys_filter. exact H.
Qed.

Lemma deleteSession_keeps_keys (w : World) (r : Request) (id : string) :
  table_inv w →
  table_inv (snd (serve (SessionController.deleteSession id) r w)).
Proof.
  intros H. unfold SessionController.deleteSession, SessionService.deleteSession.
  keys_start H.
  find_row row Hrow; msimpl; [|exact H].
  apply keys_filter. exact H.
Qed.

Lemma verifyOTP_keeps_keys (w : World) (r : Request) :
  table_inv w → table_inv (snd (serve (verifyOTP E) r w)).
Proof.
  intros H. unfold verifyOTP, signEdDSAJWT. keys_start H. keys_cases H.
Qed.

Lemma getStatus_keeps_keys (w : World) (r : Request) :
  table_inv w → table_inv (snd (serve (getStatus E) r w)).
Proof.
  intros H. unfold getStatus, sendUserStatus, verifyEdDSAJWT. keys_start H.
  keys_cases H.
Qed.

(** X19 - The keys of the session table.  If the [Session] table has a
    unique primary key below the next value of its sequence and its two
    unique indexes hold, the same is true after any request served by
    [login], [hasSession], [logout], [updatePassword], [deleteMySession],
    [deleteSession], [verifyOTP] or [getStatus], whatever the outcome. *)
Theorem handlers_keep_the_session_keys (w : World) (r : Request) :
  table_inv w →
  table_inv (snd (serve (login E) r w))
  ∧ table_inv (snd (serve (hasSession E) r w))
  ∧ table_inv (snd (serve logout r w))
  ∧ (∀ c n k,
       table_inv (snd (serve (updatePassword E safeCompare updateUser c n k) r w)))
  ∧ (∀ id,
       table_inv (snd (serve (SessionController.deleteMySession getUserSessions id) r w)))
  ∧ (∀ id, table_inv (snd (serve (SessionController.deleteSession id) r w)))
  ∧ table_inv (snd (serve (verifyOTP E) r w))
  ∧ table_inv (snd (serve (getStatus E) r w)).
Proof.
  intros H.
  split; [apply login_keeps_keys; exact H|].
  split; [apply hasSession_keeps_keys; exact H|].
  split; [apply logout_keeps_keys; exact H|].
  split; [intros c n k; apply updatePassword_keeps_keys; exact H|].
  split; [intros id; apply deleteMySession_keeps_keys; exact H|].
  split; [intros id; apply deleteSession_keeps_keys; exact H|].
  split; [apply verifyOTP_keeps_keys; exact H|].
  apply getStatus_keeps_keys; exact H.
Qed.

End KeysKept.

(** ** The status route and the life of a session token *)

(** X20 - The status of a request without a session.  [getStatus] reads
    [req.session.userID] inside its [try]; on a request that no middleware
    gave a session the read raises, the [catch] block answers, and the
    answer is the one 200 that reports neither authentication nor MFA and
    no user, whatever the headers carry; the cache and the tables are not
    touched. *)
Theorem getStatus_without_session (E : Externals) (w : World) (r : Request) :
  session r = None →
  ∃ w',
    serve (getStatus E) r w = (Done tt, w')
    ∧ res w' = Some (status_response false false None)
    ∧ log w' = (log w ++ [EvSend (status_response false false None)])%list
    ∧ cache w' = cache w
    ∧ sessions w' = sessions w
    ∧ users w' = users w.
Proof.
  intros Hs. unfold getStatus, sendUserStatus. msimpl. mrw Hs.
  eexists. split; [reflexivity|]. msimpl. repeat split; reflexivity.
Qed.

(** X21 - The life of a session token.  A token issued by [signHS256JWT]
    at clock second [now] for [ttl] minutes is accepted by
    [verifySessionJwt] at every reading from [now] up to, and not
    including, [now + ttl * 60]; at a reading from [now] on that has
    reached [now + ttl * 60] it is refused as expired, with the 401 that
    asks to log in; at a reading before [now] it is refused as an invalid
    token.  The issuer's three readings of the
    clock are taken to fall in the second [now]. *)
Theorem session_token_lifetime (E : Externals) (w : World)
    (subjectID sessionID : string) (ttl now : Z) :
  seconds (clock w (reads w)) = now →
  seconds (clock w (S (reads w))) = now →
  seconds (clock w (S (S (reads w)))) = now →
  ∃ t w1,
    signHS256JWT E sessionID subjectID ttl w = (Done t, w1)
    ∧ ∀ (w2 : World) (r : Request),
        authorization r = Some (Bearer (Compact t)) →
        let s := seconds (clock w2 (reads w2)) in
        ((now ≤ s < now + ttl * 60)%Z →
         ∃ w3, serve (verifySessionJwt E) r w2 = (Done None, w3)
               ∧ auth (req w3) = Some (payload t))
        ∧ ((now ≤ s)%Z ∧ (now + ttl * 60 ≤ s)%Z →
           ∃ w3, serve (verifySessionJwt E) r w2
                 = (Done (Some (AppError "You are not logged in yet! Please log in first!" 401)), w3)
                 ∧ auth (req w3) = auth r)
        ∧ ((s < now)%Z →
           ∃ w3, serve (verifySessionJwt E) r w2
                 = (Done (Some (UnauthorizedError "invalid_token")), w3)
                 ∧ auth (req w3) = auth r).
Proof.
  intros H0 H1 H2. unfold signHS256JWT. msimpl.
  msimpl_in H0. msimpl_in H1. msimpl_in H2. rewrite H0, H1, H2.
  eexists _, _. split; [reflexivity|].
  intros w2 r Ha. unfold verifySessionJwt. msimpl. mrw Ha.
  cbn [alg payload signature nbf exp aud iss Alg_eqb negb].
  rewrite !String.eqb_refl. cbn [negb].
  split; [|split]; intros Hs; msimpl_in Hs.
  - rewrite (proj2 (Z.ltb_ge _ _)) by lia.
    rewrite (proj2 (Z.leb_gt _ _)) by lia.
    msimpl. eexists. split; reflexivity.
  - rewrite (proj2 (Z.ltb_ge _ _)) by lia.
    rewrite (proj2 (Z.leb_le _ _)) by lia.
    msimpl. eexists. split; reflexivity.
  - rewrite (proj2 (Z.ltb_lt _ _)) by lia.
    msimpl. eexists. split; reflexivity.
Qed.

(** ** From the step-up token to the status *)

Section SteppedUp.

Variable E : Externals.

(** The path of [getStatus] on which the three identifiers agree. *)
Lemma getStatus_match (w : World) (r : Request) (s : AuthInfo) (u : User)
    (t : JWT) (j : string) :
  session r = Some s →
  truthy (a_userID s) = true →
  List.find (fun x => String.eqb (userID x) (a_userID s)) (users w) = Some u →
  isActive u = true →
  otp_authorization r = Some (Compact t) →
  valid_stepup_token E (seconds (clock w (reads w))) t →
  jti (payload t) = Some j →
  truthy j = true →
  otpSess (cache w) !! j = Some (a_userID s) →
  sub (payload t) = Some (a_userID s) →
  ∃ w' evs,
    serve (getStatus E) r w = (Done tt, w')
    ∧ log w' = (log w ++ evs)%list
    ∧ send_calls evs = [status_response true true (Some u)]
    ∧ res w' = Some (status_response true true (Some u)).
Proof.
  intros Hs Hts Hu Hact Ho Hv Hj Htj Hc Hsub.
  unfold getStatus, sendUserStatus, extract_otp_token. msimpl.
  mrw Hs. rewrite Hts. msimpl. mrw Hu. rewrite Hact. msimpl. mrw Ho.
  erewrite verifyEdDSAJWT_valid; [|exact Hv]. msimpl.
  rewrite Hj. cbn [truthyO default from_option]. rewrite Htj. msimpl.
  cbn [default from_option id].
  mrw Hc. cbn [truthyO]. rewrite Hts. msimpl.
  rewrite Hsub. cbn [strict_neq]. rewrite String.eqb_refl. cbn [negb orb]. msimpl.
  eexists _, _. split; [reflexivity|]. msimpl. split; [log_eq|].
  lsimpl. auto.
Qed.

(** X22 - The step-up token is honoured.  After [verifyOTP] has accepted a
    code of subject [u], a status request of a session of [u] that presents
    the token just issued, at a reading of the clock within the token's
    life, is answered once, with [isAuthenticated] and [isMFA] both true.
    The public key is taken to verify what the private key signs, the
    identifier drawn for the token is not empty, and [u] is active. *)
Theorem stepup_token_is_honoured (w : World) (r r2 : Request) (u : User)
    (code : string) (s : AuthInfo) :
  presents E r w u code →
  reached_three (otpAttempts (cache w) !! userID u) = false →
  (userID u, code) ∉ blacklistedOTP (cache w) →
  validateDefaultTOTP E code (totpSecret u) = true →
  (∀ p, edVerify E (JWT_PUBLIC_KEY E) p (edSign E (JWT_PRIVATE_KEY E) p) = true) →
  truthy (entropy w (draws w)) = true →
  isActive u = true →
  let w1 := snd (serve (verifyOTP E) r w) in
  let t := stepup_token E w u (entropy w (draws w)) in
  session r2 = Some s →
  a_userID s = userID u →
  otp_authorization r2 = Some (Compact t) →
  (nbf (payload t) ≤ seconds (clock w1 (reads w1)))%Z →
  (seconds (clock w1 (reads w1)) < exp (payload t))%Z →
  res w1 = Some (stepup_response t)
  ∧ ∃ w2 evs,
      serve (getStatus E) r2 w1 = (Done tt, w2)
      ∧ log w2 = (log w1 ++ evs)%list
      ∧ send_calls evs = [status_response true true (Some u)]
      ∧ res w2 = Some (status_response true true (Some u)).
Proof.
  intros H H3 Hb Hv Hkeys Htj Hact w1 t Hs Hid Ho Hnbf Hexp.
  destruct (verifyOTP_success_step E w r u code H H3 Hb Hv)
    as (w' & Hrun & _ & Hres & Husers & _ & Hsess & _).
  cbv zeta in Hrun, Hres, Hsess.
  assert (Hw1 : w1 = w') by (subst w1; rewrite Hrun; reflexivity).
  clearbody w1. subst w1.
  split; [exact Hres|].
  destruct H as (a & _ & _ & Htu & _ & Hu).
  apply (getStatus_match w' r2 s u t (entropy w (draws w))).
  - exact Hs.
  - rewrite Hid. exact Htu.
  - rewrite Husers, Hid. exact Hu.
  - exact Hact.
  - exact Ho.
  - unfold valid_stepup_token. subst t.
    cbn [stepup_token alg payload signature iss aud].
    rewrite Hkeys. auto 10.
  - reflexivity.
  - exact Htj.
  - rewrite Hsess, Hid. apply lookup_insert_eq.
  - rewrite Hid. reflexivity.
Qed.

End SteppedUp.

Lemma stepup_honoured_witness :
  ∃ w2 evs,
    serve (getStatus Demo.E) Scenario.alice_with_own_token
      (snd (serve (verifyOTP Demo.E) Demo.right_code Demo.w0)) = (Done tt, w2)
    ∧ log w2 = (log (snd (serve (verifyOTP Demo.E) Demo.right_code Demo.w0)) ++ evs)%list
    ∧ send_calls evs = [status_response true true (Some Demo.alice)]
    ∧ res w2 = Some (status_response true true (Some Demo.alice)).
Proof.
  apply (stepup_token_is_honoured Demo.E Demo.w0 Demo.right_code
           Scenario.alice_with_own_token Demo.alice "123456" Demo.alice_session);
    try reflexivity.
  - apply (demo_presents "123456"); reflexivity.
  - apply (bool_decide_eq_false_1 _). vm_compute. reflexivity.
  - intros p. apply String.eqb_refl.
Defined.

(** * The further properties on the concrete instance *)

Lemma stepup_roundtrip_witness :
  ∃ t w1 w2,
    signEdDSAJWT Demo.E "j1" "alice" 15 Demo.w0 = (Done t, w1)
    ∧ alg t = EdDSA
    ∧ sub (payload t) = Some "alice"
    ∧ jti (payload t) = Some "j1"
    ∧ exp (payload t) = 1900%Z
    ∧ verifyEdDSAJWT Demo.E (Compact t) w1 = (Done t, w2).
Proof.
  destruct (stepup_token_roundtrip Demo.E Demo.w0 "alice" "j1" 15)
    as (t & w1 & w2 & Hsign & Halg & Hsub & Hjti & Hexp & Hverify).
  - intros p. apply String.eqb_refl.
  - vm_compute. discriminate.
  - exists t, w1, w2. rewrite Hexp in Hverify. auto 10.
Defined.

Lemma logout_witness :
  ∃ w1 resp,
    serve (route (hasSession Demo.E) logout) (Demo.bearer Demo.alice_token)
      Demo.w_alice_live = (Done tt, w1)
    ∧ res w1 = Some resp
    ∧ statusCode resp = 200%Z
    ∧ message resp = "Logged out successfully!"
    ∧ List.find (matches (BySessionID "s-alice")) (sessions w1) = None
    ∧ sess (cache w1) !! "s-alice" = None
    ∧ ∀ r2, authorization r2 = Some (Bearer (Compact Demo.alice_token)) →
            ∃ evs, log (snd (serve (hasSession Demo.E) r2 w1)) = (log w1 ++ evs)%list
                   ∧ ¬ In (EvNext None) evs.
Proof.
  apply (logout_revokes_session Demo.E Demo.w_alice_live
           (Demo.bearer Demo.alice_token) Demo.alice_token "s-alice" "alice"
           Demo.alice_row Demo.alice); try reflexivity.
  - vm_compute. repeat split; congruence.
  - apply NoDup_singleton.
Defined.

Lemma deleteMySession_witness :
  ∃ w',
    serve (SessionController.deleteMySession Scenario.two_sessions "s-old")
      Demo.alice_with_bobs_token Demo.w_alice_live = (Done tt, w')
    ∧ res w' = Some no_content
    ∧ List.find (matches (BySessionPK 1)) (sessions w') = None
    ∧ sess (cache w') = delete "s-alice" (sess (cache Demo.w_alice_live))
    ∧ (∀ r0, In r0 (sessions Demo.w_alice_live) → sessionPK r0 ≠ 1%Z →
             In r0 (sessions w'))
    ∧ ("s-alice" ≠ "s-old" →
       sess (cache w') !! "s-old" = sess (cache Demo.w_alice_live) !! "s-old").
Proof.
  apply (proj1 (deleteMySession_deletes_the_callers_session
                  Scenario.two_sessions Demo.w_alice_live
                  Demo.alice_with_bobs_token "s-old" Demo.alice_session
                  Demo.alice_row eq_refl eq_refl eq_refl)).
  left. reflexivity.
Defined.

Lemma updatePassword_witness :
  ∃ resp,
    fst (serve (updatePassword Demo.E String.eqb Scenario.keep_users
                  "pw-alice" "new-pass1" "new-pass1")
           Demo.alice_with_bobs_token Demo.w_alice_live) = Done tt
    ∧ res (snd (serve (updatePassword Demo.E String.eqb Scenario.keep_users
                         "pw-alice" "new-pass1" "new-pass1")
                  Demo.alice_with_bobs_token Demo.w_alice_live)) = Some resp
    ∧ statusCode resp = 200%Z
    ∧ List.find (matches (ByUserPK 1))
        (sessions (snd (serve (updatePassword Demo.E String.eqb Scenario.keep_users
                                 "pw-alice" "new-pass1" "new-pass1")
                          Demo.alice_with_bobs_token Demo.w_alice_live))) = None.
Proof.
  pose proof (proj1 (updatePassword_ends_the_session Demo.E String.eqb
                       Scenario.keep_users Demo.w_alice_live Demo.alice_with_bobs_token
                       Demo.alice_session Demo.alice "pw-alice" "new-pass1" "new-pass1"
                       eq_refl eq_refl eq_refl) eq_refl eq_refl) as H.
  cbn [List.find Demo.w_alice_live sessions set_sessions matches Demo.alice_row
       s_userPK userPK Demo.alice Z.eqb Pos.eqb] in H.
  destruct H as (resp & H1 & H2 & H3 & _ & H5 & _).
  exists resp. auto.
Defined.

Lemma login_gate_witness :
  ∃ w2 evs a,
    serve (hasSession Demo.E) (Demo.bearer (Demo.login_token "id1"))
      (snd (serve (login Demo.E) Demo.login_alice Demo.w0)) = (Done tt, w2)
    ∧ log w2 = (log (snd (serve (login Demo.E) Demo.login_alice Demo.w0)) ++ evs)%list
    ∧ next_calls evs = [None]
    ∧ session (req w2) = Some a
    ∧ a_userID a = "alice"
    ∧ a_userPK a = 1%Z
    ∧ a_sessionID a = "id1".
Proof.
  apply (login_token_opens_session Demo.E Demo.w0 Demo.login_alice
           (Demo.bearer (Demo.login_token "id1")) (Demo.login_response "id1")
           Demo.alice (Demo.login_token "id1") "id1"); try reflexivity.
  - split; constructor.
  - apply (bool_decide_unpack _). vm_compute. exact I.
Defined.

Lemma session_keys_witness :
  table_inv (snd (serve (login Demo.E) Demo.login_alice Demo.w0)).
Proof.
  apply (handlers_keep_the_session_keys Demo.E String.eqb Scenario.keep_users
           Scenario.two_sessions Demo.w0 Demo.login_alice).
  repeat split; constructor.
Defined.

Lemma status_without_session_witness :
  ∃ w',
    serve (getStatus Demo.E) (Demo.bearer Demo.alice_token) Demo.w_alice_live
      = (Done tt, w')
    ∧ res w' = Some (status_response false false None)
    ∧ log w' = (log Demo.w_alice_live ++ [EvSend (status_response false false None)])%list
    ∧ cache w' = cache Demo.w_alice_live
    ∧ sessions w' = sessions Demo.w_alice_live
    ∧ users w' = users Demo.w_alice_live.
Proof.
  apply (getStatus_without_session Demo.E Demo.w_alice_live
           (Demo.bearer Demo.alice_token)).
  reflexivity.
Defined.

Lemma session_token_lifetime_witness :
  ∃ t w1,
    signHS256JWT Demo.E "s1" "alice" 1440 Demo.w0 = (Done t, w1)
    ∧ ∀ (w2 : World) (r : Request),
        authorization r = Some (Bearer (Compact t)) →
        ((1000 ≤ seconds (clock w2 (reads w2)) < 1000 + 1440 * 60)%Z →
         ∃ w3, serve (verifySessionJwt Demo.E) r w2 = (Done None, w3)
               ∧ auth (req w3) = Some (payload t))
        ∧ ((1000 ≤ seconds (clock w2 (reads w2)))%Z
           ∧ (1000 + 1440 * 60 ≤ seconds (clock w2 (reads w2)))%Z →
           ∃ w3, serve (verifySessionJwt Demo.E) r w2
                 = (Done (Some (AppError "You are not logged in yet! Please log in first!" 401)), w3)
                 ∧ auth (req w3) = auth r)
        ∧ ((seconds (clock w2 (reads w2)) < 1000)%Z →
           ∃ w3, serve (verifySessionJwt Demo.E) r w2
                 = (Done (Some (UnauthorizedError "invalid_token")), w3)
                 ∧ auth (req w3) = auth r).
Proof.
  apply (session_token_lifetime Demo.E Demo.w0 "alice" "s1" 1440 1000); reflexivity.
Defined.

(** * The account handlers *)

(** Symbolic execution of the account handlers: unfold the handlers and
    the writers, leave the maps, sets and strings folded. *)
Ltac asimpl :=
  cbv beta iota zeta delta
    [Account.forgotPassword Account.resetPassword Account.verifyEmail Account.sendOTP
     Account.tell Account.next Account.sendResponse Account.mail
     Account.getUserBy Account.getUserByForgotPasswordCode Account.updateUser
     Account.getForgotPasswordAttempts Account.setForgotPasswordAttempts
     Account.getHasAskedOTP Account.setHasAskedOTP Account.deleteUserSessions
     Account.randomBytes
     Account.set_rows Account.set_forgotPasswordAttempts Account.set_hasAskedOTP
     Account.set_sessionOwner Account.set_draws
     Account.rows Account.forgotPasswordAttempts Account.hasAskedOTP
     Account.sessionOwner Account.entropy Account.draws Account.calls];
  cbn [negb orb andb].

Ltac asimpl_in H :=
  cbv beta iota zeta delta
    [Account.forgotPassword Account.resetPassword Account.verifyEmail Account.sendOTP
     Account.tell Account.next Account.sendResponse Account.mail
     Account.getUserBy Account.getUserByForgotPasswordCode Account.updateUser
     Account.getForgotPasswordAttempts Account.setForgotPasswordAttempts
     Account.getHasAskedOTP Account.setHasAskedOTP Account.deleteUserSessions
     Account.randomBytes
     Account.set_rows Account.set_forgotPasswordAttempts Account.set_hasAskedOTP
     Account.set_sessionOwner Account.set_draws
     Account.rows Account.forgotPasswordAttempts Account.hasAskedOTP
     Account.sessionOwner Account.entropy Account.draws Account.calls] in H;
  cbn [negb orb andb] in H.

Ltac arw H := asimpl_in H; rewrite H; asimpl.

Section AccountRows.

Lemma find_map_same {A} (p : A → bool) (g : A → A) (l : list A) :
  (∀ r, p (g r) = p r) →
  List.find p (List.map g l) = option_map g (List.find p l).
Proof.
  intros Hp. induction l as [|r l IH]; [reflexivity|].
  cbn [List.map List.find]. rewrite Hp. destruct (p r); [reflexivity|exact IH].
Qed.

(** A point write by [userID] and the row a lookup finds afterwards. *)
Lemma find_updated (p : Account.UserRow → bool) (g : Account.UserRow → Account.UserRow)
    (l : list Account.UserRow) (u : Account.UserRow) :
  Account.rows_ok l →
  List.find p l = Some u →
  p (g u) = true →
  List.find p (List.map (fun r => if String.eqb (userID (Account.user r))
                                       (userID (Account.user u))
                                  then g r else r) l) = Some (g u).
Proof.
  unfold Account.rows_ok. induction l as [|r l IH]; cbn [List.map List.find]; [discriminate|].
  intros Hnd Hf Hg. apply NoDup_cons in Hnd as [Hr Hnd].
  destruct (p r) eqn:Hpr.
  - injection Hf as ->. rewrite String.eqb_refl, Hg. reflexivity.
  - destruct (String.eqb_spec (userID (Account.user r)) (userID (Account.user u)))
      as [Heq|Hne].
    + exfalso. apply Hr. apply list_elem_of_In. rewrite Heq.
      apply List.find_some in Hf as [Hin _].
      apply (in_map (fun r => userID (Account.user r))). exact Hin.
    + rewrite Hpr. apply IH; assumption.
Qed.

End AccountRows.

Section ForgotPassword.

Variable toLowerCase : string → string.
Variable NODE_ENV : string.

(** X23 - The pairing of e-mail and username.  [forgotPassword] looks one
    user up by the e-mail and one by the username, and compares each with
    the key it was found by; it never compares the two users.  For a
    request whose e-mail and username are in lower case, whatever two
    accounts the lookups find, the account found by the e-mail, if it is
    active and has not asked twice, gets a new reset code and the mail with
    the link, and the answer is 202. *)
Theorem forgotPassword_pairs_any_two_accounts (s : Account.State)
    (e n protocol hostname : string) (a b : Account.UserRow) :
  toLowerCase e = e →
  toLowerCase n = n →
  Account.getUserBy email e s = Some a →
  Account.getUserBy username n s = Some b →
  Account.reached_two (Account.getForgotPasswordAttempts (userID (Account.user a)) s)
    = false →
  isActive (Account.user a) = true →
  let token := Account.entropy s (Account.draws s) in
  let s' := Account.forgotPassword toLowerCase NODE_ENV e n protocol hostname s in
  Account.calls s'
    = (Account.calls s
       ++ [Account.Mailed (Account.ForgotPasswordMail e (fullName (Account.user a))
                             (Account.reset_url NODE_ENV protocol hostname token));
           Account.Sent (Account.reply 202
                           "Reset password request has been sent to the email!"
                           Account.NoData)])%list
  ∧ Account.rows s'
    = List.map (fun r => if String.eqb (userID (Account.user r)) (userID (Account.user a))
                         then Account.with_forgotPasswordCode (Some token) r else r)
        (Account.rows s)
  ∧ Account.forgotPasswordAttempts s' !! userID (Account.user a)
    = Some (S (default 0 (Account.forgotPasswordAttempts s !! userID (Account.user a))))
  ∧ Account.draws s' = S (Account.draws s)
  ∧ Account.entropy s' = Account.entropy s.
Proof.
  intros He Hn Ha Hb H2 Hact token s'. subst token s'.
  assert (Hea : email (Account.user a) = e).
  { apply List.find_some in Ha as [_ H]. apply String.eqb_eq. exact H. }
  assert (Hnb : username (Account.user b) = n).
  { apply List.find_some in Hb as [_ H]. apply String.eqb_eq. exact H. }
  asimpl. arw Ha. arw Hb.
  rewrite Hea, Hnb, He, Hn, !String.eqb_refl. cbn [negb orb].
  asimpl_in H2. rewrite H2, Hact. cbn [negb]. asimpl.
  rewrite <- app_assoc. cbn [app].
  split; [reflexivity|]. split; [reflexivity|].
  split; [apply lookup_insert_eq|]. split; reflexivity.
Qed.

Lemma mails_app (l1 l2 : list Account.Call) :
  Account.mails (l1 ++ l2) = (Account.mails l1 ++ Account.mails l2)%list.
Proof. unfold Account.mails. apply List.filter_app. Qed.

(** An accepted request: the account stays ready, its counter goes up by
    one and one mail goes out. *)
Lemma forgotPassword_accepted (s : Account.State) (e n uid protocol hostname : string) :
  toLowerCase e = e →
  toLowerCase n = n →
  Account.ready s e n uid →
  Account.reached_two (Account.getForgotPasswordAttempts uid s) = false →
  let s1 := Account.forgotPassword toLowerCase NODE_ENV e n protocol hostname s in
  Account.ready s1 e n uid
  ∧ Account.getForgotPasswordAttempts uid s1
    = Some (S (default 0 (Account.getForgotPasswordAttempts uid s)))
  ∧ length (Account.mails (Account.calls s1))
    = S (length (Account.mails (Account.calls s))).
Proof.
  intros He Hn (a & b & Ha & Hb & Hid & Hact) H2 s1. subst s1 uid.
  assert (Hea : email (Account.user a) = e).
  { apply List.find_some in Ha as [_ H]. apply String.eqb_eq. exact H. }
  assert (Hnb : username (Account.user b) = n).
  { apply List.find_some in Hb as [_ H]. apply String.eqb_eq. exact H. }
  unfold Account.ready.
  asimpl. arw Ha. arw Hb.
  rewrite Hea, Hnb, He, Hn, !String.eqb_refl. cbn [negb orb].
  asimpl_in H2. rewrite H2, Hact. cbn [negb]. asimpl.
  split; [|split].
  - rewrite !find_map_same
      by (intros r; destruct (String.eqb (userID (Account.user r)) _); reflexivity).
    asimpl_in Ha. asimpl_in Hb. rewrite Ha, Hb. cbn [option_map].
    eexists _, _. split; [reflexivity|]. split; [reflexivity|].
    rewrite String.eqb_refl. cbn [Account.with_forgotPasswordCode Account.user].
    auto.
  - apply lookup_insert_eq.
  - rewrite !mails_app, !length_app. cbn. lia.
Qed.

(** A request of an account that has asked twice: nothing changes but the
    log, which gets the 429. *)
Lemma forgotPassword_refused (s : Account.State) (e n uid protocol hostname : string) :
  toLowerCase e = e →
  toLowerCase n = n →
  Account.ready s e n uid →
  Account.getForgotPasswordAttempts uid s = Some 2 →
  let s1 := Account.forgotPassword toLowerCase NODE_ENV e n protocol hostname s in
  Account.ready s1 e n uid
  ∧ Account.getForgotPasswordAttempts uid s1 = Some 2
  ∧ Account.rows s1 = Account.rows s
  ∧ Account.mails (Account.calls s1) = Account.mails (Account.calls s)
  ∧ Account.calls s1
    = (Account.calls s
       ++ [Account.refusal "You have recently asked for a password reset twice. Please wait for two hours before retrying." 429])%list.
Proof.
  intros He Hn Hready H2 s1. subst s1.
  pose proof Hready as (a & b & Ha & Hb & Hid & Hact). subst uid.
  assert (Hea : email (Account.user a) = e).
  { apply List.find_some in Ha as [_ H]. apply String.eqb_eq. exact H. }
  assert (Hnb : username (Account.user b) = n).
  { apply List.find_some in Hb as [_ H]. apply String.eqb_eq. exact H. }
  unfold Account.ready in *.
  asimpl. arw Ha. arw Hb.
  rewrite Hea, Hnb, He, Hn, !String.eqb_refl. cbn [negb orb].
  asimpl_in H2. rewrite H2. cbn [Account.reached_two Nat.eqb]. asimpl.
  split; [exists a, b; auto|].
  split; [exact H2|]. split; [reflexivity|].
  split; [|reflexivity].
  rewrite mails_app. cbn. apply app_nil_r.
Qed.

Lemma forgotPassword_refused_forever (k : nat) (s : Account.State)
    (e n uid protocol hostname : string) :
  toLowerCase e = e →
  toLowerCase n = n →
  Account.ready s e n uid →
  Account.getForgotPasswordAttempts uid s = Some 2 →
  let s' := Account.repeat_handler
              (Account.forgotPassword toLowerCase NODE_ENV e n protocol hostname) k s in
  Account.rows s' = Account.rows s
  ∧ Account.mails (Account.calls s') = Account.mails (Account.calls s).
Proof.
  intros He Hn. revert s. induction k as [|k IH]; intros s Hready H2; cbn zeta.
  - split; reflexivity.
  - cbn [Account.repeat_handler].
    destruct (forgotPassword_refused s e n uid protocol hostname He Hn Hready H2)
      as (Hready1 & H21 & Hrows & Hmails & _).
    destruct (IH _ Hready1 H21) as [Hr Hm].
    split; [rewrite Hr; exact Hrows|rewrite Hm; exact Hmails].
Qed.

(** X24 - Two reset mails, then none.  For an active account that has not
    asked yet, of any number [k] of consecutive [forgotPassword] requests
    with the same lower-case e-mail and username, only the first two send a
    mail: after the [k] requests the log holds [min k 2] more mails than
    before. *)
Theorem forgotPassword_stops_after_two (k : nat) (s : Account.State)
    (e n uid protocol hostname : string) :
  toLowerCase e = e →
  toLowerCase n = n →
  Account.ready s e n uid →
  Account.getForgotPasswordAttempts uid s = None →
  let s' := Account.repeat_handler
              (Account.forgotPassword toLowerCase NODE_ENV e n protocol hostname) k s in
  length (Account.mails (Account.calls s'))
    = length (Account.mails (Account.calls s)) + Nat.min k 2.
Proof.
  intros He Hn Hready H0. cbn zeta.
  destruct k as [|k]; [cbn [Account.repeat_handler Nat.min]; lia|].
  cbn [Account.repeat_handler].
  destruct (forgotPassword_accepted s e n uid protocol hostname He Hn Hready)
    as (Hready1 & H1 & Hm1); [rewrite H0; reflexivity|].
  rewrite H0 in H1. cbn [default from_option id] in H1.
  destruct k as [|k]; [cbn [Account.repeat_handler Nat.min]; rewrite Hm1; lia|].
  cbn [Account.repeat_handler].
  destruct (forgotPassword_accepted _ e n uid protocol hostname He Hn Hready1)
    as (Hready2 & H2 & Hm2); [rewrite H1; reflexivity|].
  rewrite H1 in H2. cbn [default from_option id] in H2.
  destruct (forgotPassword_refused_forever k _ e n uid protocol hostname He Hn Hready2 H2)
    as [_ Hm].
  rewrite Hm, Hm2, Hm1. cbn [Nat.min]. lia.
Qed.

End ForgotPassword.

Section ResetPassword.

Variable safeCompare : string → string → bool.
Variable storedPassword : string → string.

(** No row holds [token] as its reset code. *)
Lemma no_code_no_user (token : string) (l : list Account.UserRow) :
  (∀ r, In r l → Account.forgotPasswordCode r ≠ Some token) →
  List.find (fun r => match Account.forgotPasswordCode r with
                      | Some c => String.eqb c token
                      | None => false
                      end) l = None.
Proof.
  intros H. induction l as [|r l IH]; [reflexivity|]. cbn [List.find].
  destruct (Account.forgotPasswordCode r) as [c|] eqn:Hc.
  - destruct (String.eqb_spec c token) as [->|Hne].
    + exfalso. apply (H r); [left; reflexivity|exact Hc].
    + apply IH. intros r' Hin. apply H. right. exact Hin.
  - apply IH. intros r' Hin. apply H. right. exact Hin.
Qed.

(** A token that no account holds: 400 when the passwords differ, 404
    otherwise, and nothing changes. *)
Lemma resetPassword_unknown_token (s : Account.State) (token p p' : string) :
  Account.getUserByForgotPasswordCode token s = None →
  let s1 := Account.resetPassword safeCompare storedPassword token p p' s in
  Account.rows s1 = Account.rows s
  ∧ Account.sessionOwner s1 = Account.sessionOwner s
  ∧ Account.calls s1
    = (Account.calls s
       ++ [if safeCompare p p'
           then Account.refusal "There is no user associated with the token." 404
           else Account.refusal "Your passwords do not match!" 400])%list.
Proof.
  intros Hf s1. subst s1. asimpl. destruct (safeCompare p p'); asimpl.
  - arw Hf. auto.
  - auto.
Qed.

(** X25 - A reset link works once.  When the two passwords compare equal
    and the token is the reset code of an active account, and of no other
    account, [resetPassword] stores the new password for that account,
    clears its reset code, removes its sessions from the store, mails the
    notice and answers 200.  Afterwards the token is the code of no
    account: a second request with it is refused, with 404 or, if its
    passwords differ, 400, and changes nothing. *)
Theorem resetPassword_link_works_once (s : Account.State) (token p p' : string)
    (a : Account.UserRow) :
  safeCompare p p' = true →
  Account.getUserByForgotPasswordCode token s = Some a →
  isActive (Account.user a) = true →
  (∀ r, In r (Account.rows s) → Account.forgotPasswordCode r = Some token →
        userID (Account.user r) = userID (Account.user a)) →
  let s1 := Account.resetPassword safeCompare storedPassword token p p' s in
  Account.calls s1
    = (Account.calls s
       ++ [Account.Mailed (Account.ResetPasswordMail (email (Account.user a))
                             (fullName (Account.user a)));
           Account.Sent (Account.reply 200
                           "Password has been successfully reset. Please try logging in again!"
                           Account.NoData)])%list
  ∧ (∀ r, In r (Account.rows s1) →
          userID (Account.user r) = userID (Account.user a) →
          password (Account.user r) = storedPassword p
          ∧ Account.forgotPasswordCode r = None)
  ∧ (∀ k, Account.sessionOwner s1 !! k ≠ Some (userID (Account.user a)))
  ∧ Account.getUserByForgotPasswordCode token s1 = None
  ∧ ∀ q q',
      let s2 := Account.resetPassword safeCompare storedPassword token q q' s1 in
      Account.rows s2 = Account.rows s1
      ∧ Account.sessionOwner s2 = Account.sessionOwner s1
      ∧ Account.calls s2
        = (Account.calls s1
           ++ [if safeCompare q q'
               then Account.refusal "There is no user associated with the token." 404
               else Account.refusal "Your passwords do not match!" 400])%list.
Proof.
  intros Hc Ha Hact Huniq s1.
  assert (Hgone : Account.getUserByForgotPasswordCode token s1 = None).
  { subst s1. asimpl. rewrite Hc. asimpl. arw Ha. rewrite Hact. asimpl.
    apply no_code_no_user. intros r' Hin Hcode.
    apply in_map_iff in Hin as (r & <- & Hin).
    destruct (String.eqb_spec (userID (Account.user r)) (userID (Account.user a)))
      as [Heq|Hne]; [discriminate|].
    apply Hne. apply Huniq; assumption. }
  split; [|split; [|split; [|split]]].
  - subst s1. asimpl. rewrite Hc. asimpl. arw Ha. rewrite Hact. asimpl.
    rewrite <- app_assoc. reflexivity.
  - subst s1. asimpl. rewrite Hc. asimpl. arw Ha. rewrite Hact. asimpl.
    intros r' Hin Hid. apply in_map_iff in Hin as (r & <- & Hin).
    destruct (String.eqb_spec (userID (Account.user r)) (userID (Account.user a)))
      as [Heq|Hne].
    + split; reflexivity.
    + contradiction.
  - subst s1. asimpl. rewrite Hc. asimpl. arw Ha. rewrite Hact. asimpl.
    intros k Hk. apply map_lookup_filter_Some in Hk as [_ Hne].
    apply Hne. reflexivity.
  - exact Hgone.
  - intros q q'. apply resetPassword_unknown_token. exact Hgone.
Qed.

End ResetPassword.

Section Supersede2.

Variable toLowerCase : string → string.
Variable safeCompare : string → string → bool.
Variable storedPassword : string → string.
Variable NODE_ENV : string.

(** One accepted request more: the rows of the account hold the code just
    drawn, every other row is as before. *)
Lemma forgotPassword_accepted_rows (s : Account.State)
    (e n uid protocol hostname : string) :
  toLowerCase e = e →
  toLowerCase n = n →
  Account.ready s e n uid →
  Account.reached_two (Account.getForgotPasswordAttempts uid s) = false →
  let s1 := Account.forgotPassword toLowerCase NODE_ENV e n protocol hostname s in
  Account.rows s1
  = List.map (fun r => if String.eqb (userID (Account.user r)) uid
                       then Account.with_forgotPasswordCode
                              (Some (Account.entropy s (Account.draws s))) r
                       else r) (Account.rows s)
  ∧ Account.draws s1 = S (Account.draws s)
  ∧ Account.entropy s1 = Account.entropy s.
Proof.
  intros He Hn (a & b & Ha & Hb & Hid & Hact) H2 s1. subst s1 uid.
  assert (Hea : email (Account.user a) = e).
  { apply List.find_some in Ha as [_ H]. apply String.eqb_eq. exact H. }
  assert (Hnb : username (Account.user b) = n).
  { apply List.find_some in Hb as [_ H]. apply String.eqb_eq. exact H. }
  asimpl. arw Ha. arw Hb.
  rewrite Hea, Hnb, He, Hn, !String.eqb_refl. cbn [negb orb].
  asimpl_in H2. rewrite H2, Hact. cbn [negb]. asimpl.
  repeat split; reflexivity.
Qed.

(** X26 - A second request supersedes the first link.  After two accepted
    [forgotPassword] requests of an account that had not asked before, with
    two different codes drawn, the first code is the reset code of no
    account, provided no account held it before: [resetPassword] with the
    first link is refused with the 404 and changes nothing, while the rows
    of the account hold the second code. *)
Theorem forgotPassword_supersedes_earlier_link (s : Account.State)
    (e n uid protocol hostname p p' : string) :
  toLowerCase e = e →
  toLowerCase n = n →
  Account.ready s e n uid →
  Account.getForgotPasswordAttempts uid s = None →
  let token1 := Account.entropy s (Account.draws s) in
  let token2 := Account.entropy s (S (Account.draws s)) in
  token1 ≠ token2 →
  (∀ r, In r (Account.rows s) → Account.forgotPasswordCode r ≠ Some token1) →
  safeCompare p p' = true →
  let s2 := Account.repeat_handler
              (Account.forgotPassword toLowerCase NODE_ENV e n protocol hostname) 2 s in
  let s3 := Account.resetPassword safeCompare storedPassword token1 p p' s2 in
  Account.getUserByForgotPasswordCode token1 s2 = None
  ∧ (∀ r, In r (Account.rows s2) → userID (Account.user r) = uid →
          Account.forgotPasswordCode r = Some token2)
  ∧ Account.rows s3 = Account.rows s2
  ∧ Account.calls s3
    = (Account.calls s2
       ++ [Account.refusal "There is no user associated with the token." 404])%list.
Proof.
  intros He Hn Hready H0 token1 token2 Hne Hfresh Hc s2 s3.
  cbn [Account.repeat_handler] in s2.
  destruct (forgotPassword_accepted toLowerCase NODE_ENV s e n uid protocol hostname
              He Hn Hready) as (Hready1 & H1 & _); [rewrite H0; reflexivity|].
  rewrite H0 in H1. cbn [default from_option id] in H1.
  destruct (forgotPassword_accepted_rows s e n uid protocol hostname He Hn Hready)
    as (Hrows1 & Hdraws1 & Hent1); [rewrite H0; reflexivity|].
  destruct (forgotPassword_accepted_rows _ e n uid protocol hostname He Hn Hready1)
    as (Hrows2 & _); [rewrite H1; reflexivity|].
  fold s2 in Hrows2. rewrite Hrows1, Hdraws1, Hent1 in Hrows2.
  fold token1 token2 in Hrows2.
  assert (Hcodes : ∀ r, In r (Account.rows s2) →
            (userID (Account.user r) = uid ∧ Account.forgotPasswordCode r = Some token2)
            ∨ (userID (Account.user r) ≠ uid
               ∧ Account.forgotPasswordCode r ≠ Some token1)).
  { intros r2 Hin. rewrite Hrows2 in Hin.
    apply in_map_iff in Hin as (r1 & <- & Hin).
    apply in_map_iff in Hin as (r & <- & Hin).
    destruct (String.eqb_spec (userID (Account.user r)) uid) as [Heq|Hneq].
    - cbn [Account.with_forgotPasswordCode Account.user].
      rewrite (proj2 (String.eqb_eq _ _) Heq). left. split; [exact Heq|reflexivity].
    - rewrite (proj2 (String.eqb_neq _ _) Hneq). right. split; [exact Hneq|].
      apply Hfresh. exact Hin. }
  assert (Hgone : Account.getUserByForgotPasswordCode token1 s2 = None).
  { apply no_code_no_user. intros r Hin.
    destruct (Hcodes r Hin) as [[_ H2]|[_ H2]]; [|exact H2].
    rewrite H2. intros Heq. injection Heq as Heq. apply Hne. symmetry. exact Heq. }
  split; [exact Hgone|]. split.
  - intros r Hin Hid. destruct (Hcodes r Hin) as [[_ H2]|[H2 _]]; [exact H2|contradiction].
  - destruct (resetPassword_unknown_token safeCompare storedPassword s2 token1 p p' Hgone)
      as (Hr & _ & Hcalls).
    rewrite Hc in Hcalls. split; assumption.
Qed.

End Supersede2.

Section VerifyEmail.

(** After the write of a verification, the row a lookup by the e-mail
    finds has no confirmation code. *)
Lemma find_email_after_verification (mail_ : string) (l : list Account.UserRow)
    (u : Account.UserRow) :
  List.find (fun r => String.eqb (email (Account.user r)) mail_) l = Some u →
  ∃ r', List.find (fun r => String.eqb (email (Account.user r)) mail_)
          (List.map (fun r => if String.eqb (userID (Account.user r))
                                   (userID (Account.user u))
                              then Account.verified_row mail_ r else r) l) = Some r'
        ∧ Account.confirmationCode r' = None.
Proof.
  induction l as [|r l IH]; cbn [List.map List.find]; [discriminate|].
  destruct (String.eqb (email (Account.user r)) mail_) eqn:He.
  - intros Hf. injection Hf as ->. rewrite String.eqb_refl.
    exists (Account.verified_row mail_ u).
    cbn [Account.verified_row Account.user Account.verified email].
    rewrite String.eqb_refl. split; reflexivity.
  - intros Hf.
    destruct (String.eqb (userID (Account.user r)) (userID (Account.user u))).
    + exists (Account.verified_row mail_ r).
      cbn [Account.verified_row Account.user Account.verified email].
      rewrite String.eqb_refl. split; reflexivity.
    + rewrite He. apply IH. exact Hf.
Qed.

(** An account without a confirmation code cannot be verified. *)
Lemma verifyEmail_without_code (s : Account.State) (code mail_ : string) :
  (∃ r, Account.getUserBy email mail_ s = Some r ∧ Account.confirmationCode r = None) →
  Account.calls (Account.verifyEmail code mail_ s)
    = (Account.calls s ++ [Account.refusal "Invalid email verification code!" 400])%list
  ∧ Account.rows (Account.verifyEmail code mail_ s) = Account.rows s.
Proof.
  intros (r & Hr & Hnone). asimpl. arw Hr. rewrite Hnone. cbn [truthyO negb]. asimpl.
  auto.
Qed.

(** X27 - The outcomes of [verifyEmail].  Every refusal is the same error,
    400 with one message, whether the e-mail is unknown, the account has no
    confirmation code or the code is another one, and it writes nothing.
    Otherwise the code is the non-empty confirmation code of the account
    found by the e-mail: its rows become active with the code cleared, the
    answer is 200 with the row written, and from then on every verification
    for that e-mail, with whatever code, is refused and writes nothing. *)
Theorem verifyEmail_outcomes (s : Account.State) (code mail_ : string) :
  let s1 := Account.verifyEmail code mail_ s in
  (Account.calls s1
     = (Account.calls s ++ [Account.refusal "Invalid email verification code!" 400])%list
   ∧ Account.rows s1 = Account.rows s)
  ∨ (∃ u, Account.getUserBy email mail_ s = Some u
          ∧ Account.confirmationCode u = Some code
          ∧ code ≠ ""
          ∧ Account.calls s1
            = (Account.calls s
               ++ [Account.Sent
                     (Account.reply 200
                        "Email verified! You may now use and log in to the webservice!"
                        (Account.UserData (Account.verified_row mail_ u)))])%list
          ∧ (∀ r, In r (Account.rows s1) →
                  userID (Account.user r) = userID (Account.user u) →
                  isActive (Account.user r) = true
                  ∧ email (Account.user r) = email (Account.user u)
                  ∧ Account.confirmationCode r = None)
          ∧ (∀ r, In r (Account.rows s) →
                  userID (Account.user r) ≠ userID (Account.user u) →
                  In r (Account.rows s1))
          ∧ ∀ code',
              let s2 := Account.verifyEmail code' mail_ s1 in
              Account.calls s2
                = (Account.calls s1
                   ++ [Account.refusal "Invalid email verification code!" 400])%list
              ∧ Account.rows s2 = Account.rows s1).
Proof.
  intros s1. subst s1.
  destruct (Account.getUserBy email mail_ s) as [u|] eqn:Hu.
  2:{ left. asimpl. arw Hu. auto. }
  destruct (Account.confirmationCode u) as [c|] eqn:Hc.
  2:{ left. asimpl. arw Hu. rewrite Hc. cbn [truthyO negb]. asimpl. auto. }
  destruct (truthy c) eqn:Ht.
  2:{ left. asimpl. arw Hu. rewrite Hc. cbn [truthyO]. rewrite Ht. asimpl. auto. }
  destruct (String.eqb code c) eqn:Hcc.
  2:{ left. asimpl. arw Hu. rewrite Hc. cbn [truthyO strict_neq]. rewrite Ht, Hcc.
      asimpl. auto. }
  apply String.eqb_eq in Hcc. subst c.
  assert (Hmail : email (Account.user u) = mail_).
  { asimpl_in Hu. apply List.find_some in Hu as [_ H]. apply String.eqb_eq. exact H. }
  right. exists u. split; [reflexivity|]. split; [exact Hc|].
  split.
  { intros ->. discriminate. }
  split.
  { asimpl. arw Hu. rewrite Hc. cbn [truthyO strict_neq]. rewrite Ht, String.eqb_refl.
    asimpl. reflexivity. }
  split.
  { asimpl. arw Hu. rewrite Hc. cbn [truthyO strict_neq]. rewrite Ht, String.eqb_refl.
    asimpl. intros r' Hin Hid. apply in_map_iff in Hin as (r & <- & Hin).
    destruct (String.eqb_spec (userID (Account.user r)) (userID (Account.user u)))
      as [Heq|Hne].
    - cbn [Account.verified_row Account.user Account.verified isActive email
           Account.confirmationCode].
      rewrite Hmail. auto.
    - contradiction. }
  split.
  { asimpl. arw Hu. rewrite Hc. cbn [truthyO strict_neq]. rewrite Ht, String.eqb_refl.
    asimpl. intros r Hin Hne. apply in_map_iff. exists r.
    rewrite (proj2 (String.eqb_neq _ _) Hne). auto. }
  intros code'. apply verifyEmail_without_code.
  assert (Hrows : Account.rows (Account.verifyEmail code mail_ s)
                  = List.map (fun r => if String.eqb (userID (Account.user r))
                                            (userID (Account.user u))
                                       then Account.verified_row mail_ r else r)
                      (Account.rows s)).
  { asimpl. arw Hu. rewrite Hc. cbn [truthyO strict_neq]. rewrite Ht, String.eqb_refl.
    asimpl. reflexivity. }
  unfold Account.getUserBy. rewrite Hrows.
  apply find_email_after_verification. exact Hu.
Qed.

End VerifyEmail.

Section SendOTP.

Variable generateDefaultTOTP : string → string → string.

(** X28 - Asking for a code is throttled, except for a medium that is not
    served.  For a session of an existing user who has no pending request,
    [sendOTP] with the medium sms answers 501, mails nothing and leaves the
    flag unset.  With the medium email it mails the code of the user's
    secret and answers 202, with the authenticator it only answers 202; in
    both cases the flag is set, and while it is in the store a further
    request, for whatever medium, only gets the 429. *)
Theorem sendOTP_throttle (s : Account.State) (a : AuthInfo) (media : Account.Media)
    (u : Account.UserRow) :
  truthy (a_userID a) = true →
  Account.getUserBy userID (a_userID a) s = Some u →
  Account.getHasAskedOTP (a_userID a) s = false →
  let s1 := Account.sendOTP generateDefaultTOTP (Some a) media s in
  let accepted :=
    Account.Sent
      (Account.reply 202
         "OTP processed. Please check your chosen media and verify the OTP there."
         Account.NoData) in
  let throttled :=
    ∀ media',
      Account.calls (Account.sendOTP generateDefaultTOTP (Some a) media' s1)
      = (Account.calls s1
         ++ [Account.refusal
               "You have recently asked for an OTP. Please wait 30 seconds before we process your request again."
               429])%list in
  match media with
  | Account.sms_media =>
      Account.calls s1
      = (Account.calls s
         ++ [Account.refusal "Media is not yet implemented. Please use another media." 501])%list
      ∧ Account.getHasAskedOTP (a_userID a) s1 = false
  | Account.email_media =>
      Account.calls s1
      = (Account.calls s
         ++ [Account.Mailed
               (Account.OTPMail (email (Account.user u)) (fullName (Account.user u))
                  (generateDefaultTOTP (username (Account.user u))
                     (totpSecret (Account.user u))));
             accepted])%list
      ∧ throttled
  | Account.authenticator_media =>
      Account.calls s1 = (Account.calls s ++ [accepted])%list
      ∧ throttled
  end.
Proof.
  intros Ht Hu Hflag s1 accepted throttled. subst s1 accepted throttled.
  assert (Hset : ∀ X : gset string,
            bool_decide (a_userID a ∈ ({[ a_userID a ]} ∪ X : gset string)) = true).
  { intros X. apply bool_decide_eq_true. set_solver. }
  destruct media.
  - split.
    + asimpl. rewrite Ht. asimpl. arw Hu. arw Hflag. rewrite <- app_assoc. reflexivity.
    + intros media'. asimpl. rewrite Ht. asimpl. arw Hu. arw Hflag.
      rewrite Hu. rewrite Hset. reflexivity.
  - split.
    + asimpl. rewrite Ht. asimpl. arw Hu. arw Hflag. reflexivity.
    + asimpl. rewrite Ht. asimpl. arw Hu. arw Hflag. exact Hflag.
  - split.
    + asimpl. rewrite Ht. asimpl. arw Hu. arw Hflag. reflexivity.
    + intros media'. asimpl. rewrite Ht. asimpl. arw Hu. arw Hflag.
      rewrite Hu. rewrite Hset. reflexivity.
Qed.

End SendOTP.

(** * The account handlers on the concrete instance *)

Lemma forgotPassword_pairing_witness :
  let s' := Account.forgotPassword AccountScenario.toLowerCase "development"
              "alice@example.com" "bob" "https" "example.com" AccountScenario.start in
  Account.calls s'
    = [Account.Mailed
         (Account.ForgotPasswordMail "alice@example.com" "Alice"
            "https://example.com:3000/reset-password?token=id0&action=reset");
       Account.Sent (Account.reply 202 "Reset password request has been sent to the email!"
                       Account.NoData)]
  ∧ Account.rows s'
    = [Account.with_forgotPasswordCode (Some "id0") AccountScenario.alice_account;
       AccountScenario.bob_account].
Proof.
  destruct (forgotPassword_pairs_any_two_accounts AccountScenario.toLowerCase "development"
              AccountScenario.start "alice@example.com" "bob" "https" "example.com"
              AccountScenario.alice_account AccountScenario.bob_account)
    as (Hcalls & Hrows & _); try reflexivity.
  split; [exact Hcalls|exact Hrows].
Defined.

Lemma forgotPassword_throttle_witness :
  length (Account.mails
            (Account.calls
               (Account.repeat_handler
                  (Account.forgotPassword AccountScenario.toLowerCase "development"
                     "alice@example.com" "alice" "https" "example.com")
                  5 AccountScenario.start))) = 2.
Proof.
  apply (forgotPassword_stops_after_two AccountScenario.toLowerCase "development" 5
           AccountScenario.start "alice@example.com" "alice" "alice" "https" "example.com");
    try reflexivity.
  exists AccountScenario.alice_account, AccountScenario.alice_account.
  repeat split; reflexivity.
Defined.

Lemma resetPassword_witness :
  let s1 := Account.resetPassword AccountScenario.safeCompare AccountScenario.storedPassword
              "id0" "new-pw" "new-pw" AccountScenario.asked in
  Account.getUserByForgotPasswordCode "id0" AccountScenario.asked
    = Some (Account.with_forgotPasswordCode (Some "id0") AccountScenario.alice_account)
  ∧ Account.getUserByForgotPasswordCode "id0" s1 = None
  ∧ ∀ k, Account.sessionOwner s1 !! k ≠ Some "alice".
Proof.
  destruct (resetPassword_link_works_once AccountScenario.safeCompare
              AccountScenario.storedPassword AccountScenario.asked "id0" "new-pw" "new-pw"
              (Account.with_forgotPasswordCode (Some "id0") AccountScenario.alice_account))
    as (_ & _ & Hsess & Hgone & _); try reflexivity.
  - intros r [<-|[<-|[]]]; [reflexivity|discriminate].
  - split; [reflexivity|]. split; [exact Hgone|exact Hsess].
Defined.

Lemma supersede_witness :
  let s2 := Account.repeat_handler
              (Account.forgotPassword AccountScenario.toLowerCase "development"
                 "alice@example.com" "alice" "https" "example.com")
              2 AccountScenario.start in
  Account.getUserByForgotPasswordCode "id0" s2 = None
  ∧ Account.calls
      (Account.resetPassword AccountScenario.safeCompare AccountScenario.storedPassword
         "id0" "new-pw" "new-pw" s2)
    = (Account.calls s2
       ++ [Account.refusal "There is no user associated with the token." 404])%list.
Proof.
  destruct (forgotPassword_supersedes_earlier_link AccountScenario.toLowerCase
              AccountScenario.safeCompare AccountScenario.storedPassword "development"
              AccountScenario.start "alice@example.com" "alice" "alice" "https"
              "example.com" "new-pw" "new-pw")
    as (Hgone & _ & _ & Hcalls); try reflexivity.
  - exists AccountScenario.alice_account, AccountScenario.alice_account.
    repeat split; reflexivity.
  - discriminate.
  - intros r [<-|[<-|[]]]; discriminate.
  - split; [exact Hgone|exact Hcalls].
Defined.

Lemma sendOTP_witness :
  let s1 := Account.sendOTP AccountScenario.generateDefaultTOTP (Some Demo.alice_session)
              Account.email_media AccountScenario.start in
  Account.calls s1
    = [Account.Mailed (Account.OTPMail "alice@example.com" "Alice" "123456");
       Account.Sent
         (Account.reply 202
            "OTP processed. Please check your chosen media and verify the OTP there."
            Account.NoData)]
  ∧ Account.calls (Account.sendOTP AccountScenario.generateDefaultTOTP
                     (Some Demo.alice_session) Account.sms_media s1)
    = (Account.calls s1
       ++ [Account.refusal
             "You have recently asked for an OTP. Please wait 30 seconds before we process your request again."
             429])%list.
Proof.
  destruct (sendOTP_throttle AccountScenario.generateDefaultTOTP AccountScenario.start
              Demo.alice_session Account.email_media AccountScenario.alice_account)
    as (Hcalls & Hthrottled); try reflexivity.
  split; [exact Hcalls|exact (Hthrottled Account.sms_media)].
Defined.
